(** * twscrape: the request orchestrator of [queue_client.py]

    A shallow embedding of [twscrape/queue_client.py]: the active session
    context, the response classifier [_check_rep], the two session
    selection strategies behind [_get_ctx] and the retry loop of [req].

    Python objects that the class mutates ([self], the pool, the counter
    store) are threaded explicitly as a state; exceptions are results. *)

From Stdlib Require Import ZArith List String Ascii Bool Lia.
From stdpp Require Import gmap strings list pretty.

Local Open Scope string_scope.
Local Open Scope Z_scope.

(** ** Exceptions *)

(** The exception classes that [req] distinguishes.  [PyError] stands for
    any other subclass of [Exception] ([KeyError], [TypeError],
    [ValueError], ...).  [SystemExit] is what [exit(1)] raises; it derives
    from [BaseException], not from [Exception]. *)
Inductive exn : Type :=
| HandledError
| AbortReqError
| ReadTimeout
| ProxyError
| ConnectError
| ConnectTimeout
| SystemExit (code : Z)
| PyError (name : string).

(** [except Exception] catches everything but [SystemExit]. *)
Definition is_Exception (e : exn) : bool :=
  match e with
  | SystemExit _ => false
  | _ => true
  end.

(** The classes named by [except (httpx.ConnectError, httpx.ConnectTimeout)]. *)
Definition is_connect_failure (e : exn) : bool :=
  match e with
  | ConnectError | ConnectTimeout => true
  | _ => false
  end.

(** A computation either returns or raises. *)
Inductive res (A : Type) : Type :=
| Ret (a : A)
| Raise (e : exn).
Arguments Ret {A} a.
Arguments Raise {A} e.

Definition res_bind {A B : Type} (r : res A) (k : A -> res B) : res B :=
  match r with
  | Ret a => k a
  | Raise e => Raise e
  end.

Fixpoint res_map_list {A B : Type} (f : A -> res B) (l : list A) : res (list B) :=
  match l with
  | [] => Ret []
  | x :: l' =>
      res_bind (f x) (fun y =>
      res_bind (res_map_list f l') (fun ys => Ret (y :: ys)))
  end.

(** ** Strings, as Python uses them *)

(** [s.startswith(p)]. *)
Fixpoint startswith (s p : string) : bool :=
  match p with
  | EmptyString => true
  | String c p' =>
      match s with
      | EmptyString => false
      | String d s' => Ascii.eqb c d && startswith s' p'
      end
  end.

(** [p in s] on strings: [p] occurs in [s] at some offset. *)
Fixpoint contains (s p : string) : bool :=
  startswith s p ||
  match s with
  | EmptyString => false
  | String _ s' => contains s' p
  end.

(** [sep.join(l)]. *)
Definition join (sep : string) (l : list string) : string := String.concat sep l.

(** ** Decoded JSON bodies *)

(** The value [rep.json()] returns.  Non-integer numbers are left out. A
    [JDict] lists the fields of the decoded object, keys distinct. *)
#[warnings="-register-all"]
Inductive jvalue : Type :=
| JNull
| JBool (b : bool)
| JInt (n : Z)
| JStr (s : string)
| JList (items : list jvalue)
| JDict (fields : list (string * jvalue)).

Fixpoint dict_lookup (fields : list (string * jvalue)) (k : string) : option jvalue :=
  match fields with
  | [] => None
  | (k', v) :: fields' => if String.eqb k k' then Some v else dict_lookup fields' k
  end.

Definition is_str (k : string) (v : jvalue) : bool :=
  match v with
  | JStr s => String.eqb k s
  | _ => false
  end.

(** [k in v] for a string [k]: key of a dict, element of a list, substring
    of a string; a [TypeError] on the other values. *)
Definition py_in (k : string) (v : jvalue) : res bool :=
  match v with
  | JDict fields => Ret (existsb (String.eqb k) (map fst fields))
  | JList items => Ret (existsb (is_str k) items)
  | JStr s => Ret (contains s k)
  | _ => Raise (PyError "TypeError")
  end.

(** [v[k]] for a string [k]. *)
Definition py_getitem (v : jvalue) (k : string) : res jvalue :=
  match v with
  | JDict fields =>
      match dict_lookup fields k with
      | Some x => Ret x
      | None => Raise (PyError "KeyError")
      end
  | _ => Raise (PyError "TypeError")
  end.

(** [v.get(k, default)]: only dicts have the method. *)
Definition py_get (v : jvalue) (k : string) (default : jvalue) : res jvalue :=
  match v with
  | JDict fields =>
      match dict_lookup fields k with
      | Some x => Ret x
      | None => Ret default
      end
  | _ => Raise (PyError "AttributeError")
  end.

Fixpoint chars (s : string) : list jvalue :=
  match s with
  | EmptyString => []
  | String c s' => JStr (String c EmptyString) :: chars s'
  end.

(** [for x in v]. *)
Definition py_iter (v : jvalue) : res (list jvalue) :=
  match v with
  | JList items => Ret items
  | JDict fields => Ret (map (fun kv => JStr (fst kv)) fields)
  | JStr s => Ret (chars s)
  | _ => Raise (PyError "TypeError")
  end.

(** What the Python runtime decides and the source does not: the order in
    which a [set] of strings is iterated, and the [repr] text of a list or
    dict inside an f-string. *)
Class Runtime : Type := {
  set_iter : list string -> list string;
  repr_container : jvalue -> string
}.

(** A [set] holds each element once and nothing else; its iteration order
    is otherwise free. *)
Definition set_semantics (RT : Runtime) : Prop :=
  forall l : list string,
    List.NoDup (set_iter l) /\ (forall x, In x (set_iter l) <-> In x l).

(** [str(v)], as an f-string formats a decoded value. *)
Definition py_str `{Runtime} (v : jvalue) : string :=
  match v with
  | JNull => "None"
  | JBool true => "True"
  | JBool false => "False"
  | JInt n => pretty n
  | JStr s => s
  | JList _ | JDict _ => repr_container v
  end.

(** ** Responses *)

(** A rate-limit header as [int(rep.headers.get(name, -1))] sees it:
    absent, a text that [int] reads as [n], or a text on which [int]
    raises [ValueError]. *)
Inductive HeaderInt : Type :=
| HAbsent
| HInt (n : Z)
| HNotInt (raw : string).

Record Response : Type := {
  status_code : Z;
  x_rate_limit_remaining : HeaderInt;
  x_rate_limit_reset : HeaderInt;
  text : string;
  (** [rep.json()]; [None] when it raises [JSONDecodeError]. *)
  json : option jvalue
}.

Definition int_header (h : HeaderInt) : res Z :=
  match h with
  | HAbsent => Ret (-1)
  | HInt n => Ret n
  | HNotInt _ => Raise (PyError "ValueError")
  end.

(** Modelled from the spec: [httpx.Response.raise_for_status] is not under
    src/; "any remaining non-2xx/3xx status" is what makes it raise
    [HTTPStatusError]. *)
Definition raise_for_status (rep : Response) : bool :=
  negb ((200 <=? status_code rep) && (status_code rep <? 400)).

(** The [res] of [_check_rep]: the decoded body, or the raw text wrapped
    in a dict when decoding fails. *)
Definition decoded (rep : Response) : jvalue :=
  match json rep with
  | Some v => v
  | None => JDict [("_raw", JStr (text rep))]
  end.

(** f'({x.get("code", -1)}) {x["message"]}' *)
Definition format_error `{Runtime} (x : jvalue) : res string :=
  res_bind (py_get x "code" (JInt (-1))) (fun code =>
  res_bind (py_getitem x "message") (fun message =>
  Ret ("(" +:+ py_str code +:+ ") " +:+ py_str message))).

(** Lines 256-259: the error message of a response. *)
Definition err_msg_of `{Runtime} (body : jvalue) : res string :=
  res_bind (py_in "errors" body) (fun has_errors =>
  if has_errors then
    res_bind (py_getitem body "errors") (fun errors =>
    res_bind (py_iter errors) (fun xs =>
    res_bind (res_map_list format_error xs) (fun msgs =>
    Ret (join "; " (set_iter msgs)))))
  else Ret "OK").

(** [rep.status_code == 200 and "data" in res and "user" in res["data"]] *)
Definition partial_result (rep : Response) (body : jvalue) : res bool :=
  if status_code rep =? 200 then
    res_bind (py_in "data" body) (fun has_data =>
    if has_data then
      res_bind (py_getitem body "data") (fun data => py_in "user" data)
    else Ret false)
  else Ret false.

(** ** Accounts, contexts and the session pool *)

Module Account.
Record t : Type := mk { username : string }.
End Account.

(** An entry of [pool.accounts_info()], reduced to the two keys read. *)
Module AccInfo.
Record t : Type := mk { username : string; active : bool }.
End AccInfo.

(** [class Ctx]; the [AsyncClient] is a handle. *)
Module Ctx.
Record t : Type := mk { acc : Account.t; clt : nat; req_count : Z }.
End Ctx.

(** The methods of [AccountsPool] that the client calls, over a pool state
    [P].  [accounts_pool.py] is not under src/: the pool is a parameter. *)
Class AccountsPool (P : Type) : Type := {
  accounts_info : P -> list AccInfo.t;
  get_account : P -> string -> option Account.t;
  get_for_queue_or_wait : P -> string -> option Account.t * P;
  mark_inactive : P -> string -> option string -> P;
  lock_until : P -> string -> string -> Z -> Z -> P;
  unlock : P -> string -> string -> Z -> P
}.

(** Calls that leave the client, in the order they are made. *)
Inductive event : Type :=
| Aclose (clt : nat)
| MakeClient (username : string) (proxy : option string) (clt : nat)
| Request (clt : nat) (method url : string)
| AccountsInfo
| GetAccount (username : string)
| GetForQueueOrWait (queue : string)
| MarkInactive (username : string) (msg : option string)
| LockUntil (username queue : string) (reset_at req_count : Z)
| Unlock (username queue : string) (req_count : Z).

(** The three reports to the pool that release a session. *)
Definition is_report (e : event) : bool :=
  match e with
  | MarkInactive _ _ | LockUntil _ _ _ _ | Unlock _ _ _ => true
  | _ => false
  end.

Definition is_mark_inactive (e : event) : bool :=
  match e with
  | MarkInactive _ _ => true
  | _ => false
  end.

Definition is_request (e : event) : bool :=
  match e with
  | Request _ _ _ => true
  | _ => false
  end.

Definition is_acquire (e : event) : bool :=
  match e with
  | GetForQueueOrWait _ => true
  | _ => false
  end.

(** Transport handles made and not yet closed. *)
Fixpoint open_clients (log : list event) (acc : list nat) : list nat :=
  match log with
  | [] => acc
  | MakeClient _ _ c :: log' => open_clients log' (acc ++ [c])
  | Aclose c :: log' => open_clients log' (filter (fun d => negb (Nat.eqb c d)) acc)
  | _ :: log' => open_clients log' acc
  end.

Definition ACCOUNT_REQ_COUNT_PREFIX : string := "account_req_count_".
Definition ACCOUNT_TOTAL_COUNT : string := "accounts_total_count".

(** [class QueueClient].  [redis_conn] is the counter store when one is
    configured: [GET] answers the stored decimal text, here the integer it
    denotes; keys do not expire within a run.  [req_count] is the
    attribute that [_close_ctx] assigns. *)
Module QueueClient.
Record t (P : Type) : Type := mk {
    pool : P;
    queue : string;
    debug : bool;
    ctx : option Ctx.t;
    proxy : option string;
    redis_conn : option (gmap string Z);
    change : Z;
    ave : bool;
    req_count : option Z
  }.
Arguments mk {P}.
Arguments pool {P}.
Arguments queue {P}.
Arguments debug {P}.
Arguments ctx {P}.
Arguments proxy {P}.
Arguments redis_conn {P}.
Arguments change {P}.
Arguments ave {P}.
Arguments req_count {P}.

Definition with_pool {P} (p : P) (q : t P) : t P :=
    mk p (queue q) (debug q) (ctx q) (proxy q) (redis_conn q) (change q) (ave q) (req_count q).
Definition with_ctx {P} (c : option Ctx.t) (q : t P) : t P :=
    mk (pool q) (queue q) (debug q) c (proxy q) (redis_conn q) (change q) (ave q) (req_count q).
Definition with_redis {P} (r : gmap string Z) (q : t P) : t P :=
    mk (pool q) (queue q) (debug q) (ctx q) (proxy q) (Some r) (change q) (ave q) (req_count q).
Definition with_req_count {P} (n : Z) (q : t P) : t P :=
    mk (pool q) (queue q) (debug q) (ctx q) (proxy q) (redis_conn q) (change q) (ave q) (Some n).
End QueueClient.

(** The client, the calls made so far and the next free transport handle. *)
Record State (P : Type) : Type := mkState {
  self : QueueClient.t P;
  log : list event;
  next_clt : nat
}.
Arguments mkState {P}.
Arguments self {P}.
Arguments log {P}.
Arguments next_clt {P}.

(** ** Stateful computations that may raise *)

Definition M (P A : Type) : Type := State P -> res A * State P.

Definition ret {P A : Type} (a : A) : M P A := fun st => (Ret a, st).

Definition raise {P A : Type} (e : exn) : M P A := fun st => (Raise e, st).

Definition bind {P A B : Type} (m : M P A) (k : A -> M P B) : M P B :=
  fun st =>
    match m st with
    | (Ret a, st') => k a st'
    | (Raise e, st') => (Raise e, st')
    end.

Definition lift {P A : Type} (r : res A) : M P A := fun st => (r, st).

Definition gets {P A : Type} (f : QueueClient.t P -> A) : M P A :=
  fun st => (Ret (f (self st)), st).

Definition update {P : Type} (f : QueueClient.t P -> QueueClient.t P) : M P unit :=
  fun st => (Ret tt, mkState (f (self st)) (log st) (next_clt st)).

Definition emit {P : Type} (e : event) : M P unit :=
  fun st => (Ret tt, mkState (self st) (log st ++ [e]) (next_clt st)).

Declare Scope py_scope.
Delimit Scope py_scope with py.
Notation "x <- m ;; k" := (bind m (fun x => k))
  (at level 100, m at next level, right associativity) : py_scope.
Notation "m ;; k" := (bind m (fun _ => k))
  (at level 100, right associativity) : py_scope.

(** [if self.redis_conn]: a connection object is true, [None] is not. *)
Definition configured {A : Type} (redis_conn : option A) : bool :=
  match redis_conn with
  | Some _ => true
  | None => false
  end.

Section Client.
Context {P : Type} `{AccountsPool P} `{Runtime}.

Local Open Scope py_scope.

(** [acc.make_client(proxy=self.proxy)]: a fresh transport handle. *)
Definition make_client (acc : Account.t) : M P nat :=
  fun st =>
    let c := next_clt st in
    (Ret c,
     mkState (self st)
             (log st ++ [MakeClient (Account.username acc) (QueueClient.proxy (self st)) c])
             (S c)).

(** [_close_ctx], lines 89-105. *)
Definition _close_ctx (reset_at : Z) (inactive : bool) (msg : option string) : M P unit :=
  self_ctx <- gets QueueClient.ctx;;
  match self_ctx with
  | None => ret tt
  | Some ctx =>
      update (fun q => QueueClient.with_req_count 0 (QueueClient.with_ctx None q));;
      let username := Account.username (Ctx.acc ctx) in
      emit (Aclose (Ctx.clt ctx));;
      queue <- gets QueueClient.queue;;
      if inactive then
        emit (MarkInactive username msg);;
        update (fun q => QueueClient.with_pool (mark_inactive (QueueClient.pool q) username msg) q)
      else if reset_at >? 0 then
        emit (LockUntil username queue reset_at (Ctx.req_count ctx));;
        update (fun q => QueueClient.with_pool
                           (lock_until (QueueClient.pool q) username queue reset_at (Ctx.req_count ctx)) q)
      else
        emit (Unlock username queue (Ctx.req_count ctx));;
        update (fun q => QueueClient.with_pool
                           (unlock (QueueClient.pool q) username queue (Ctx.req_count ctx)) q)
  end.

(** The shared body of [_increment_total_count] and
    [_increment_account_usage]: [set(key, 1, ex=24*60*60)] on a missing
    key, [incr(key)] otherwise. *)
Definition increment_key (key : string) : M P (option Z) :=
  redis <- gets QueueClient.redis_conn;;
  match redis with
  | None => ret None
  | Some r =>
      match r !! key with
      | None =>
          update (QueueClient.with_redis (<[key := 1]> r));;
          ret (Some 1)
      | Some current_usage =>
          update (QueueClient.with_redis (<[key := current_usage + 1]> r));;
          ret (Some (current_usage + 1))
      end
  end.

Definition _increment_total_count : M P (option Z) :=
  increment_key ACCOUNT_TOTAL_COUNT.

Definition _get_total_count : M P (option Z) :=
  redis <- gets QueueClient.redis_conn;;
  match redis with
  | None => ret None
  | Some r => ret (r !! ACCOUNT_TOTAL_COUNT)
  end.

Definition _increment_account_usage (account : string) : M P (option Z) :=
  increment_key (ACCOUNT_REQ_COUNT_PREFIX +:+ account).

(** The second loop of [_get_least_used_account].  [min_usage] is [None]
    for [float('inf')]. *)
Fixpoint least_used_scan (r : gmap string Z) (accounts : list string)
    (min_usage : option Z) (least_used_account : option string) : option string :=
  match accounts with
  | [] => least_used_account
  | username :: accounts' =>
      match r !! (ACCOUNT_REQ_COUNT_PREFIX +:+ username) with
      | None => Some username
      | Some usage =>
          if match min_usage with
             | None => true
             | Some m => usage <? m
             end
          then least_used_scan r accounts' (Some usage) (Some username)
          else least_used_scan r accounts' min_usage least_used_account
      end
  end.

(** The first loop: the usernames of the entries with [acc['active'] == True]. *)
Definition active_usernames (accs : list AccInfo.t) : list string :=
  map AccInfo.username (filter (fun acc => AccInfo.active acc) accs).

(** [_get_least_used_account], lines 159-183. *)
Definition _get_least_used_account : M P (option string) :=
  redis <- gets QueueClient.redis_conn;;
  match redis with
  | None => ret None
  | Some r =>
      emit AccountsInfo;;
      accs <- gets (fun q => accounts_info (QueueClient.pool q));;
      ret (least_used_scan r (active_usernames accs) None None)
  end.

(** [self.ctx = Ctx(acc, clt)] after [acc.make_client]. *)
Definition install (acc : Account.t) : M P (option Ctx.t) :=
  clt <- make_client acc;;
  let ctx := Ctx.mk acc clt 0 in
  update (QueueClient.with_ctx (Some ctx));;
  ret (Some ctx).

(** [_change], lines 185-195. *)
Definition _change : M P (option Ctx.t) :=
  username <- _get_least_used_account;;
  match username with
  | None => ret None
  | Some u =>
      emit (GetAccount u);;
      acc <- gets (fun q => get_account (QueueClient.pool q) u);;
      match acc with
      | None => ret None
      | Some a => install a
      end
  end.

(** [total_count and int(total_count) % int(self.change) == 0]: a stored
    count is a non-empty text, hence true as a condition; [%] raises
    [ZeroDivisionError] on a zero [change]. *)
Definition switch_due (total_count : option Z) : M P bool :=
  match total_count with
  | None => ret false
  | Some n =>
      change <- gets QueueClient.change;;
      if change =? 0 then raise (PyError "ZeroDivisionError")
      else ret (n mod change =? 0)
  end.

(** [_change_acc_usage], lines 197-209. *)
Definition _change_acc_usage : M P (option Ctx.t) :=
  total_count <- _get_total_count;;
  due <- switch_due total_count;;
  if due then _change
  else
    self_ctx <- gets QueueClient.ctx;;
    match self_ctx with
    | Some ctx => ret (Some ctx)
    | None => _change
    end.

(** [_org_change], lines 211-219. *)
Definition _org_change : M P (option Ctx.t) :=
  queue <- gets QueueClient.queue;;
  emit (GetForQueueOrWait queue);;
  got <- gets (fun q => get_for_queue_or_wait (QueueClient.pool q) queue);;
  update (QueueClient.with_pool (snd got));;
  match fst got with
  | None => ret None
  | Some a => install a
  end.

(** [_get_ctx], lines 221-236. *)
Definition _get_ctx : M P (option Ctx.t) :=
  ave <- gets QueueClient.ave;;
  redis <- gets QueueClient.redis_conn;;
  if ave && configured redis then _change_acc_usage
  else
    total_count <- _get_total_count;;
    due <- switch_due total_count;;
    if due then _org_change
    else
      self_ctx <- gets QueueClient.ctx;;
      match self_ctx with
      | Some ctx => ret (Some ctx)
      | None => _org_change
      end.

(** The last checks of [_check_rep], lines 315-324; [now] is the value of
    [utc.ts()]. *)
Definition last_checks (now : Z) (rep : Response) (err_msg : string) : M P unit :=
  if negb (String.eqb err_msg "OK") then ret tt
  else if raise_for_status rep then
    _close_ctx (now + 60 * 15) false None;;
    raise HandledError
  else ret tt.

(** The checks of [_check_rep] on the extracted signals, lines 264-324. *)
Definition checks (now : Z) (rep : Response) (body : jvalue)
    (limit_remaining limit_reset : Z) (err_msg : string) : M P unit :=
  if startswith err_msg "(336) The following features cannot be null" then
    raise (SystemExit 1)
  else if (limit_remaining =? 0) && (limit_reset >? 0) then
    _close_ctx limit_reset false None;;
    raise HandledError
  else if startswith err_msg "(88) Rate limit exceeded" && (limit_remaining >? 0) then
    _close_ctx (-1) true (Some err_msg);;
    raise HandledError
  else if startswith err_msg "(326) Authorization: Denied by access control" then
    _close_ctx (-1) true (Some err_msg);;
    raise HandledError
  else if startswith err_msg "(32) Could not authenticate you" then
    _close_ctx (-1) true (Some err_msg);;
    raise HandledError
  else if String.eqb err_msg "OK" && (status_code rep =? 403) then
    _close_ctx (-1) true None;;
    raise HandledError
  else
    err_msg <- (if startswith err_msg "(131) Dependency: Internal error" then
                  has_data <- lift (partial_result rep body);;
                  if has_data then ret "OK" else raise AbortReqError
                else ret err_msg);;
    if (status_code rep =? 200)
       && contains err_msg "_Missing: No status found with that ID" then ret tt
    else if (status_code rep =? 200) && contains err_msg "Authorization" then ret tt
    else last_checks now rep err_msg.

(** [_check_rep], lines 238-324.  The diagnostic dump under [self.debug]
    and the log lines are left out. *)
Definition _check_rep (now : Z) (rep : Response) : M P unit :=
  let body := decoded rep in
  limit_remaining <- lift (int_header (x_rate_limit_remaining rep));;
  limit_reset <- lift (int_header (x_rate_limit_reset rep));;
  err_msg <- lift (err_msg_of body);;
  checks now rep body limit_remaining limit_reset err_msg.

(** What the environment supplies to one pass of the loop of [req]: the
    outcome of [ctx.clt.request] and the clock reading. *)
Record attempt : Type := mkAttempt {
  outcome : res Response;
  ts : Z
}.

(** [ctx.req_count += 1]; [ctx] is the object [self.ctx] holds. *)
Definition count_success : M P unit :=
  update (fun q =>
    match QueueClient.ctx q with
    | Some c =>
        QueueClient.with_ctx
          (Some (Ctx.mk (Ctx.acc c) (Ctx.clt c) (Ctx.req_count c + 1))) q
    | None => q
    end).

(** The [try] block of [req], lines 339-347. *)
Definition try_block (method url : string) (ctx : Ctx.t) (a : attempt) : M P Response :=
  emit (Request (Ctx.clt ctx) method url);;
  rep <- lift (outcome a);;
  _check_rep (ts a) rep;;
  count_success;;
  _increment_account_usage (Account.username (Ctx.acc ctx));;
  _increment_total_count;;
  ret rep.

(** How one pass of the [while True] loop ends, with the two local
    counters as it leaves them. *)
Inductive pass : Type :=
| Continue (unknown_retry connection_retry : Z)
| Return (rep : option Response) (unknown_retry connection_retry : Z)
| Propagate (e : exn) (unknown_retry connection_retry : Z).

(** The [except] clauses of [req], lines 348-372, in their order. *)
Definition handlers (e : exn) (now unknown_retry connection_retry : Z)
    : State P -> pass * State P :=
  fun st =>
    match e with
    | AbortReqError => (Return None unknown_retry connection_retry, st)
    | HandledError => (Continue unknown_retry connection_retry, st)
    | ReadTimeout | ProxyError => (Continue unknown_retry connection_retry, st)
    | ConnectError | ConnectTimeout =>
        let connection_retry := connection_retry + 1 in
        if connection_retry >=? 3
        then (Propagate e unknown_retry connection_retry, st)
        else (Continue unknown_retry connection_retry, st)
    | SystemExit _ => (Propagate e unknown_retry connection_retry, st)
    | PyError _ =>
        let unknown_retry := unknown_retry + 1 in
        if unknown_retry >=? 3
        then
          match _close_ctx (now + 60 * 15) false None st with
          | (Ret _, st') => (Continue unknown_retry connection_retry, st')
          | (Raise e', st') => (Propagate e' unknown_retry connection_retry, st')
          end
        else (Continue unknown_retry connection_retry, st)
    end.

(** One pass of the loop of [req], lines 334-372. *)
Definition req_pass (method url : string) (a : attempt)
    (unknown_retry connection_retry : Z) : State P -> pass * State P :=
  fun st =>
    match _get_ctx st with
    | (Raise e, st1) => (Propagate e unknown_retry connection_retry, st1)
    | (Ret None, st1) => (Return None unknown_retry connection_retry, st1)
    | (Ret (Some ctx), st1) =>
        match try_block method url ctx a st1 with
        | (Ret rep, st2) => (Return (Some rep) 0 0, st2)
        | (Raise e, st2) => handlers e (ts a) unknown_retry connection_retry st2
        end
    end.

(** How a call of [req] ends: it returns, it raises, or the loop is still
    running when the environment has no further attempt to offer. *)
Inductive ending : Type :=
| Returned (rep : option Response) (unknown_retry connection_retry : Z)
| Raised (e : exn) (unknown_retry connection_retry : Z)
| Looping (unknown_retry connection_retry : Z).

Fixpoint req_loop (method url : string) (script : list attempt)
    (unknown_retry connection_retry : Z) (st : State P) : ending * State P :=
  match script with
  | [] => (Looping unknown_retry connection_retry, st)
  | a :: script' =>
      match req_pass method url a unknown_retry connection_retry st with
      | (Continue u c, st') => req_loop method url script' u c st'
      | (Return rep u c, st') => (Returned rep u c, st')
      | (Propagate e u c, st') => (Raised e u c, st')
      end
  end.

(** [req], lines 329-372: both counters start at zero. *)
Definition req (method url : string) (script : list attempt) (st : State P)
    : ending * State P :=
  req_loop method url script 0 0 st.

(** [get], lines 326-327. *)
Definition get (url : string) (script : list attempt) (st : State P)
    : ending * State P :=
  req "GET" url script st.

(** [__aexit__], lines 86-87. *)
Definition __aexit__ : M P unit := _close_ctx (-1) false None.

End Client.

(** ** A reference pool and two runtimes, for running the model *)

Inductive session_state : Type :=
| Available
| InUse
| LockedUntil (reset_at : Z)
| Inactive.

Record Session : Type := mkSession {
  session_name : string;
  session_state_of : session_state
}.

Definition is_available (s : Session) : bool :=
  match session_state_of s with
  | Available => true
  | _ => false
  end.

Definition is_inactive (s : Session) : bool :=
  match session_state_of s with
  | Inactive => true
  | _ => false
  end.

Definition set_state (u : string) (x : session_state) (p : list Session) : list Session :=
  map (fun s => if String.eqb (session_name s) u then mkSession u x else s) p.

Fixpoint acquire (p : list Session) : option Account.t * list Session :=
  match p with
  | [] => (None, [])
  | s :: p' =>
      if is_available s
      then (Some (Account.mk (session_name s)), mkSession (session_name s) InUse :: p')
      else let r := acquire p' in (fst r, s :: snd r)
  end.

(** Modelled from the spec: [accounts_pool.py] is not under src/.  The
    Session Pool of section 6 for one queue: a session is available,
    in use, locked until a timestamp, or inactive; acquisition hands out
    the first available session and answers nothing when there is none;
    the listing reports every session with [active] false only for an
    inactive one; lookup by identifier ignores the state. *)
#[local] Instance list_pool : AccountsPool (list Session) := {
  accounts_info p :=
    map (fun s => AccInfo.mk (session_name s) (negb (is_inactive s))) p;
  get_account p u :=
    match find (fun s => String.eqb (session_name s) u) p with
    | Some s => Some (Account.mk (session_name s))
    | None => None
    end;
  get_for_queue_or_wait p _ := acquire p;
  mark_inactive p u _ := set_state u Inactive p;
  lock_until p u _ reset_at _ := set_state u (LockedUntil reset_at) p;
  unlock p u _ _ := set_state u Available p
}.

(** The distinct elements of a list, in the order they first occur. *)
Fixpoint first_occurrences (seen l : list string) : list string :=
  match l with
  | [] => []
  | x :: l' =>
      if existsb (String.eqb x) seen then first_occurrences seen l'
      else x :: first_occurrences (x :: seen) l'
  end.

(** A runtime whose sets iterate in insertion order. *)
Definition insertion_runtime : Runtime := {|
  set_iter l := first_occurrences [] l;
  repr_container _ := "<container>"
|}.

(** A runtime whose sets iterate in the reverse of insertion order, as a
    hash table may. *)
Definition reversing_runtime : Runtime := {|
  set_iter l := rev (first_occurrences [] l);
  repr_container _ := "<container>"
|}.

Definition api_error (code : Z) (message : string) : jvalue :=
  JDict [("code", JInt code); ("message", JStr message)].

Definition errors_body (errors : list jvalue) : jvalue :=
  JDict [("errors", JList errors)].

Definition plain_response (status : Z) (remaining reset : HeaderInt) (body : jvalue)
    : Response :=
  {| status_code := status;
     x_rate_limit_remaining := remaining;
     x_rate_limit_reset := reset;
     text := "";
     json := Some body |}.

Definition client0 (sessions : list Session) (ctx : option Ctx.t)
    (redis_conn : option (gmap string Z)) (change : Z) (ave : bool)
    : State (list Session) :=
  mkState (QueueClient.mk sessions "search" false ctx None redis_conn change ave None) [] 7.


Definition two_sessions : list Session :=
  [mkSession "A" Available; mkSession "B" Available].

Definition ctx_A : Ctx.t := Ctx.mk (Account.mk "A") 7 0.

(** Remaining 0, reset 100, and a ban signature in the body. *)
Definition rate_limited_denied : Response :=
  plain_response 200 (HInt 0) (HInt 100)
    (errors_body [api_error 326 "Authorization: Denied by access control"]).

(** Remaining 0, reset 100, and the missing-feature signature. *)
Definition rate_limited_missing_feature : Response :=
  plain_response 200 (HInt 0) (HInt 100)
    (errors_body [api_error 336 "The following features cannot be null: x"]).

(** A client that holds session A on transport 7, B being free. *)
Definition holding_A (redis_conn : option (gmap string Z)) (change : Z) (ave : bool)
    : State (list Session) :=
  mkState
    (QueueClient.mk [mkSession "A" InUse; mkSession "B" Available] "search" false
       (Some ctx_A) None redis_conn change ave None)
    [GetForQueueOrWait "search"; MakeClient "A" None 7] 8.

(** A store whose global count is [n]. *)
Definition total_count (n : Z) : gmap string Z := <[ACCOUNT_TOTAL_COUNT := n]> ∅.

(** Status 200, no rate-limit headers, an empty object. *)
Definition ok_response : Response := plain_response 200 HAbsent HAbsent (JDict []).

(** Remaining 0 and reset 100 on an otherwise plain response. *)
Definition rate_limited : Response := plain_response 200 (HInt 0) (HInt 100) (JDict []).

(** Status 500 and an empty object. *)
Definition server_error : Response := plain_response 500 HAbsent HAbsent (JDict []).

(** The dependency signature with no [data]. *)
Definition dependency_error : Response :=
  plain_response 200 HAbsent HAbsent
    (errors_body [api_error 131 "Dependency: Internal error."]).

(** The dependency signature next to a [data.user] payload. *)
Definition dependency_error_with_user : Response :=
  plain_response 200 HAbsent HAbsent
    (JDict [("errors", JList [api_error 131 "Dependency: Internal error."]);
            ("data", JDict [("user", JDict [])])]).

(** The dependency signature next to ["data": null], as a GraphQL server
    answers when an error has prevented the execution. *)
Definition dependency_error_null_data : Response :=
  plain_response 200 HAbsent HAbsent
    (JDict [("errors", JList [api_error 131 "Dependency: Internal error."]);
            ("data", JNull)]).

(** The dependency signature next to an empty [data] object. *)
Definition dependency_error_empty_data : Response :=
  plain_response 200 HAbsent HAbsent
    (JDict [("errors", JList [api_error 131 "Dependency: Internal error."]);
            ("data", JDict [])]).

(** Two distinct entries, the first one repeated. *)
Definition repeated_errors : jvalue :=
  errors_body [api_error 1 "a"; api_error 2 "b"; api_error 1 "a"].

(** Status 200 and a body that does not decode. *)
Definition undecodable : Response :=
  {| status_code := 200;
     x_rate_limit_remaining := HAbsent;
     x_rate_limit_reset := HAbsent;
     text := "<html>";
     json := None |}.

(** A remaining header that is not a number. *)
Definition bad_header : Response :=
  plain_response 200 (HNotInt "soon") (HInt 100) (JDict []).

(** Quota exceeded while requests remain. *)
Definition quota_ban : Response :=
  plain_response 200 (HInt 5) (HInt 100) (errors_body [api_error 88 "Rate limit exceeded"]).

(** A rate-limited response whose second error entry has no message. *)
Definition entry_without_message : Response :=
  plain_response 200 (HInt 0) (HInt 100)
    (errors_body [api_error 1 "a"; JDict [("code", JInt 2)]]).

(** ** Reference definitions for the statements *)

Section Reference.
Context {P : Type} `{AccountsPool P}.

(** The report that [_close_ctx] owes the pool for a context, by the
    precedence inactive, then lock, then unlock. *)
Definition release_report (ctx : Ctx.t) (queue : string) (reset_at : Z)
    (inactive : bool) (msg : option string) : event :=
  let username := Account.username (Ctx.acc ctx) in
  if inactive then MarkInactive username msg
  else if reset_at >? 0 then LockUntil username queue reset_at (Ctx.req_count ctx)
  else Unlock username queue (Ctx.req_count ctx).

(** The pool after that report. *)
Definition released_pool (p : P) (ctx : Ctx.t) (queue : string) (reset_at : Z)
    (inactive : bool) (msg : option string) : P :=
  let username := Account.username (Ctx.acc ctx) in
  if inactive then mark_inactive p username msg
  else if reset_at >? 0 then lock_until p username queue reset_at (Ctx.req_count ctx)
  else unlock p username queue (Ctx.req_count ctx).

(** The state [_close_ctx] leaves when a context is open. *)
Definition closed (st : State P) (ctx : Ctx.t) (reset_at : Z) (inactive : bool)
    (msg : option string) : State P :=
  let q := self st in
  mkState
    (QueueClient.mk
       (released_pool (QueueClient.pool q) ctx (QueueClient.queue q) reset_at inactive msg)
       (QueueClient.queue q) (QueueClient.debug q) None (QueueClient.proxy q)
       (QueueClient.redis_conn q) (QueueClient.change q) (QueueClient.ave q) (Some 0))
    (log st ++ [Aclose (Ctx.clt ctx);
                release_report ctx (QueueClient.queue q) reset_at inactive msg])
    (next_clt st).

(** [c] is a context that selection created on the way from [st] to
    [st1]: a fresh transport handle, a zero success count, and it is the
    one [self.ctx] holds. *)
Definition freshly_installed (st : State P) (c : Ctx.t) (st1 : State P) : Prop :=
  QueueClient.ctx (self st1) = Some c /\
  Ctx.clt c = next_clt st /\
  Ctx.req_count c = 0 /\
  exists evs : list event,
    log st1 =
      (log st ++ evs ++
       [MakeClient (Account.username (Ctx.acc c)) (QueueClient.proxy (self st))
          (Ctx.clt c)])%list.

(** The state once [ctx.clt.request(method, url)] has been called. *)
Definition requested (method url : string) (ctx : Ctx.t) (st : State P) : State P :=
  mkState (self st) (log st ++ [Request (Ctx.clt ctx) method url]) (next_clt st).

End Reference.

(** The tracked usage count of a session, if it has one. *)
Definition usage_of (r : gmap string Z) (username : string) : option Z :=
  r !! (ACCOUNT_REQ_COUNT_PREFIX +:+ username).

(** [u] is the session that usage-balanced selection owes for a listing:
    the first never-used one, every session before it being used; or,
    when [u] is used, one whose count is below every count before it and
    not above any count after it, all sessions being used. *)
Definition selected (r : gmap string Z) (accounts : list string) (u : string) : Prop :=
  exists pre post : list string,
    accounts = (pre ++ u :: post)%list /\
    match usage_of r u with
    | None => forall v, In v pre -> usage_of r v <> None
    | Some n =>
        (forall v, In v pre -> exists k, usage_of r v = Some k /\ n < k) /\
        (forall v, In v post -> exists k, usage_of r v = Some k /\ n <= k)
    end.

(** What the scan has established after the sessions in [seen]. *)
Definition scanned (r : gmap string Z) (seen : list string)
    (min_usage : option Z) (least_used_account : option string) : Prop :=
  match least_used_account with
  | None => seen = [] /\ min_usage = None
  | Some a =>
      exists (n : Z) (pre mid : list string),
        min_usage = Some n /\ usage_of r a = Some n /\
        seen = (pre ++ a :: mid)%list /\
        (forall v, In v pre -> exists k, usage_of r v = Some k /\ n < k) /\
        (forall v, In v mid -> exists k, usage_of r v = Some k /\ n <= k)
  end.

(** [u] is the session that usage-balanced selection owes for the listing
    of the pool itself: an entry listed with [active] true; when [u] was
    never used, every active entry before it is used; when [u] is used,
    its count is below that of every active entry before it, not above
    that of any active entry after it, and every active entry is used.
    Entries that are not active do not count, used or not. *)
Definition selected_active (r : gmap string Z) (listing : list AccInfo.t) (u : string)
    : Prop :=
  exists pre post : list AccInfo.t,
    listing = (pre ++ AccInfo.mk u true :: post)%list /\
    match usage_of r u with
    | None =>
        forall a, In a pre -> AccInfo.active a = true ->
                  usage_of r (AccInfo.username a) <> None
    | Some n =>
        (forall a, In a pre -> AccInfo.active a = true ->
                   exists k, usage_of r (AccInfo.username a) = Some k /\ n < k) /\
        (forall a, In a post -> AccInfo.active a = true ->
                   exists k, usage_of r (AccInfo.username a) = Some k /\ n <= k)
    end.

(** The counts of the sessions A and B of the examples. *)
Definition usage_A5_B2 : gmap string Z :=
  <[ACCOUNT_REQ_COUNT_PREFIX +:+ "A" := 5]>
    (<[ACCOUNT_REQ_COUNT_PREFIX +:+ "B" := 2]> ∅).

(** [self.ctx] if a context is open, a newly acquired one otherwise. *)
Definition keep_or_acquire {P : Type} `{AccountsPool P} (st : State P)
    : res (option Ctx.t) * State P :=
  match QueueClient.ctx (self st) with
  | Some ctx => (Ret (Some ctx), st)
  | None => _org_change st
  end.

(** An attempt whose transport call raises [e]. *)
Definition failing (e : exn) (now : Z) : attempt := mkAttempt (Raise e) now.


(** No check of [_check_rep] before line 315 applies to the response. *)
Definition no_earlier_rule (rep : Response) (limit_remaining limit_reset : Z)
    (err_msg : string) : bool :=
  negb (startswith err_msg "(336) The following features cannot be null")
  && negb ((limit_remaining =? 0) && (limit_reset >? 0))
  && negb (startswith err_msg "(88) Rate limit exceeded" && (limit_remaining >? 0))
  && negb (startswith err_msg "(326) Authorization: Denied by access control")
  && negb (startswith err_msg "(32) Could not authenticate you")
  && negb (String.eqb err_msg "OK" && (status_code rep =? 403))
  && negb (startswith err_msg "(131) Dependency: Internal error")
  && negb ((status_code rep =? 200)
           && contains err_msg "_Missing: No status found with that ID")
  && negb ((status_code rep =? 200) && contains err_msg "Authorization").

(** Status 500 with an error the classifier has no rule for. *)
Definition server_error_with_message : Response :=
  plain_response 500 HAbsent HAbsent (errors_body [api_error 1 "Oops"]).

(** ** Further definitions: accounting and sessions of requests *)

(** The store after [set(key, 1)] on a missing key or [incr(key)]. *)
Definition bump (key : string) (r : gmap string Z) : gmap string Z :=
  <[key := match r !! key with
           | Some n => n + 1
           | None => 1
           end]> r.

(** The calls that ask the pool for sessions and report nothing. *)
Definition is_query (e : event) : bool :=
  match e with
  | AccountsInfo | GetAccount _ | GetForQueueOrWait _ => true
  | _ => false
  end.

(** The classes named by [except (httpx.ReadTimeout, httpx.ProxyError)]. *)
Definition is_transient (e : exn) : bool :=
  match e with
  | ReadTimeout | ProxyError => true
  | _ => false
  end.

Definition is_unknown (e : exn) : bool :=
  match e with
  | PyError _ => true
  | _ => false
  end.

(** No switch is due by the stored global count: there is no store, or no
    count, or a count that is not a multiple of a non-zero [change]. *)
Definition stays {P : Type} (q : QueueClient.t P) : bool :=
  match QueueClient.redis_conn q with
  | None => true
  | Some r =>
      match r !! ACCOUNT_TOTAL_COUNT with
      | None => true
      | Some n =>
          negb (QueueClient.change q =? 0) && negb (n mod QueueClient.change q =? 0)
      end
  end.

(** What the constructor fixes and no method assigns, with the store. *)
Definition settings {P : Type} (q : QueueClient.t P)
    : string * option string * Z * bool :=
  (QueueClient.queue q, QueueClient.proxy q, QueueClient.change q, QueueClient.ave q).

(** The store after a success has been booked for some session, or the
    store untouched. *)
Definition store_booked (before after : option (gmap string Z)) : Prop :=
  exists username : string,
    after = match before with
            | Some r =>
                Some (bump ACCOUNT_TOTAL_COUNT
                        (bump (ACCOUNT_REQ_COUNT_PREFIX +:+ username) r))
            | None => None
            end.

(** The pass returns a response. *)
Definition pass_response (p : pass) : bool :=
  match p with
  | Return (Some _) _ _ => true
  | _ => false
  end.

(** The value of [connection_retry] when a call of [req] ends. *)
Definition connection_retry_of (e : ending) : Z :=
  match e with
  | Returned _ _ c | Raised _ _ c | Looping _ c => c
  end.

(** The value of [unknown_retry] when a call of [req] ends. *)
Definition unknown_retry_of (e : ending) : Z :=
  match e with
  | Returned _ u _ | Raised _ u _ | Looping u _ => u
  end.

(** [req] has raised a connect failure. *)
Definition raised_connect_failure (e : ending) : bool :=
  match e with
  | Raised x _ _ => is_connect_failure x
  | _ => false
  end.

(** [req] has returned a response. *)
Definition returned_response (e : ending) : bool :=
  match e with
  | Returned (Some _) _ _ => true
  | _ => false
  end.

Section Sessions.
Context {P : Type} `{AccountsPool P} `{Runtime}.

Local Open Scope py_scope.

(** Lines 343-345: what [req] books after a classification that returns. *)
Definition account_success (ctx : Ctx.t) : M P unit :=
  count_success;;
  _increment_account_usage (Account.username (Ctx.acc ctx));;
  _increment_total_count;;
  ret tt.

(** The client after a success has been booked for [username]: one more
    on the count of the context, on the count of the session and on the
    global count. *)
Definition booked (username : string) (st : State P) : State P :=
  let q := self st in
  mkState
    (QueueClient.mk (QueueClient.pool q) (QueueClient.queue q) (QueueClient.debug q)
       match QueueClient.ctx q with
       | Some c => Some (Ctx.mk (Ctx.acc c) (Ctx.clt c) (Ctx.req_count c + 1))
       | None => None
       end
       (QueueClient.proxy q)
       match QueueClient.redis_conn q with
       | Some r =>
           Some (bump ACCOUNT_TOTAL_COUNT (bump (ACCOUNT_REQ_COUNT_PREFIX +:+ username) r))
       | None => None
       end
       (QueueClient.change q) (QueueClient.ave q) (QueueClient.req_count q))
    (log st) (next_clt st).

(** [__aenter__], lines 82-84. *)
Definition __aenter__ : M P unit := _get_ctx;; ret tt.

(** One call of [req] per attempt, each call being offered that attempt
    alone. *)
Definition serve (method url : string) (attempts : list attempt) (st : State P)
    : State P :=
  fold_left (fun s a => snd (req method url [a] s)) attempts st.

(** An attempt whose transport call returns a response that the
    classifier accepts. *)
Definition accepted (a : attempt) : Prop :=
  exists rep : Response,
    outcome a = Ret rep /\
    forall s : State P, fst (_check_rep (ts a) rep s) = Ret tt.

(** [self.ctx] if a context is open, else what [_change] installs. *)
Definition keep_or_change (st : State P) : res (option Ctx.t) * State P :=
  match QueueClient.ctx (self st) with
  | Some ctx => (Ret (Some ctx), st)
  | None => _change st
  end.

(** The transports open are exactly the one of [self.ctx], if any. *)
Definition single_flight (st : State P) : Prop :=
  open_clients (log st) [] =
    match QueueClient.ctx (self st) with
    | Some ctx => [Ctx.clt ctx]
    | None => []
    end.

(** [st] with [n] further calls of [ctx.clt.request]. *)
Definition requested_times (n : nat) (method url : string) (ctx : Ctx.t)
    (st : State P) : State P :=
  mkState (self st) (log st ++ repeat (Request (Ctx.clt ctx) method url) n) (next_clt st).

(** The shape of an outcome [r] of the classifier run from [st]: a return,
    an abort, the exit or an unknown error leave [st]; [HandledError]
    comes after one call of [_close_ctx]; nothing else is raised. *)
Definition classified (st : State P) (r : res unit * State P) : Prop :=
  match fst r with
  | Ret _ => snd r = st
  | Raise HandledError =>
      exists (reset_at : Z) (inactive : bool) (msg : option string),
        snd r = snd (_close_ctx reset_at inactive msg st)
  | Raise AbortReqError => snd r = st
  | Raise (SystemExit code) => code = 1 /\ snd r = st
  | Raise (PyError _) => snd r = st
  | Raise _ => False
  end.

(** What the [try] block of [req] raises for an attempt, if anything: the
    exception of the transport call, else the one of the classifier run
    from [s]. *)
Definition raised_in_try (a : attempt) (s : State P) : option exn :=
  match outcome a with
  | Raise e => Some e
  | Ret rep =>
      match fst (_check_rep (ts a) rep s) with
      | Ret _ => None
      | Raise e => Some e
      end
  end.

(** The number of attempts of a script whose [try] block raises an
    exception of the class [class]. *)
Fixpoint tally (class : exn -> bool) (script : list attempt) (s : State P) : Z :=
  match script with
  | [] => 0
  | a :: script' =>
      match raised_in_try a s with
      | Some e => if class e then 1 else 0
      | None => 0
      end + tally class script' s
  end.

End Sessions.

(** * Properties *)

(** ** Prefixes *)

Lemma startswith_two (m p q : string) :
  startswith m p = true -> startswith m q = true ->
  startswith p q || startswith q p = true.
Proof.
  revert m q. induction p as [|c p IH]; intros m q Hp Hq.
  - destruct q; reflexivity.
  - destruct q as [|d q]; [reflexivity|].
    destruct m as [|a m]; [discriminate|].
    simpl in *.
    apply andb_true_iff in Hp as [Hc Hp].
    apply andb_true_iff in Hq as [Hd Hq].
    apply Ascii.eqb_eq in Hc. apply Ascii.eqb_eq in Hd. subst.
    rewrite !Ascii.eqb_refl. simpl. eapply IH; eassumption.
Qed.

(** Two signatures, neither of which begins the other, never begin the
    same message. *)
Lemma startswith_excludes (m p q : string) :
  startswith p q || startswith q p = false ->
  startswith m p = true -> startswith m q = false.
Proof.
  intros Hpq Hp. destruct (startswith m q) eqn:Hq; [|reflexivity].
  rewrite (startswith_two m p q Hp Hq) in Hpq. discriminate.
Qed.

Lemma startswith_not_eqb (m p q : string) :
  startswith q p = false -> startswith m p = true -> String.eqb m q = false.
Proof.
  intros Hq Hp. destruct (String.eqb m q) eqn:E; [|reflexivity].
  apply String.eqb_eq in E. subst. congruence.
Qed.

Section Properties.
Context {P : Type} `{AccountsPool P} `{Runtime}.

Local Open Scope py_scope.

(** ** Releasing the context *)

Lemma close_ctx_none (st : State P) reset_at inactive msg :
  QueueClient.ctx (self st) = None ->
  _close_ctx reset_at inactive msg st = (Ret tt, st).
Proof.
  intros E. unfold _close_ctx, bind, gets. rewrite E. reflexivity.
Qed.

Lemma close_ctx_some (st : State P) ctx reset_at inactive msg :
  QueueClient.ctx (self st) = Some ctx ->
  _close_ctx reset_at inactive msg st = (Ret tt, closed st ctx reset_at inactive msg).
Proof.
  intros E. unfold _close_ctx, closed, release_report, released_pool, bind, gets.
  rewrite E. destruct st as [q l n]. simpl.
  destruct inactive; [|destruct (reset_at >? 0)];
    simpl; rewrite <- app_assoc; reflexivity.
Qed.

(** C10. Every call of [_close_ctx] makes at most one report to the pool:
    with no open context it changes nothing; otherwise it closes the
    transport, clears [self.ctx] and reports mark-inactive when [inactive]
    is set (whatever [reset_at] is), else lock-until when [reset_at > 0],
    else an unlock with the context's success count. *)
Theorem close_ctx_one_report (st : State P) (reset_at : Z) (inactive : bool)
    (msg : option string) :
  let r := _close_ctx reset_at inactive msg st in
  fst r = Ret tt /\
  match QueueClient.ctx (self st) with
  | None => snd r = st
  | Some ctx =>
      QueueClient.ctx (self (snd r)) = None /\
      log (snd r) =
        (log st ++ [Aclose (Ctx.clt ctx);
                   if inactive
                   then MarkInactive (Account.username (Ctx.acc ctx)) msg
                   else if reset_at >? 0
                   then LockUntil (Account.username (Ctx.acc ctx))
                          (QueueClient.queue (self st)) reset_at (Ctx.req_count ctx)
                   else Unlock (Account.username (Ctx.acc ctx))
                          (QueueClient.queue (self st)) (Ctx.req_count ctx)])%list
  end /\
  (List.length (filter is_report (skipn (List.length (log st)) (log (snd r)))) <= 1)%nat.
Proof.
  destruct (QueueClient.ctx (self st)) as [ctx|] eqn:E; cbv zeta.
  - rewrite (close_ctx_some st ctx reset_at inactive msg E). simpl.
    unfold release_report. split; [reflexivity|]. split; [split; reflexivity|].
    rewrite skipn_app, Nat.sub_diag, skipn_all. simpl.
    destruct inactive; [|destruct (reset_at >? 0)]; simpl; lia.
  - rewrite (close_ctx_none st reset_at inactive msg E). simpl.
    split; [reflexivity|]. split; [reflexivity|].
    rewrite skipn_all. simpl. lia.
Qed.

(** ** Selecting a context *)

Ltac unfold_m :=
  unfold bind, ret, raise, lift, gets, update, emit in *.

Lemma install_result (a : Account.t) (st : State P) :
  install a st =
    (Ret (Some (Ctx.mk a (next_clt st) 0)),
     mkState (QueueClient.with_ctx (Some (Ctx.mk a (next_clt st) 0)) (self st))
             (log st ++ [MakeClient (Account.username a) (QueueClient.proxy (self st))
                           (next_clt st)])
             (S (next_clt st))).
Proof. reflexivity. Qed.

(** What [_org_change] does, by the answer of the pool. *)
Lemma org_change_result (st : State P) :
  let q := self st in
  let got := get_for_queue_or_wait (QueueClient.pool q) (QueueClient.queue q) in
  let st1 := mkState (QueueClient.with_pool (snd got) q)
                     (log st ++ [GetForQueueOrWait (QueueClient.queue q)])
                     (next_clt st) in
  _org_change st =
    match fst got with
    | None => (Ret None, st1)
    | Some a => install a st1
    end.
Proof.
  cbv zeta. unfold _org_change. unfold_m. simpl.
  destruct (fst (get_for_queue_or_wait _ _)); reflexivity.
Qed.

(** A context that selection hands out is the one [self.ctx] holds. *)
Lemma org_change_installed (st st1 : State P) (c : Ctx.t) :
  _org_change st = (Ret (Some c), st1) ->
  QueueClient.ctx (self st1) = Some c /\
  Ctx.clt c = next_clt st /\ Ctx.req_count c = 0 /\
  fst (get_for_queue_or_wait (QueueClient.pool (self st)) (QueueClient.queue (self st)))
    = Some (Ctx.acc c) /\
  log st1 =
    (log st ++ [GetForQueueOrWait (QueueClient.queue (self st));
                MakeClient (Account.username (Ctx.acc c)) (QueueClient.proxy (self st))
                  (Ctx.clt c)])%list.
Proof.
  rewrite org_change_result. cbv zeta.
  destruct (fst (get_for_queue_or_wait _ _)) as [a|] eqn:E; [|discriminate].
  rewrite install_result. intros [= <- <-]. simpl.
  rewrite <- app_assoc. repeat split; reflexivity.
Qed.

(** What [_change] does, by the counter store and the answers of the pool. *)
Lemma change_result (st : State P) :
  let q := self st in
  _change st =
    match QueueClient.redis_conn q with
    | None => (Ret None, st)
    | Some r =>
        let st1 := mkState q (log st ++ [AccountsInfo]) (next_clt st) in
        match least_used_scan r (active_usernames (accounts_info (QueueClient.pool q)))
                None None with
        | None => (Ret None, st1)
        | Some u =>
            let st2 := mkState q (log st1 ++ [GetAccount u]) (next_clt st) in
            match get_account (QueueClient.pool q) u with
            | None => (Ret None, st2)
            | Some a => install a st2
            end
        end
    end.
Proof.
  cbv zeta. unfold _change, _get_least_used_account. unfold_m. simpl.
  destruct st as [q l n]. simpl.
  destruct (QueueClient.redis_conn q) as [r|]; [|reflexivity]. simpl.
  destruct (least_used_scan _ _ _ _) as [u|]; [|reflexivity]. simpl.
  destruct (get_account _ _); reflexivity.
Qed.

Lemma org_change_fresh (st st1 : State P) (c : Ctx.t) :
  _org_change st = (Ret (Some c), st1) -> freshly_installed st c st1.
Proof.
  intros E. apply org_change_installed in E as (E1 & E2 & E3 & _ & E5).
  repeat split; try assumption.
  exists [GetForQueueOrWait (QueueClient.queue (self st))].
  rewrite E5. reflexivity.
Qed.

Lemma change_fresh (st st1 : State P) (c : Ctx.t) :
  _change st = (Ret (Some c), st1) -> freshly_installed st c st1.
Proof.
  rewrite change_result. cbv zeta.
  destruct (QueueClient.redis_conn (self st)) as [r|]; [|discriminate].
  destruct (least_used_scan _ _ _ _) as [u|]; [|discriminate].
  destruct (get_account _ _) as [a|]; [|discriminate].
  rewrite install_result. intros [= <- <-]. simpl.
  repeat split.
  exists [AccountsInfo; GetAccount u]. rewrite <- !app_assoc. reflexivity.
Qed.

(** [_get_ctx] hands out either the context that is already open, leaving
    the state as it is, or one it has just installed. *)
Lemma get_ctx_cases (st st1 : State P) (c : Ctx.t) :
  _get_ctx st = (Ret (Some c), st1) ->
  (st1 = st /\ QueueClient.ctx (self st) = Some c) \/ freshly_installed st c st1.
Proof.
  unfold _get_ctx, _change_acc_usage, _get_total_count, switch_due. unfold_m.
  destruct (QueueClient.ave (self st) && configured (QueueClient.redis_conn (self st)));
    destruct (QueueClient.redis_conn (self st)) as [r|];
    try destruct (r !! ACCOUNT_TOTAL_COUNT) as [n|];
    try destruct (QueueClient.change (self st) =? 0);
    try discriminate;
    try destruct (n mod QueueClient.change (self st) =? 0);
    try destruct (QueueClient.ctx (self st)) as [c0|] eqn:Ec;
    intros E;
    first [ left; injection E as <- <-; split; reflexivity
          | right; apply org_change_fresh; exact E
          | right; apply change_fresh; exact E ].
Qed.

Lemma get_ctx_installed (st st1 : State P) (c : Ctx.t) :
  _get_ctx st = (Ret (Some c), st1) -> QueueClient.ctx (self st1) = Some c.
Proof.
  intros E. apply get_ctx_cases in E as [[-> E]|(E & _)]; exact E.
Qed.

(** With no context open, [_get_ctx] can only answer with a context it has
    just installed. *)
Lemma get_ctx_fresh (st st1 : State P) (c : Ctx.t) :
  QueueClient.ctx (self st) = None ->
  _get_ctx st = (Ret (Some c), st1) -> freshly_installed st c st1.
Proof.
  intros En E. apply get_ctx_cases in E as [[_ E]|E]; [congruence|exact E].
Qed.

(** ** The classifier *)

Lemma check_rep_signals (now : Z) (rep : Response) (st : State P) (r t : Z) (m : string) :
  int_header (x_rate_limit_remaining rep) = Ret r ->
  int_header (x_rate_limit_reset rep) = Ret t ->
  err_msg_of (decoded rep) = Ret m ->
  _check_rep now rep st = checks now rep (decoded rep) r t m st.
Proof.
  intros Er Et Em. unfold _check_rep, bind, lift. rewrite Er, Et, Em. reflexivity.
Qed.

Lemma close_then_raise (A : Type) (reset_at : Z) (inactive : bool)
    (msg : option string) (e : exn) (st : State P) :
  (_close_ctx reset_at inactive msg;; @raise P A e) st =
    (Raise e, snd (_close_ctx reset_at inactive msg st)).
Proof.
  unfold bind at 1.
  destruct (QueueClient.ctx (self st)) as [c|] eqn:E.
  - rewrite (close_ctx_some st c _ _ _ E). reflexivity.
  - rewrite (close_ctx_none st _ _ _ E). reflexivity.
Qed.

(** The rate-limit rule: only the feature check comes before it. *)
Lemma checks_rate_limited (now : Z) (rep : Response) (body : jvalue) (reset : Z)
    (m : string) (st : State P) :
  startswith m "(336) The following features cannot be null" = false ->
  reset > 0 ->
  checks now rep body 0 reset m st =
    (Raise HandledError, snd (_close_ctx reset false None st)).
Proof.
  intros E336 Hpos. unfold checks. rewrite E336.
  replace (reset >? 0) with true by (symmetry; apply Z.gtb_lt; lia).
  simpl. apply close_then_raise.
Qed.

(** The state after [ctx.clt.request] has been called. *)
Lemma try_block_sent (method url : string) (ctx : Ctx.t) (a : attempt) (st : State P) :
  try_block method url ctx a st =
    (rep <- lift (outcome a);;
     _check_rep (ts a) rep;;
     count_success;;
     _increment_account_usage (Account.username (Ctx.acc ctx));;
     _increment_total_count;;
     ret rep) (requested method url ctx st).
Proof. reflexivity. Qed.

(** A pass whose classification raises [HandledError] goes round the loop
    with both counters as they were. *)
Lemma req_pass_handled (method url : string) (rep : Response) (now u c : Z)
    (st st1 st2 : State P) (ctx : Ctx.t) :
  _get_ctx st = (Ret (Some ctx), st1) ->
  _check_rep now rep (requested method url ctx st1) = (Raise HandledError, st2) ->
  req_pass method url (mkAttempt (Ret rep) now) u c st = (Continue u c, st2).
Proof.
  intros Eg Ec. unfold req_pass. rewrite Eg, try_block_sent.
  unfold bind at 1. unfold lift at 1. simpl outcome. cbv iota beta.
  unfold bind at 1. simpl ts. rewrite Ec. reflexivity.
Qed.

(** The rate-limit rule.  A response with [x-rate-limit-remaining] 0 and a positive
    [x-rate-limit-reset], whose error message does not carry the
    missing-feature signature, makes the classifier close the context with
    one report, lock-until the reset timestamp with the context's success
    count and no mark-inactive, whatever else the message says; [self.ctx]
    is cleared, the loop goes round, and the next selection can only hand
    out a context it has just installed. *)
Theorem rate_limit_locks_then_reselects (method url : string) (rep : Response)
    (now reset u c : Z) (m : string) (script : list attempt)
    (st st1 : State P) (ctx : Ctx.t) :
  x_rate_limit_remaining rep = HInt 0 ->
  x_rate_limit_reset rep = HInt reset ->
  reset > 0 ->
  err_msg_of (decoded rep) = Ret m ->
  startswith m "(336) The following features cannot be null" = false ->
  _get_ctx st = (Ret (Some ctx), st1) ->
  let sent := requested method url ctx st1 in
  let st2 := snd (_check_rep now rep sent) in
  fst (_check_rep now rep sent) = Raise HandledError /\
  log st2 =
    (log st1 ++ [Request (Ctx.clt ctx) method url;
                 Aclose (Ctx.clt ctx);
                 LockUntil (Account.username (Ctx.acc ctx)) (QueueClient.queue (self st1))
                   reset (Ctx.req_count ctx)])%list /\
  QueueClient.pool (self st2) =
    lock_until (QueueClient.pool (self st1)) (Account.username (Ctx.acc ctx))
      (QueueClient.queue (self st1)) reset (Ctx.req_count ctx) /\
  QueueClient.ctx (self st2) = None /\
  req_loop method url (mkAttempt (Ret rep) now :: script) u c st =
    req_loop method url script u c st2 /\
  (forall c2 st3, _get_ctx st2 = (Ret (Some c2), st3) -> freshly_installed st2 c2 st3).
Proof.
  intros Er Et Hpos Em E336 Eg. cbv zeta.
  assert (Ectx : QueueClient.ctx (self (requested method url ctx st1)) = Some ctx)
    by (simpl; eapply get_ctx_installed; eassumption).
  assert (Ecls : _check_rep now rep (requested method url ctx st1) =
                 (Raise HandledError,
                  closed (requested method url ctx st1) ctx reset false None)).
  { rewrite (check_rep_signals now rep _ 0 reset m); [| rewrite Er | rewrite Et |]; auto.
    rewrite checks_rate_limited by assumption.
    rewrite (close_ctx_some _ ctx _ _ _ Ectx). reflexivity. }
  rewrite Ecls. simpl fst. simpl snd.
  assert (Egt : (reset >? 0) = true) by (apply Z.gtb_lt; lia).
  split; [reflexivity|]. split; [|split; [|split; [reflexivity|split]]].
  - simpl. unfold release_report. simpl. rewrite Egt, <- app_assoc. reflexivity.
  - simpl. unfold released_pool. simpl. rewrite Egt. reflexivity.
  - simpl. rewrite (req_pass_handled method url rep now u c st st1 _ ctx Eg Ecls).
    reflexivity.
  - intros c2 st3. apply get_ctx_fresh. reflexivity.
Qed.

(** ** The last checks *)

Lemma checks_last (now : Z) (rep : Response) (body : jvalue) (r t : Z) (m : string)
    (st : State P) :
  no_earlier_rule rep r t m = true ->
  checks now rep body r t m st = last_checks now rep m st.
Proof.
  unfold no_earlier_rule. rewrite !andb_true_iff, !negb_true_iff.
  intros ((((((((E1 & E2) & E3) & E4) & E5) & E6) & E7) & E8) & E9).
  unfold checks. rewrite E1, E2, E3, E4, E5, E6, E7.
  unfold bind at 1. unfold ret at 1. rewrite E8, E9. reflexivity.
Qed.

(** C3 (amended). For a response that no earlier rule matches: a message
    other than "OK" is tolerated whatever the status code is; with the
    message "OK", a status code outside 2xx/3xx closes the context with a
    lock until fifteen minutes after the clock reading, and the classifier
    raises [HandledError]. *)
Theorem last_checks_by_message (now : Z) (rep : Response) (r t : Z) (m : string)
    (st : State P) (ctx : Ctx.t) :
  int_header (x_rate_limit_remaining rep) = Ret r ->
  int_header (x_rate_limit_reset rep) = Ret t ->
  err_msg_of (decoded rep) = Ret m ->
  no_earlier_rule rep r t m = true ->
  QueueClient.ctx (self st) = Some ctx ->
  0 <= now ->
  if String.eqb m "OK" then
    if (200 <=? status_code rep) && (status_code rep <? 400) then
      _check_rep now rep st = (Ret tt, st)
    else
      fst (_check_rep now rep st) = Raise HandledError /\
      QueueClient.ctx (self (snd (_check_rep now rep st))) = None /\
      log (snd (_check_rep now rep st)) =
        (log st ++ [Aclose (Ctx.clt ctx);
                    LockUntil (Account.username (Ctx.acc ctx)) (QueueClient.queue (self st))
                      (now + 900) (Ctx.req_count ctx)])%list
  else _check_rep now rep st = (Ret tt, st).
Proof.
  intros Er Et Em Hno Ectx Hnow.
  rewrite (check_rep_signals now rep st r t m Er Et Em), (checks_last _ _ _ _ _ _ _ Hno).
  unfold last_checks, raise_for_status.
  destruct (String.eqb m "OK"); simpl; [|reflexivity].
  destruct ((200 <=? status_code rep) && (status_code rep <? 400)); simpl; [reflexivity|].
  rewrite close_then_raise, (close_ctx_some st ctx _ _ _ Ectx). simpl.
  unfold release_report. simpl.
  replace (now + 60 * 15 >? 0) with true by (symmetry; apply Z.gtb_lt; lia).
  replace (now + 60 * 15) with (now + 900) by lia.
  repeat split.
Qed.

(** ** Aborted requests *)

Lemma py_in_raises (k : string) (v : jvalue) (e : exn) :
  py_in k v = Raise e -> is_Exception e = true /\ e <> AbortReqError.
Proof. destruct v; simpl; intros [= <-]; (split; [reflexivity|discriminate]). Qed.

Lemma partial_result_raises (rep : Response) (body : jvalue) (e : exn) :
  partial_result rep body = Raise e -> e <> AbortReqError.
Proof.
  unfold partial_result. destruct (status_code rep =? 200); [|discriminate].
  destruct (py_in "data" body) as [[|]|e1] eqn:E1; simpl.
  - unfold py_getitem. destruct body; simpl; try (intros [= <-]; discriminate).
    destruct (dict_lookup fields "data"); simpl; [|intros [= <-]; discriminate].
    intros E. apply py_in_raises in E. tauto.
  - discriminate.
  - intros [= <-]. apply py_in_raises in E1. tauto.
Qed.

Lemma last_checks_not_abort (now : Z) (rep : Response) (m : string) (st st' : State P) :
  last_checks now rep m st <> (Raise AbortReqError, st').
Proof.
  unfold last_checks.
  destruct (negb (String.eqb m "OK")); [discriminate|].
  destruct (raise_for_status rep); [|discriminate].
  rewrite close_then_raise. discriminate.
Qed.

(** The classifier raises [AbortReqError] only under the dependency
    signature without a partial result, and then it has changed nothing. *)
Lemma checks_abort (now : Z) (rep : Response) (body : jvalue) (r t : Z) (m : string)
    (st st' : State P) :
  checks now rep body r t m st = (Raise AbortReqError, st') ->
  st' = st /\
  startswith m "(131) Dependency: Internal error" = true /\
  partial_result rep body = Ret false.
Proof.
  unfold checks.
  repeat match goal with
         | |- context [if ?b then _ else _] =>
             lazymatch b with
             | startswith m "(131) Dependency: Internal error" => fail
             | _ => destruct b; [first [discriminate | rewrite close_then_raise; discriminate]|]
             end
         end.
  destruct (startswith m "(131) Dependency: Internal error").
  - unfold bind at 1. unfold bind at 1. unfold lift at 1.
    destruct (partial_result rep body) as [[|]|e] eqn:Ep; simpl.
    + unfold ret at 1.
      repeat match goal with
             | |- context [if ?b then _ else _] => destruct b; [discriminate|]
             end.
      intros E. exfalso. eapply last_checks_not_abort; eassumption.
    + unfold raise. intros [= <-]. repeat split.
    + intros [= -> _]. apply partial_result_raises in Ep. congruence.
  - unfold bind at 1. unfold ret at 1.
    repeat match goal with
           | |- context [if ?b then _ else _] => destruct b; [discriminate|]
           end.
    intros E. exfalso. eapply last_checks_not_abort; eassumption.
Qed.

Lemma check_rep_abort (now : Z) (rep : Response) (st st' : State P) :
  _check_rep now rep st = (Raise AbortReqError, st') -> st' = st.
Proof.
  unfold _check_rep. unfold bind at 1. unfold lift at 1.
  destruct (int_header (x_rate_limit_remaining rep)) as [r|]; [|intros [= _ <-]; reflexivity].
  unfold bind at 1. unfold lift at 1.
  destruct (int_header (x_rate_limit_reset rep)) as [t|]; [|intros [= _ <-]; reflexivity].
  unfold bind at 1. unfold lift at 1.
  destruct (err_msg_of (decoded rep)) as [m|]; [|intros [= _ <-]; reflexivity].
  intros E. apply checks_abort in E. tauto.
Qed.

Lemma partial_result_status (rep : Response) (body : jvalue) :
  partial_result rep body = Ret true -> status_code rep = 200.
Proof.
  unfold partial_result. destruct (status_code rep =? 200) eqn:E; [|discriminate].
  intros _. apply Z.eqb_eq. exact E.
Qed.

(** The dependency rule, for a message that carries its signature and a
    response that is not rate limited. *)
Lemma checks_dependency (now : Z) (rep : Response) (body : jvalue) (r t : Z)
    (m : string) (st : State P) :
  startswith m "(131) Dependency: Internal error" = true ->
  (r =? 0) && (t >? 0) = false ->
  checks now rep body r t m st =
    match partial_result rep body with
    | Ret true => (Ret tt, st)
    | Ret false => (Raise AbortReqError, st)
    | Raise e => (Raise e, st)
    end.
Proof.
  intros E131 Erl. unfold checks.
  rewrite (startswith_excludes m "(131) Dependency: Internal error" "(336) The following features cannot be null"
             eq_refl E131).
  rewrite Erl.
  rewrite (startswith_excludes m "(131) Dependency: Internal error" "(88) Rate limit exceeded" eq_refl E131).
  rewrite (startswith_excludes m "(131) Dependency: Internal error" "(326) Authorization: Denied by access control"
             eq_refl E131).
  rewrite (startswith_excludes m "(131) Dependency: Internal error" "(32) Could not authenticate you" eq_refl E131).
  rewrite (startswith_not_eqb m "(131) Dependency: Internal error" "OK" eq_refl E131).
  rewrite E131. simpl.
  unfold bind at 1. unfold bind at 1. unfold lift at 1.
  destruct (partial_result rep body) as [[|]|e] eqn:Ep; try reflexivity.
  apply partial_result_status in Ep.
  unfold ret at 1. unfold last_checks, raise_for_status. rewrite Ep. reflexivity.
Qed.

(** A pass whose transport call raises is decided by the [except] clauses. *)
Lemma req_pass_raises (method url : string) (e : exn) (now u c : Z)
    (st st1 : State P) (ctx : Ctx.t) :
  _get_ctx st = (Ret (Some ctx), st1) ->
  req_pass method url (mkAttempt (Raise e) now) u c st =
    handlers e now u c (requested method url ctx st1).
Proof.
  intros Eg. unfold req_pass. rewrite Eg, try_block_sent. reflexivity.
Qed.

(** A pass whose classification raises is decided by the [except] clauses. *)
Lemma req_pass_classified (method url : string) (rep : Response) (e : exn)
    (now u c : Z) (st st1 st2 : State P) (ctx : Ctx.t) :
  _get_ctx st = (Ret (Some ctx), st1) ->
  _check_rep now rep (requested method url ctx st1) = (Raise e, st2) ->
  req_pass method url (mkAttempt (Ret rep) now) u c st = handlers e now u c st2.
Proof.
  intros Eg Ec. unfold req_pass. rewrite Eg, try_block_sent.
  unfold bind at 1. unfold lift at 1. simpl outcome. cbv iota beta.
  unfold bind at 1. simpl ts. rewrite Ec. reflexivity.
Qed.

(** An [Aborted] classification ends [req] at once with no result:
    both retry counters are as they were, the state is the one right after
    the request was sent (no close, no report to the pool, the context
    still held) and the rest of the script is not consulted.  Under the
    dependency signature, on a response that the rate-limit rule does not
    take, the classification is [Aborted] without a partial result in a
    status-200 payload, and Ok with one. *)
Theorem abort_skips_request (method url : string) (rep : Response)
    (now u c r t : Z) (m : string) (has_data : bool) (script : list attempt)
    (st st1 : State P) (ctx : Ctx.t) :
  _get_ctx st = (Ret (Some ctx), st1) ->
  int_header (x_rate_limit_remaining rep) = Ret r ->
  int_header (x_rate_limit_reset rep) = Ret t ->
  err_msg_of (decoded rep) = Ret m ->
  startswith m "(131) Dependency: Internal error" = true ->
  (r =? 0) && (t >? 0) = false ->
  partial_result rep (decoded rep) = Ret has_data ->
  let sent := requested method url ctx st1 in
  (fst (_check_rep now rep sent) = Raise AbortReqError ->
   req_loop method url (mkAttempt (Ret rep) now :: script) u c st =
     (Returned None u c, sent)) /\
  if has_data then
    status_code rep = 200 /\ _check_rep now rep sent = (Ret tt, sent)
  else
    _check_rep now rep sent = (Raise AbortReqError, sent) /\
    req_loop method url (mkAttempt (Ret rep) now :: script) u c st =
      (Returned None u c, sent) /\
    QueueClient.ctx (self sent) = Some ctx /\
    QueueClient.pool (self sent) = QueueClient.pool (self st1) /\
    log sent = (log st1 ++ [Request (Ctx.clt ctx) method url])%list.
Proof.
  intros Eg Er Et Em E131 Erl Ep. cbv zeta.
  assert (Habort : forall st2,
             _check_rep now rep (requested method url ctx st1) = (Raise AbortReqError, st2) ->
             req_loop method url (mkAttempt (Ret rep) now :: script) u c st =
               (Returned None u c, requested method url ctx st1)).
  { intros st2 E. pose proof (check_rep_abort _ _ _ _ E) as ->.
    simpl. rewrite (req_pass_classified _ _ _ _ _ _ _ _ _ _ _ Eg E). reflexivity. }
  split.
  - destruct (_check_rep now rep (requested method url ctx st1)) as [x st2] eqn:E.
    simpl. intros ->. eapply Habort. reflexivity.
  - pose proof (check_rep_signals now rep (requested method url ctx st1) r t m Er Et Em) as E.
    rewrite (checks_dependency _ _ _ _ _ _ _ E131 Erl), Ep in E.
    destruct has_data.
    + split; [apply (partial_result_status _ _ Ep)|exact E].
    + split; [exact E|]. split; [eapply Habort; exact E|].
      split; [simpl; eapply get_ctx_installed; eassumption|]. split; reflexivity.
Qed.

(** ** The retry counters *)

(** One pass of the loop, by the outcome of its [try] block. *)
Lemma req_pass_by_try_block (method url : string) (a : attempt) (u c : Z)
    (st st1 st2 : State P) (ctx : Ctx.t) (r : res Response) :
  _get_ctx st = (Ret (Some ctx), st1) ->
  try_block method url ctx a st1 = (r, st2) ->
  req_pass method url a u c st =
    match r with
    | Ret rep => (Return (Some rep) 0 0, st2)
    | Raise e => handlers e (ts a) u c st2
    end.
Proof.
  intros Eg Et. unfold req_pass. rewrite Eg, Et. destruct r; reflexivity.
Qed.

(** ** Connect failures *)




(** ** Usage-balanced selection *)

Lemma scanned_all_used (r : gmap string Z) (seen : list string) (m : option Z)
    (least : option string) :
  scanned r seen m least -> forall v, In v seen -> usage_of r v <> None.
Proof.
  unfold scanned. destruct least as [a|].
  - intros (n & pre & mid & _ & Ea & -> & Hpre & Hmid) v Hv.
    apply in_app_or in Hv as [Hv|[<-|Hv]].
    + destruct (Hpre v Hv) as (k & -> & _). discriminate.
    + rewrite Ea. discriminate.
    + destruct (Hmid v Hv) as (k & -> & _). discriminate.
  - intros [-> _] v [].
Qed.

Lemma scan_selected (r : gmap string Z) (l seen : list string) (m : option Z)
    (least : option string) :
  scanned r seen m least ->
  match least_used_scan r l m least with
  | None => (seen ++ l)%list = []
  | Some u => selected r (seen ++ l) u
  end.
Proof.
  revert seen m least. induction l as [|x l IH]; intros seen m least Hs.
  - simpl. rewrite app_nil_r. unfold scanned in Hs. destruct least as [a|].
    + destruct Hs as (n & pre & mid & _ & Ea & -> & Hpre & Hmid).
      exists pre, mid. split; [reflexivity|]. rewrite Ea. split; assumption.
    + tauto.
  - simpl. fold (usage_of r x). destruct (usage_of r x) as [k|] eqn:Ex.
    + assert (Happ : (seen ++ x :: l)%list = ((seen ++ [x]) ++ l)%list)
        by (rewrite <- app_assoc; reflexivity).
      rewrite Happ.
      destruct least as [a|]; unfold scanned in Hs.
      * destruct Hs as (n & pre & mid & -> & Ea & -> & Hpre & Hmid).
        destruct (k <? n) eqn:Ek.
        -- apply Z.ltb_lt in Ek. apply IH. unfold scanned.
           exists k, (pre ++ a :: mid)%list, []. repeat split; auto.
           ++ intros v Hv. apply in_app_or in Hv as [Hv|[<-|Hv]].
              ** destruct (Hpre v Hv) as (j & -> & ?). exists j. split; [reflexivity|lia].
              ** exists n. split; [assumption|lia].
              ** destruct (Hmid v Hv) as (j & -> & ?). exists j. split; [reflexivity|lia].
           ++ intros v [].
        -- apply Z.ltb_ge in Ek. apply IH. unfold scanned.
           exists n, pre, (mid ++ [x])%list. repeat split; auto.
           ++ rewrite <- app_assoc. reflexivity.
           ++ intros v Hv. apply in_app_or in Hv as [Hv|[<-|[]]].
              ** apply Hmid, Hv.
              ** exists k. split; [assumption|lia].
      * destruct Hs as [-> ->]. apply IH. unfold scanned.
        exists k, [], []. repeat split; auto; intros v [].
    + exists seen, l. split; [reflexivity|]. rewrite Ex.
      eapply scanned_all_used; eassumption.
Qed.

(** The first loop of [_get_least_used_account], one entry at a time. *)
Lemma active_usernames_cons (a : AccInfo.t) (l : list AccInfo.t) :
  active_usernames (a :: l) =
    if AccInfo.active a then AccInfo.username a :: active_usernames l
    else active_usernames l.
Proof.
  unfold active_usernames. rewrite filter_cons.
  destruct (decide (AccInfo.active a)) as [D|D]; destruct (AccInfo.active a);
    simpl in D; try reflexivity; contradiction.
Qed.

Lemma active_usernames_none (l : list AccInfo.t) :
  active_usernames l = [] -> forall a, In a l -> AccInfo.active a = false.
Proof.
  induction l as [|x l IH]; intros E a Ha; [destruct Ha|].
  rewrite active_usernames_cons in E.
  destruct (AccInfo.active x) eqn:Ex; [discriminate|].
  destruct Ha as [<-|Ha]; [exact Ex|apply IH; assumption].
Qed.

Lemma active_usernames_In (l : list AccInfo.t) (a : AccInfo.t) :
  In a l -> AccInfo.active a = true -> In (AccInfo.username a) (active_usernames l).
Proof.
  induction l as [|x l IH]; intros Ha Hact; [destruct Ha|].
  rewrite active_usernames_cons. destruct Ha as [->|Ha].
  - rewrite Hact. left. reflexivity.
  - destruct (AccInfo.active x); [right|]; apply IH; assumption.
Qed.

(** A position among the active usernames is a position in the listing,
    at an entry that is active. *)
Lemma active_usernames_split (l : list AccInfo.t) (pre' post' : list string) (u : string) :
  active_usernames l = (pre' ++ u :: post')%list ->
  exists pre post : list AccInfo.t,
    l = (pre ++ AccInfo.mk u true :: post)%list /\
    active_usernames pre = pre' /\ active_usernames post = post'.
Proof.
  revert pre'. induction l as [|x l IH]; intros pre' E.
  - destruct pre'; discriminate.
  - rewrite active_usernames_cons in E. destruct x as [name act]. simpl in E.
    destruct act.
    + destruct pre' as [|y pre'']; simpl in E; injection E as -> E.
      * exists [], l. split; [reflexivity|]. split; [reflexivity|exact E].
      * destruct (IH pre'' E) as (pre & post & -> & Epre & Epost).
        exists (AccInfo.mk y true :: pre), post. split; [reflexivity|].
        split; [|exact Epost]. rewrite active_usernames_cons. simpl. rewrite Epre.
        reflexivity.
    + destruct (IH pre' E) as (pre & post & -> & Epre & Epost).
      exists (AccInfo.mk name false :: pre), post. split; [reflexivity|].
      split; [|exact Epost]. rewrite active_usernames_cons. simpl. exact Epre.
Qed.

(** What the scan owes for the active usernames, it owes for the listing. *)
Lemma selected_listing (r : gmap string Z) (l : list AccInfo.t) (u : string) :
  selected r (active_usernames l) u -> selected_active r l u.
Proof.
  intros (pre' & post' & E & Hu).
  destruct (active_usernames_split l pre' post' u E) as (pre & post & -> & <- & <-).
  exists pre, post. split; [reflexivity|].
  destruct (usage_of r u) as [n|].
  - destruct Hu as [Hpre Hpost]. split; intros a Ha Hact.
    + apply Hpre, active_usernames_In; assumption.
    + apply Hpost, active_usernames_In; assumption.
  - intros a Ha Hact. apply Hu, active_usernames_In; assumption.
Qed.

(** C7. With a counter store, [_get_least_used_account] lists the sessions
    once and answers, among the entries of the listing that are active
    and in listing order, the first never-used session if there is one,
    and otherwise the session with the smallest count, the first seen of
    those with that count; an entry that is not active is never answered
    and does not count, even when it was never used; it answers nothing
    only when no entry is active.  It selects C in [A:5, B:2, C:unused],
    B in [A:5, B:2], and B again when the unused C is not active. *)
Theorem least_used_account_selected (st : State P) (r : gmap string Z) :
  QueueClient.redis_conn (self st) = Some r ->
  let listing := accounts_info (QueueClient.pool (self st)) in
  let accounts := active_usernames listing in
  let answer := least_used_scan r accounts None None in
  _get_least_used_account st =
    (Ret answer, mkState (self st) (log st ++ [AccountsInfo]) (next_clt st)) /\
  match answer with
  | None => accounts = [] /\ forall a, In a listing -> AccInfo.active a = false
  | Some u => selected r accounts u /\ selected_active r listing u
  end /\
  least_used_scan usage_A5_B2 ["A"; "B"; "C"] None None = Some "C" /\
  least_used_scan usage_A5_B2 ["A"; "B"] None None = Some "B" /\
  (r = usage_A5_B2 ->
   listing = [AccInfo.mk "A" true; AccInfo.mk "B" true; AccInfo.mk "C" true] ->
   answer = Some "C") /\
  (r = usage_A5_B2 ->
   listing = [AccInfo.mk "A" true; AccInfo.mk "B" true] ->
   answer = Some "B") /\
  (r = usage_A5_B2 ->
   listing = [AccInfo.mk "A" true; AccInfo.mk "B" true; AccInfo.mk "C" false] ->
   answer = Some "B").
Proof.
  intros Er. cbv zeta. split; [|split; [|split; [|split; [|split; [|split]]]]].
  - unfold _get_least_used_account. unfold_m. rewrite Er. reflexivity.
  - pose proof (scan_selected r (active_usernames
                                   (accounts_info (QueueClient.pool (self st))))
                  [] None None (conj eq_refl eq_refl)) as S.
    simpl app in S.
    destruct (least_used_scan r _ None None) as [u|].
    + split; [exact S|apply selected_listing; exact S].
    + split; [exact S|apply active_usernames_none; exact S].
  - vm_compute. reflexivity.
  - vm_compute. reflexivity.
  - intros -> ->. vm_compute. reflexivity.
  - intros -> ->. vm_compute. reflexivity.
  - intros -> ->. vm_compute. reflexivity.
Qed.

(** ** Direct rotation *)

(** C8 (amended). Under direct rotation, a selection switches to a session
    newly acquired from [get_for_queue_or_wait] exactly when a counter
    store is configured and holds a global count that is a multiple of
    [change]; otherwise it keeps the open context, acquiring one only when
    none is open.  With no counter store no count is kept and a selection
    never switches away from an open context. *)
Theorem direct_rotation_by_stored_count (st : State P) :
  QueueClient.ave (self st) && configured (QueueClient.redis_conn (self st)) = false ->
  QueueClient.change (self st) <> 0 ->
  _get_ctx st =
    match QueueClient.redis_conn (self st) with
    | Some r =>
        match r !! ACCOUNT_TOTAL_COUNT with
        | Some n =>
            if n mod QueueClient.change (self st) =? 0 then _org_change st
            else keep_or_acquire st
        | None => keep_or_acquire st
        end
    | None => keep_or_acquire st
    end /\
  (forall c st1,
      _org_change st = (Ret (Some c), st1) ->
      fst (get_for_queue_or_wait (QueueClient.pool (self st)) (QueueClient.queue (self st)))
        = Some (Ctx.acc c) /\
      freshly_installed st c st1) /\
  (QueueClient.redis_conn (self st) = None ->
   forall c, QueueClient.ctx (self st) = Some c -> _get_ctx st = (Ret (Some c), st)).
Proof.
  intros Edirect Hchange.
  assert (E0 : (QueueClient.change (self st) =? 0) = false) by (apply Z.eqb_neq; assumption).
  split; [|split].
  - unfold _get_ctx, _get_total_count, switch_due, keep_or_acquire. unfold_m.
    rewrite Edirect.
    destruct (QueueClient.redis_conn (self st)) as [r|];
      try destruct (r !! ACCOUNT_TOTAL_COUNT) as [n|];
      rewrite ?E0;
      try destruct (n mod QueueClient.change (self st) =? 0);
      destruct (QueueClient.ctx (self st)); reflexivity.
  - intros c st1 E. split.
    + apply org_change_installed in E. tauto.
    + apply org_change_fresh. exact E.
  - intros Er c Ec. unfold _get_ctx, _get_total_count, switch_due. unfold_m.
    rewrite Edirect, Er, Ec. reflexivity.
Qed.

(** ** The error message *)

Lemma format_error_paren (x : jvalue) (s : string) :
  format_error x = Ret s -> exists rest, s = String "("%char rest.
Proof.
  unfold format_error.
  destruct (py_get x "code" (JInt (-1))) as [code|]; [|discriminate]. simpl.
  destruct (py_getitem x "message") as [message|]; [|discriminate]. simpl.
  intros [= <-]. eexists. reflexivity.
Qed.

Lemma map_format_error_paren (xs : list jvalue) (msgs : list string) :
  res_map_list format_error xs = Ret msgs ->
  forall s, In s msgs -> exists rest, s = String "("%char rest.
Proof.
  revert msgs. induction xs as [|x xs IH]; simpl; intros msgs.
  - intros [= <-] s [].
  - destruct (format_error x) as [y|] eqn:Ey; [|discriminate]. simpl.
    destruct (res_map_list format_error xs) as [ys|]; [|discriminate]. simpl.
    intros [= <-] s [<-|Hs].
    + eapply format_error_paren; eassumption.
    + eapply IH; [reflexivity|assumption].
Qed.

Lemma join_paren (sep : string) (l : list string) :
  (forall s, In s l -> exists rest, s = String "("%char rest) ->
  join sep l <> "OK".
Proof.
  destruct l as [|a l]; intros Hl; [discriminate|].
  destruct (Hl a (or_introl eq_refl)) as [rest ->].
  unfold join. simpl. destruct l; discriminate.
Qed.

(** C9 (amended). The error message of a body is "OK" exactly when the
    body has no [errors] entry; otherwise it is the formatted entries
    joined by "; ", each distinct entry once, in the order in which the
    runtime iterates the set, which need not be the order of first
    occurrence; an empty [errors] list gives the empty message. *)
Theorem err_msg_distinct_entries (body : jvalue) (m : string) :
  set_semantics _ ->
  err_msg_of body = Ret m ->
  (m = "OK" <-> py_in "errors" body = Ret false) /\
  (py_in "errors" body = Ret true ->
   exists (errors : jvalue) (xs : list jvalue) (msgs l : list string),
     py_getitem body "errors" = Ret errors /\
     py_iter errors = Ret xs /\
     res_map_list format_error xs = Ret msgs /\
     m = join "; " l /\
     List.NoDup l /\ (forall s, In s l <-> In s msgs)) /\
  err_msg_of (errors_body []) = Ret "".
Proof.
  intros Hset. unfold err_msg_of.
  destruct (py_in "errors" body) as [[|]|e] eqn:Ein; simpl; [| |discriminate].
  - destruct (py_getitem body "errors") as [errors|] eqn:Eg; [|discriminate]. simpl.
    destruct (py_iter errors) as [xs|] eqn:Ei; [|discriminate]. simpl.
    destruct (res_map_list format_error xs) as [msgs|] eqn:Emsgs; [|discriminate]. simpl.
    intros [= <-]. destruct (Hset msgs) as [Hnd Hin].
    split; [|split].
    + split; [|discriminate]. intros E. exfalso. revert E. apply join_paren.
      intros s Hs. apply Hin in Hs. eapply map_format_error_paren; eassumption.
    + intros _. exists errors, xs, msgs, (set_iter msgs).
      repeat split; try assumption; try reflexivity; apply Hin.
    + destruct (Hset []) as [_ Hnil]. destruct (set_iter []) as [|y ys] eqn:E.
      * reflexivity.
      * exfalso. apply (Hnil y). left. reflexivity.
  - intros [= <-]. split; [split; reflexivity|]. split; [discriminate|].
    destruct (Hset []) as [_ Hnil]. destruct (set_iter []) as [|y ys] eqn:E.
    + reflexivity.
    + exfalso. apply (Hnil y). left. reflexivity.
Qed.

End Properties.

(** * Runs of the model *)

(** A rate-limited response whose body also carries a ban signature: the
    session is locked until the reset, not marked inactive. *)
Lemma rate_limit_locks_then_reselects_witness :
  let rep := rate_limited_denied in
  let st := client0 two_sessions None None 15 true in
  let st1 := snd (@_get_ctx _ list_pool st) in
  let st2 := snd (@_check_rep _ list_pool insertion_runtime 50 rep
                    (requested "GET" "/search" ctx_A st1)) in
  log st2 = [GetForQueueOrWait "search"; MakeClient "A" None 7;
             Request 7 "GET" "/search"; Aclose 7; LockUntil "A" "search" 100 0] /\
  QueueClient.ctx (self st2) = None.
Proof.
  pose proof (@rate_limit_locks_then_reselects (list Session) list_pool insertion_runtime
                "GET" "/search" rate_limited_denied 50 100 0 0
                "(326) Authorization: Denied by access control" []
                (client0 two_sessions None None 15 true)
                (snd (@_get_ctx _ list_pool (client0 two_sessions None None 15 true)))
                ctx_A
                eq_refl eq_refl ltac:(lia) eq_refl eq_refl eq_refl) as W.
  cbv zeta in W. destruct W as (_ & Hlog & _ & Hctx & _).
  split; [exact Hlog | exact Hctx].
Defined.

(** The feature check comes before the rate-limit rule: with remaining 0
    and a positive reset, a body that carries the missing-feature
    signature stops the process; no lock is reported and the context
    stays open. *)
Lemma rate_limit_preempted_by_feature_check :
  let rep := rate_limited_missing_feature in
  let r := @req _ list_pool insertion_runtime "GET" "/search" [mkAttempt (Ret rep) 50]
             (client0 two_sessions None None 15 true) in
  x_rate_limit_remaining rep = HInt 0 /\
  x_rate_limit_reset rep = HInt 100 /\
  fst r = Raised (SystemExit 1) 0 0 /\
  log (snd r) = [GetForQueueOrWait "search"; MakeClient "A" None 7;
                 Request 7 "GET" "/search"] /\
  QueueClient.ctx (self (snd r)) = Some ctx_A.
Proof. vm_compute. repeat split; reflexivity. Qed.

(** ** The two runtimes are runtimes *)

Lemma existsb_eqb_In (x : string) (seen : list string) :
  existsb (String.eqb x) seen = true <-> In x seen.
Proof.
  rewrite existsb_exists. split.
  - intros (y & Hy & E). apply String.eqb_eq in E. subst. exact Hy.
  - intros Hx. exists x. split; [exact Hx|apply String.eqb_refl].
Qed.

Lemma first_occurrences_In (seen l : list string) (x : string) :
  In x (first_occurrences seen l) <-> In x l /\ ~ In x seen.
Proof.
  revert seen. induction l as [|y l IH]; intros seen; simpl.
  - tauto.
  - destruct (existsb (String.eqb y) seen) eqn:E.
    + apply existsb_eqb_In in E. rewrite IH. split.
      * intros [? ?]. tauto.
      * intros [[<-|Hx] Hn]; [contradiction|tauto].
    + assert (Hy : ~ In y seen)
        by (intros Hy; apply existsb_eqb_In in Hy; congruence).
      simpl. rewrite IH. simpl. split.
      * intros [<-|[Hx Hn]]; [tauto|]. split; [tauto|]. intros Hs. apply Hn. tauto.
      * intros [[<-|Hx] Hn]; [tauto|].
        destruct (string_dec y x) as [<-|Hne]; [tauto|]. right. split; [exact Hx|].
        intros [E'|Hs]; [contradiction|contradiction].
Qed.

Lemma first_occurrences_NoDup (seen l : list string) :
  List.NoDup (first_occurrences seen l).
Proof.
  revert seen. induction l as [|y l IH]; intros seen; simpl.
  - constructor.
  - destruct (existsb (String.eqb y) seen); [apply IH|].
    constructor; [|apply IH].
    rewrite first_occurrences_In. simpl. tauto.
Qed.

Lemma insertion_runtime_set : set_semantics insertion_runtime.
Proof.
  intros l. split.
  - apply first_occurrences_NoDup.
  - intros x. simpl. rewrite first_occurrences_In. simpl. tauto.
Qed.

Lemma reversing_runtime_set : set_semantics reversing_runtime.
Proof.
  intros l. split.
  - simpl. apply NoDup_rev, first_occurrences_NoDup.
  - intros x. simpl. rewrite <- in_rev, first_occurrences_In. simpl. tauto.
Qed.

(** ** The error message, run *)

Lemma err_msg_distinct_entries_witness :
  @err_msg_of reversing_runtime repeated_errors = Ret "(2) b; (1) a" /\
  ("(2) b; (1) a" = "OK" <-> py_in "errors" repeated_errors = Ret false).
Proof.
  split; [reflexivity|].
  exact (proj1 (@err_msg_distinct_entries reversing_runtime repeated_errors
                  "(2) b; (1) a" reversing_runtime_set eq_refl)).
Defined.

(** C9, as stated, fails: on a runtime whose sets iterate in another order
    than insertion order the message is not in first-occurrence order. *)
Lemma err_msg_not_in_first_occurrence_order :
  set_semantics reversing_runtime /\
  res_map_list (@format_error reversing_runtime)
    [api_error 1 "a"; api_error 2 "b"; api_error 1 "a"]
    = Ret ["(1) a"; "(2) b"; "(1) a"] /\
  @err_msg_of reversing_runtime repeated_errors = Ret "(2) b; (1) a" /\
  join "; " (first_occurrences [] ["(1) a"; "(2) b"; "(1) a"]) = "(1) a; (2) b" /\
  "(2) b; (1) a" <> "(1) a; (2) b".
Proof.
  split; [exact reversing_runtime_set|].
  repeat split; try reflexivity. discriminate.
Qed.

(** ** The last checks, run *)

Lemma last_checks_by_message_witness :
  let r := @_check_rep _ list_pool insertion_runtime 50 server_error (holding_A None 15 true) in
  fst r = Raise HandledError /\
  log (snd r) = [GetForQueueOrWait "search"; MakeClient "A" None 7;
                 Aclose 7; LockUntil "A" "search" 950 0].
Proof.
  pose proof (@last_checks_by_message (list Session) list_pool insertion_runtime
                50 server_error (-1) (-1) "OK" (holding_A None 15 true) ctx_A
                eq_refl eq_refl eq_refl eq_refl eq_refl ltac:(lia)) as W.
  simpl in W. destruct W as (W1 & _ & W3). split; [exact W1|exact W3].
Defined.

(** C3, as stated, fails: a status-500 response that carries an error
    message no rule knows is classified Ok; [req] returns it and the
    session is not locked. *)
Lemma server_error_with_message_is_ok :
  let rep := server_error_with_message in
  let r := @req _ list_pool insertion_runtime "GET" "/search" [mkAttempt (Ret rep) 50]
             (holding_A None 15 true) in
  @err_msg_of insertion_runtime (decoded rep) = Ret "(1) Oops" /\
  no_earlier_rule rep (-1) (-1) "(1) Oops" = true /\
  raise_for_status rep = true /\
  fst r = Returned (Some rep) 0 0 /\
  log (snd r) = [GetForQueueOrWait "search"; MakeClient "A" None 7;
                 Request 7 "GET" "/search"].
Proof. vm_compute. repeat split; reflexivity. Qed.

(** ** The retry counters, run *)

(** C4, as stated, fails: a rotation forced by a rate-limited response
    leaves [connection_retry] at 2, so that one more connect failure, on
    the new session, is the third and is raised. *)
Lemma counters_survive_rotation :
  let st := holding_A None 15 true in
  let connect_failure := failing ConnectError 50 in
  fst (@req_pass _ list_pool insertion_runtime "GET" "/search"
         (mkAttempt (Ret rate_limited) 50) 0 2 st) = Continue 0 2 /\
  fst (@req _ list_pool insertion_runtime "GET" "/search"
         [connect_failure; connect_failure; mkAttempt (Ret rate_limited) 50;
          connect_failure; mkAttempt (Ret ok_response) 50] st)
    = Raised ConnectError 0 3.
Proof. vm_compute. split; reflexivity. Qed.

(** ** Connect failures, run *)


(** ** Aborted requests, run *)

Lemma abort_skips_request_witness :
  let st := holding_A None 15 true in
  @req _ list_pool insertion_runtime "GET" "/search"
    [mkAttempt (Ret dependency_error) 50; mkAttempt (Ret ok_response) 50] st
    = (Returned None 0 0, requested "GET" "/search" ctx_A st) /\
  @_check_rep _ list_pool insertion_runtime 50 dependency_error_with_user
    (requested "GET" "/search" ctx_A st)
    = (Ret tt, requested "GET" "/search" ctx_A st).
Proof.
  pose proof (@abort_skips_request (list Session) list_pool insertion_runtime
                "GET" "/search" dependency_error 50 0 0 (-1) (-1)
                "(131) Dependency: Internal error." false
                [mkAttempt (Ret ok_response) 50]
                (holding_A None 15 true) (holding_A None 15 true) ctx_A
                eq_refl eq_refl eq_refl eq_refl eq_refl eq_refl eq_refl)
    as (_ & _ & W & _).
  pose proof (@abort_skips_request (list Session) list_pool insertion_runtime
                "GET" "/search" dependency_error_with_user 50 0 0 (-1) (-1)
                "(131) Dependency: Internal error." true
                [mkAttempt (Ret ok_response) 50]
                (holding_A None 15 true) (holding_A None 15 true) ctx_A
                eq_refl eq_refl eq_refl eq_refl eq_refl eq_refl eq_refl)
    as (_ & _ & V).
  split; [exact W|exact V].
Defined.

(** ** Selection, run *)

Lemma least_used_account_selected_witness :
  fst (_get_least_used_account
         (client0 [mkSession "A" InUse; mkSession "B" Available; mkSession "C" Inactive]
            None (Some usage_A5_B2) 15 true))
    = Ret (Some "B") /\
  selected_active usage_A5_B2
    [AccInfo.mk "A" true; AccInfo.mk "B" true; AccInfo.mk "C" false] "B".
Proof.
  pose proof (least_used_account_selected
                (client0 [mkSession "A" InUse; mkSession "B" Available;
                          mkSession "C" Inactive] None (Some usage_A5_B2) 15 true)
                usage_A5_B2 eq_refl) as (W & S & _ & _ & _ & _ & B).
  cbv zeta in W, S, B. rewrite (B eq_refl eq_refl) in W, S.
  split; [rewrite W; reflexivity|exact (proj2 S)].
Defined.

Lemma direct_rotation_by_stored_count_witness :
  let r := _get_ctx (holding_A (Some (total_count 30)) 15 false) in
  fst r = Ret (Some (Ctx.mk (Account.mk "B") 8 0)) /\
  log (snd r) = [GetForQueueOrWait "search"; MakeClient "A" None 7;
                 GetForQueueOrWait "search"; MakeClient "B" None 8].
Proof.
  pose proof (direct_rotation_by_stored_count
                (holding_A (Some (total_count 30)) 15 false)
                eq_refl ltac:(discriminate)) as (W & _).
  cbv zeta. rewrite W. vm_compute. split; reflexivity.
Defined.

(** C8, as stated, fails: with no counter store and a threshold of one
    request, three requests in a row run on the one session acquired at
    the start; nothing is acquired after it. *)
Lemma no_store_never_switches :
  let ok := [mkAttempt (Ret ok_response) 50] in
  let st := client0 two_sessions None None 1 false in
  let go := @req _ list_pool insertion_runtime "GET" "/search" ok in
  let r := go (snd (go (snd (go st)))) in
  fst r = Returned (Some ok_response) 0 0 /\
  log (snd r) = [GetForQueueOrWait "search"; MakeClient "A" None 7;
                 Request 7 "GET" "/search"; Request 7 "GET" "/search";
                 Request 7 "GET" "/search"].
Proof. vm_compute. split; reflexivity. Qed.

(** C2: when the stored count is a multiple of [change] while a context is
    open, either strategy installs a new context over the old one; the
    old transport is not closed and nothing is reported to the pool, so
    that two transports are open and session A stays in use. *)
Lemma rotation_leaves_old_context_open :
  let direct := _get_ctx (holding_A (Some (total_count 15)) 15 false) in
  let balanced :=
    _get_ctx (holding_A (Some (<[ACCOUNT_REQ_COUNT_PREFIX +:+ "A" := 15]> (total_count 15)))
                15 true) in
  fst direct = Ret (Some (Ctx.mk (Account.mk "B") 8 0)) /\
  log (snd direct) = [GetForQueueOrWait "search"; MakeClient "A" None 7;
                      GetForQueueOrWait "search"; MakeClient "B" None 8] /\
  open_clients (log (snd direct)) [] = [7%nat; 8%nat] /\
  QueueClient.pool (self (snd direct)) = [mkSession "A" InUse; mkSession "B" InUse] /\
  fst balanced = Ret (Some (Ctx.mk (Account.mk "B") 8 0)) /\
  log (snd balanced) = [GetForQueueOrWait "search"; MakeClient "A" None 7;
                        AccountsInfo; GetAccount "B"; MakeClient "B" None 8] /\
  open_clients (log (snd balanced)) [] = [7%nat; 8%nat] /\
  QueueClient.pool (self (snd balanced)) = [mkSession "A" InUse; mkSession "B" Available].
Proof. vm_compute. repeat split; reflexivity. Qed.

(** The other ways of leaving a context go through [_close_ctx]: after a
    rate-limited response one transport is open, not two. *)
Lemma rate_limit_rotation_closes_old_context :
  let r := @req _ list_pool insertion_runtime "GET" "/search"
             [mkAttempt (Ret rate_limited) 50; mkAttempt (Ret ok_response) 50]
             (holding_A None 15 false) in
  open_clients (log (snd r)) [] = [8%nat] /\
  filter is_report (log (snd r)) = [LockUntil "A" "search" 100 0].
Proof. vm_compute. split; reflexivity. Qed.

(** C1. After a rate-limited response the usage-balanced strategy does
    not move to a different session: [_close_ctx] reports the lock of A
    to the pool, and [_change] then picks by the listing and the counts
    alone, in which the locked A is still active and still the least
    used, so that the next attempt runs on A again, and the one after it
    too, while B is free all along.  Under direct rotation the same
    responses move the client to B, which the pool's acquire hands out
    because A is locked. *)
Lemma rate_limit_reselects_locked_session :
  let limited := [mkAttempt (Ret rate_limited) 50; mkAttempt (Ret rate_limited) 51;
                  mkAttempt (Ret ok_response) 52] in
  let balanced := @req _ list_pool insertion_runtime "GET" "/search" limited
                    (client0 two_sessions None (Some ∅) 15 true) in
  let direct := @req _ list_pool insertion_runtime "GET" "/search"
                  [mkAttempt (Ret rate_limited) 50; mkAttempt (Ret ok_response) 52]
                  (client0 two_sessions None None 15 false) in
  x_rate_limit_remaining rate_limited = HInt 0 /\
  x_rate_limit_reset rate_limited = HInt 100 /\
  fst balanced = Returned (Some ok_response) 0 0 /\
  log (snd balanced) =
    [AccountsInfo; GetAccount "A"; MakeClient "A" None 7;
     Request 7 "GET" "/search"; Aclose 7; LockUntil "A" "search" 100 0;
     AccountsInfo; GetAccount "A"; MakeClient "A" None 8;
     Request 8 "GET" "/search"; Aclose 8; LockUntil "A" "search" 100 0;
     AccountsInfo; GetAccount "A"; MakeClient "A" None 9;
     Request 9 "GET" "/search"] /\
  QueueClient.pool (self (snd balanced)) =
    [mkSession "A" (LockedUntil 100); mkSession "B" Available] /\
  fst direct = Returned (Some ok_response) 0 0 /\
  log (snd direct) =
    [GetForQueueOrWait "search"; MakeClient "A" None 7;
     Request 7 "GET" "/search"; Aclose 7; LockUntil "A" "search" 100 0;
     GetForQueueOrWait "search"; MakeClient "B" None 8;
     Request 8 "GET" "/search"] /\
  QueueClient.pool (self (snd direct)) =
    [mkSession "A" (LockedUntil 100); mkSession "B" InUse].
Proof. vm_compute. repeat split; reflexivity. Qed.

(** C6. A status-200 response that carries the dependency signature next
    to ["data": null] shows no partial result, yet it is not classified
    Aborted: the test of line 300 evaluates ["user" in None] and raises
    [TypeError], which [req] handles as an unknown error.  The request is
    sent again and again, the third time the session is locked for
    fifteen minutes and another session is acquired for the next
    attempt.  With no [data] entry, or with an empty one, the same
    signature is Aborted and [req] returns nothing after one request;
    with [data.user] it is Ok. *)
Lemma dependency_error_null_data_is_retried :
  let st := holding_A None 15 true in
  let sent := requested "GET" "/search" ctx_A st in
  let run rep :=
    @req _ list_pool insertion_runtime "GET" "/search"
      [mkAttempt (Ret rep) 50; mkAttempt (Ret rep) 51; mkAttempt (Ret rep) 52;
       mkAttempt (Ret ok_response) 53] st in
  status_code dependency_error_null_data = 200 /\
  @err_msg_of insertion_runtime (decoded dependency_error_null_data)
    = Ret "(131) Dependency: Internal error." /\
  partial_result dependency_error_null_data (decoded dependency_error_null_data)
    = Raise (PyError "TypeError") /\
  @_check_rep _ list_pool insertion_runtime 50 dependency_error_null_data sent
    = (Raise (PyError "TypeError"), sent) /\
  fst (@req_pass _ list_pool insertion_runtime "GET" "/search"
         (mkAttempt (Ret dependency_error_null_data) 50) 0 0 st) = Continue 1 0 /\
  fst (run dependency_error_null_data) = Returned (Some ok_response) 0 0 /\
  log (snd (run dependency_error_null_data)) =
    [GetForQueueOrWait "search"; MakeClient "A" None 7;
     Request 7 "GET" "/search"; Request 7 "GET" "/search"; Request 7 "GET" "/search";
     Aclose 7; LockUntil "A" "search" 952 0;
     GetForQueueOrWait "search"; MakeClient "B" None 8; Request 8 "GET" "/search"] /\
  run dependency_error = (Returned None 0 0, sent) /\
  run dependency_error_empty_data = (Returned None 0 0, sent) /\
  fst (run dependency_error_with_user) = Returned (Some dependency_error_with_user) 0 0.
Proof. vm_compute. repeat split; reflexivity. Qed.

(** * Further properties of the client *)

(** ** Keys of the counter store *)

Lemma account_key_inj (u v : string) :
  ACCOUNT_REQ_COUNT_PREFIX +:+ u = ACCOUNT_REQ_COUNT_PREFIX +:+ v -> u = v.
Proof. unfold ACCOUNT_REQ_COUNT_PREFIX. simpl. intros E. injection E. auto. Qed.

Lemma account_key_not_total (u : string) :
  ACCOUNT_REQ_COUNT_PREFIX +:+ u <> ACCOUNT_TOTAL_COUNT.
Proof. unfold ACCOUNT_REQ_COUNT_PREFIX, ACCOUNT_TOTAL_COUNT. simpl. discriminate. Qed.

Lemma bump_lookup (key : string) (r : gmap string Z) :
  bump key r !! key = Some match r !! key with
                           | Some n => n + 1
                           | None => 1
                           end.
Proof. unfold bump. apply lookup_insert_eq. Qed.

Lemma bump_lookup_ne (key other : string) (r : gmap string Z) :
  key <> other -> bump key r !! other = r !! other.
Proof. intros Hne. unfold bump. apply lookup_insert_ne. exact Hne. Qed.

Section Further.
Context {P : Type} `{AccountsPool P} `{Runtime}.

Local Open Scope py_scope.

Ltac unfold_m :=
  unfold bind, ret, raise, lift, gets, update, emit in *.

Lemma increment_key_result (key : string) (st : State P) :
  increment_key key st =
    match QueueClient.redis_conn (self st) with
    | None => (Ret None, st)
    | Some r =>
        (Ret (bump key r !! key),
         mkState (QueueClient.with_redis (bump key r) (self st)) (log st) (next_clt st))
    end.
Proof.
  unfold increment_key. unfold_m. simpl.
  destruct (QueueClient.redis_conn (self st)) as [r|]; [|reflexivity].
  rewrite bump_lookup. unfold bump.
  destruct (r !! key); reflexivity.
Qed.

(** X1. [_increment_total_count] on a configured store answers the count
    it has just stored, one more than the count found or 1 when there was
    none, and [_get_total_count] reads that same count back; no other key
    of the store changes, and nothing but the store does. *)
Theorem increment_total_then_get (st : State P) (r : gmap string Z) :
  QueueClient.redis_conn (self st) = Some r ->
  let n := match r !! ACCOUNT_TOTAL_COUNT with
           | Some k => k + 1
           | None => 1
           end in
  let st' := snd (_increment_total_count st) in
  fst (_increment_total_count st) = Ret (Some n) /\
  _get_total_count st' = (Ret (Some n), st') /\
  (exists r', QueueClient.redis_conn (self st') = Some r' /\
              forall key, key <> ACCOUNT_TOTAL_COUNT -> r' !! key = r !! key) /\
  log st' = log st /\
  QueueClient.ctx (self st') = QueueClient.ctx (self st) /\
  QueueClient.pool (self st') = QueueClient.pool (self st).
Proof.
  intros Er. cbv zeta. unfold _increment_total_count.
  rewrite increment_key_result, Er. simpl.
  rewrite bump_lookup. split; [reflexivity|]. split.
  - unfold _get_total_count. unfold_m. simpl. rewrite bump_lookup. reflexivity.
  - split; [|repeat split].
    exists (bump ACCOUNT_TOTAL_COUNT r). split; [reflexivity|].
    intros key Hne. apply bump_lookup_ne. congruence.
Qed.

(** X2. The per-session counters and the global counter do not interfere:
    [_increment_account_usage] for one session changes neither the global
    count nor the count of any other session, and it adds one to the count
    of its own session (1 when it had none). *)
Theorem increment_account_usage_separate (st : State P) (r : gmap string Z)
    (account : string) :
  QueueClient.redis_conn (self st) = Some r ->
  exists r',
    QueueClient.redis_conn (self (snd (_increment_account_usage account st))) = Some r' /\
    usage_of r' account = Some match usage_of r account with
                               | Some k => k + 1
                               | None => 1
                               end /\
    fst (_increment_account_usage account st) = Ret (usage_of r' account) /\
    r' !! ACCOUNT_TOTAL_COUNT = r !! ACCOUNT_TOTAL_COUNT /\
    (forall other, other <> account -> usage_of r' other = usage_of r other).
Proof.
  intros Er. unfold _increment_account_usage.
  rewrite increment_key_result, Er. simpl.
  exists (bump (ACCOUNT_REQ_COUNT_PREFIX +:+ account) r).
  split; [reflexivity|]. unfold usage_of. split; [apply bump_lookup|].
  split; [reflexivity|]. split.
  - apply bump_lookup_ne, account_key_not_total.
  - intros other Hne. apply bump_lookup_ne. intros E. apply account_key_inj in E. congruence.
Qed.

(** ** What the classifier can do *)

Lemma int_header_raises (h : HeaderInt) (e : exn) :
  int_header h = Raise e -> e = PyError "ValueError".
Proof. destruct h; simpl; congruence. Qed.

Lemma py_in_unknown (k : string) (v : jvalue) (e : exn) :
  py_in k v = Raise e -> is_unknown e = true.
Proof. destruct v; simpl; intros [= <-]; reflexivity. Qed.

Lemma py_getitem_unknown (v : jvalue) (k : string) (e : exn) :
  py_getitem v k = Raise e -> is_unknown e = true.
Proof.
  destruct v; simpl; try (intros [= <-]; reflexivity).
  destruct (dict_lookup fields k); intros [= <-]; reflexivity.
Qed.

Lemma py_get_unknown (v : jvalue) (k : string) (d : jvalue) (e : exn) :
  py_get v k d = Raise e -> is_unknown e = true.
Proof.
  destruct v; simpl; try (intros [= <-]; reflexivity).
  destruct (dict_lookup fields k); discriminate.
Qed.

Lemma py_iter_unknown (v : jvalue) (e : exn) :
  py_iter v = Raise e -> is_unknown e = true.
Proof. destruct v; simpl; intros [= <-]; reflexivity. Qed.

Lemma format_error_unknown (x : jvalue) (e : exn) :
  format_error x = Raise e -> is_unknown e = true.
Proof.
  unfold format_error.
  destruct (py_get x "code" (JInt (-1))) as [code|e1] eqn:E1; simpl.
  - destruct (py_getitem x "message") as [message|e2] eqn:E2; simpl; [discriminate|].
    intros [= <-]. eapply py_getitem_unknown; eassumption.
  - intros [= <-]. eapply py_get_unknown; eassumption.
Qed.

Lemma map_format_error_unknown (xs : list jvalue) (e : exn) :
  res_map_list format_error xs = Raise e -> is_unknown e = true.
Proof.
  induction xs as [|x xs IH]; simpl; [discriminate|].
  destruct (format_error x) as [y|e1] eqn:E1; simpl.
  - destruct (res_map_list format_error xs) as [ys|e2]; simpl; [discriminate|].
    intros [= <-]. apply IH. reflexivity.
  - intros [= <-]. eapply format_error_unknown; eassumption.
Qed.

Lemma err_msg_of_unknown (body : jvalue) (e : exn) :
  err_msg_of body = Raise e -> is_unknown e = true.
Proof.
  unfold err_msg_of.
  destruct (py_in "errors" body) as [[|]|e0] eqn:E0; simpl.
  - destruct (py_getitem body "errors") as [errors|e1] eqn:E1; simpl.
    + destruct (py_iter errors) as [xs|e2] eqn:E2; simpl.
      * destruct (res_map_list format_error xs) as [msgs|e3] eqn:E3; simpl; [discriminate|].
        intros [= <-]. eapply map_format_error_unknown; eassumption.
      * intros [= <-]. eapply py_iter_unknown; eassumption.
    + intros [= <-]. eapply py_getitem_unknown; eassumption.
  - discriminate.
  - intros [= <-]. eapply py_in_unknown; eassumption.
Qed.

Lemma partial_result_unknown (rep : Response) (body : jvalue) (e : exn) :
  partial_result rep body = Raise e -> is_unknown e = true.
Proof.
  unfold partial_result. destruct (status_code rep =? 200); [|discriminate].
  destruct (py_in "data" body) as [[|]|e1] eqn:E1; simpl.
  - destruct (py_getitem body "data") as [data|e2] eqn:E2; simpl.
    + apply py_in_unknown.
    + intros [= <-]. eapply py_getitem_unknown; eassumption.
  - discriminate.
  - intros [= <-]. eapply py_in_unknown; eassumption.
Qed.

(** The shape of an outcome of the classifier, from the state [st]. *)
Lemma last_checks_outcomes (now : Z) (rep : Response) (m : string) (st : State P) :
  classified st (last_checks now rep m st).
Proof.
  unfold last_checks, classified.
  destruct (negb (String.eqb m "OK")); [reflexivity|].
  destruct (raise_for_status rep); [|reflexivity].
  rewrite close_then_raise. simpl. eexists _, _, _. reflexivity.
Qed.

Lemma checks_outcomes (now : Z) (rep : Response) (body : jvalue) (r t : Z)
    (m : string) (st : State P) :
  classified st (checks now rep body r t m st).
Proof.
  unfold checks.
  repeat match goal with
         | |- context [if ?b then _ else _] =>
             lazymatch b with
             | startswith m "(131) Dependency: Internal error" => fail
             | _ => destruct b;
                    [first [ split; reflexivity
                           | unfold classified; rewrite close_then_raise; simpl;
                             eexists _, _, _; reflexivity ]|]
             end
         end.
  destruct (startswith m "(131) Dependency: Internal error").
  - unfold bind at 1. unfold bind at 1. unfold lift at 1.
    destruct (partial_result rep body) as [[|]|e] eqn:Ep; simpl.
    + unfold ret at 1.
      repeat match goal with
             | |- context [if ?b then _ else _] => destruct b; [reflexivity|]
             end.
      apply last_checks_outcomes.
    + reflexivity.
    + apply partial_result_unknown in Ep. destruct e; try discriminate. reflexivity.
  - unfold bind at 1. unfold ret at 1.
    repeat match goal with
           | |- context [if ?b then _ else _] => destruct b; [reflexivity|]
           end.
    apply last_checks_outcomes.
Qed.

(** Whatever the response, [_check_rep] either returns, or raises
    [AbortReqError], [SystemExit] with code 1 or an unknown error, in all
    of which cases it leaves the client as it found it; or it raises
    [HandledError], and then the only thing it has done is one call of
    [_close_ctx].  It never raises a transport exception. *)
Lemma check_rep_classified (now : Z) (rep : Response) (st : State P) :
  classified st (_check_rep now rep st).
Proof.
  unfold _check_rep. unfold bind at 1. unfold lift at 1.
  destruct (int_header (x_rate_limit_remaining rep)) as [r|e] eqn:Er;
    [|apply int_header_raises in Er; subst; reflexivity].
  unfold bind at 1. unfold lift at 1.
  destruct (int_header (x_rate_limit_reset rep)) as [t|e] eqn:Et;
    [|apply int_header_raises in Et; subst; reflexivity].
  unfold bind at 1. unfold lift at 1.
  destruct (err_msg_of (decoded rep)) as [m|e] eqn:Em;
    [|apply err_msg_of_unknown in Em; destruct e; try discriminate; reflexivity].
  apply checks_outcomes.
Qed.

(** X3. Whatever the response, [_check_rep] either returns, or raises
    [AbortReqError], [SystemExit] with code 1 or an unknown error, in all
    of which cases it leaves the client as it found it; or it raises
    [HandledError], and then the only thing it has done is one call of
    [_close_ctx].  It never raises a transport exception. *)
Theorem check_rep_outcomes (now : Z) (rep : Response) (st : State P) :
  match fst (_check_rep now rep st) with
  | Ret _ => snd (_check_rep now rep st) = st
  | Raise HandledError =>
      exists (reset_at : Z) (inactive : bool) (msg : option string),
        snd (_check_rep now rep st) = snd (_close_ctx reset_at inactive msg st)
  | Raise AbortReqError => snd (_check_rep now rep st) = st
  | Raise (SystemExit code) => code = 1 /\ snd (_check_rep now rep st) = st
  | Raise (PyError _) => snd (_check_rep now rep st) = st
  | Raise _ => False
  end.
Proof.
  pose proof (check_rep_classified now rep st) as C.
  unfold classified in C. exact C.
Qed.

Lemma check_rep_returns (now : Z) (rep : Response) (st st' : State P) (x : unit) :
  _check_rep now rep st = (Ret x, st') -> st' = st.
Proof.
  intros E. pose proof (check_rep_classified now rep st) as C.
  unfold classified in C. rewrite E in C. exact C.
Qed.

Lemma closed_redis (st : State P) (ctx : Ctx.t) (reset_at : Z) (inactive : bool)
    (msg : option string) :
  QueueClient.redis_conn (self (closed st ctx reset_at inactive msg)) =
    QueueClient.redis_conn (self st).
Proof. reflexivity. Qed.

Lemma close_ctx_state (reset_at : Z) (inactive : bool) (msg : option string)
    (st : State P) :
  snd (_close_ctx reset_at inactive msg st) =
    match QueueClient.ctx (self st) with
    | Some ctx => closed st ctx reset_at inactive msg
    | None => st
    end.
Proof.
  destruct (QueueClient.ctx (self st)) as [c|] eqn:E.
  - rewrite (close_ctx_some st c _ _ _ E). reflexivity.
  - rewrite (close_ctx_none st _ _ _ E). reflexivity.
Qed.

Lemma close_ctx_returns (reset_at : Z) (inactive : bool) (msg : option string)
    (st : State P) :
  fst (_close_ctx reset_at inactive msg st) = Ret tt.
Proof.
  destruct (QueueClient.ctx (self st)) as [c|] eqn:E.
  - rewrite (close_ctx_some st c _ _ _ E). reflexivity.
  - rewrite (close_ctx_none st _ _ _ E). reflexivity.
Qed.

(** ** Ban signatures *)

(** X4. On a response that the rate-limit rule does not take, a message
    that starts with "(326) Authorization: Denied by access control" or
    "(32) Could not authenticate you", or with "(88) Rate limit exceeded"
    while the remaining quota is positive, makes the classifier close the
    context with a mark-inactive report that carries the message, and
    raise [HandledError]; no lock or unlock is reported. *)
Theorem ban_signatures_mark_inactive (now : Z) (rep : Response) (r t : Z)
    (m : string) (st : State P) (ctx : Ctx.t) :
  int_header (x_rate_limit_remaining rep) = Ret r ->
  int_header (x_rate_limit_reset rep) = Ret t ->
  err_msg_of (decoded rep) = Ret m ->
  QueueClient.ctx (self st) = Some ctx ->
  (r =? 0) && (t >? 0) = false ->
  (startswith m "(88) Rate limit exceeded" && (r >? 0))
  || startswith m "(326) Authorization: Denied by access control"
  || startswith m "(32) Could not authenticate you" = true ->
  let st' := snd (_check_rep now rep st) in
  fst (_check_rep now rep st) = Raise HandledError /\
  log st' = (log st ++ [Aclose (Ctx.clt ctx);
                        MarkInactive (Account.username (Ctx.acc ctx)) (Some m)])%list /\
  QueueClient.pool (self st') =
    mark_inactive (QueueClient.pool (self st)) (Account.username (Ctx.acc ctx)) (Some m) /\
  QueueClient.ctx (self st') = None.
Proof.
  intros Er Et Em Ectx Erl Hban. cbv zeta.
  rewrite (check_rep_signals now rep st r t m Er Et Em).
  assert (E : checks now rep (decoded rep) r t m st =
              (Raise HandledError, closed st ctx (-1) true (Some m))).
  { unfold checks. rewrite Erl.
    apply orb_true_iff in Hban as [Hban|H32];
      [apply orb_true_iff in Hban as [H88|H326]|].
    - apply andb_true_iff in H88 as [H88 Hr].
      rewrite (startswith_excludes m "(88) Rate limit exceeded"
                 "(336) The following features cannot be null" eq_refl H88).
      rewrite H88, Hr. simpl.
      rewrite close_then_raise, (close_ctx_some st ctx _ _ _ Ectx). reflexivity.
    - rewrite (startswith_excludes m "(326) Authorization: Denied by access control"
                 "(336) The following features cannot be null" eq_refl H326).
      rewrite (startswith_excludes m "(326) Authorization: Denied by access control"
                 "(88) Rate limit exceeded" eq_refl H326).
      rewrite H326. simpl.
      rewrite close_then_raise, (close_ctx_some st ctx _ _ _ Ectx). reflexivity.
    - rewrite (startswith_excludes m "(32) Could not authenticate you"
                 "(336) The following features cannot be null" eq_refl H32).
      rewrite (startswith_excludes m "(32) Could not authenticate you"
                 "(88) Rate limit exceeded" eq_refl H32).
      rewrite (startswith_excludes m "(32) Could not authenticate you"
                 "(326) Authorization: Denied by access control" eq_refl H32).
      rewrite H32. simpl.
      rewrite close_then_raise, (close_ctx_some st ctx _ _ _ Ectx). reflexivity. }
  rewrite E. simpl. unfold release_report, released_pool. simpl.
  repeat split.
Qed.

(** ** Responses without API errors *)

(** X5. A response whose body reports no errors, or does not decode at
    all, has the message "OK" and is classified by its headers and status
    alone: rate limited (lock until the reset) when remaining is 0 and the
    reset positive; else banned (mark-inactive without a message) on
    status 403; else accepted on a 2xx/3xx status; else locked for fifteen
    minutes. *)
Theorem no_errors_classified_by_status (now : Z) (rep : Response) (r t : Z)
    (st : State P) (ctx : Ctx.t) :
  int_header (x_rate_limit_remaining rep) = Ret r ->
  int_header (x_rate_limit_reset rep) = Ret t ->
  json rep = None \/ py_in "errors" (decoded rep) = Ret false ->
  QueueClient.ctx (self st) = Some ctx ->
  err_msg_of (decoded rep) = Ret "OK" /\
  _check_rep now rep st =
    if (r =? 0) && (t >? 0)
    then (Raise HandledError, closed st ctx t false None)
    else if status_code rep =? 403
    then (Raise HandledError, closed st ctx (-1) true None)
    else if (200 <=? status_code rep) && (status_code rep <? 400)
    then (Ret tt, st)
    else (Raise HandledError, closed st ctx (now + 60 * 15) false None).
Proof.
  intros Er Et Hbody Ectx.
  assert (Em : err_msg_of (decoded rep) = Ret "OK").
  { destruct Hbody as [Hj|Hin].
    - unfold decoded. rewrite Hj. reflexivity.
    - unfold err_msg_of. rewrite Hin. reflexivity. }
  split; [exact Em|].
  rewrite (check_rep_signals now rep st r t "OK" Er Et Em).
  unfold checks.
  repeat match goal with
         | |- context [startswith "OK" ?p] =>
             replace (startswith "OK" p) with false by reflexivity
         end.
  replace (String.eqb "OK" "OK") with true by reflexivity.
  destruct ((r =? 0) && (t >? 0)).
  - rewrite close_then_raise, (close_ctx_some st ctx _ _ _ Ectx). reflexivity.
  - cbn [andb].
    destruct (status_code rep =? 403) eqn:E403.
    + rewrite close_then_raise, (close_ctx_some st ctx _ _ _ Ectx). reflexivity.
    + unfold bind at 1. unfold ret at 1.
      replace (contains "OK" "_Missing: No status found with that ID") with false
        by reflexivity.
      replace (contains "OK" "Authorization") with false by reflexivity.
      rewrite !andb_false_r.
      unfold last_checks, raise_for_status.
      replace (String.eqb "OK" "OK") with true by reflexivity.
      replace (negb true) with false by reflexivity.
      destruct ((200 <=? status_code rep) && (status_code rep <? 400));
        replace (negb true) with false by reflexivity;
        replace (negb false) with true by reflexivity.
      * reflexivity.
      * rewrite close_then_raise, (close_ctx_some st ctx _ _ _ Ectx). reflexivity.
Qed.

(** X6. A rate-limit header whose text is not an integer makes the
    classifier raise [ValueError] before any rule is looked at, whatever
    the body and the status are, and the client is left as it was. *)
Theorem unparseable_header_raises (now : Z) (rep : Response) (raw : string)
    (st : State P) :
  x_rate_limit_remaining rep = HNotInt raw \/ x_rate_limit_reset rep = HNotInt raw ->
  _check_rep now rep st = (Raise (PyError "ValueError"), st).
Proof.
  intros [E|E]; unfold _check_rep; unfold bind at 1; unfold lift at 1.
  - rewrite E. reflexivity.
  - destruct (int_header (x_rate_limit_remaining rep)) as [r|e] eqn:Er.
    + unfold bind at 1. unfold lift at 1. rewrite E. reflexivity.
    + apply int_header_raises in Er. subst. reflexivity.
Qed.

(** ** One pass of the loop *)

Lemma account_success_result (ctx : Ctx.t) (st : State P) :
  account_success ctx st = (Ret tt, booked (Account.username (Ctx.acc ctx)) st).
Proof.
  unfold account_success, booked.
  unfold bind at 1. unfold count_success at 1. unfold update at 1.
  unfold bind at 1. unfold _increment_account_usage. rewrite increment_key_result.
  cbn [self log next_clt].
  assert (Er : forall q : QueueClient.t P,
             QueueClient.redis_conn
               match QueueClient.ctx q with
               | Some c =>
                   QueueClient.with_ctx
                     (Some (Ctx.mk (Ctx.acc c) (Ctx.clt c) (Ctx.req_count c + 1))) q
               | None => q
               end = QueueClient.redis_conn q)
    by (intros q; destruct (QueueClient.ctx q); reflexivity).
  rewrite Er.
  destruct st as [q l n]. destruct q as [p qu d c px rc ch av rq].
  cbn [self log next_clt QueueClient.redis_conn QueueClient.ctx].
  destruct rc as [r|].
  - unfold bind at 1. unfold _increment_total_count. rewrite increment_key_result.
    destruct c; reflexivity.
  - unfold bind at 1. unfold _increment_total_count. rewrite increment_key_result.
    destruct c; reflexivity.
Qed.

(** The [try] block, by the outcome of the transport and of the
    classifier. *)
Lemma try_block_cases (method url : string) (ctx : Ctx.t) (a : attempt) (st : State P) :
  try_block method url ctx a st =
    match outcome a with
    | Raise e => (Raise e, requested method url ctx st)
    | Ret rep =>
        match _check_rep (ts a) rep (requested method url ctx st) with
        | (Ret _, s) => (Ret rep, booked (Account.username (Ctx.acc ctx)) s)
        | (Raise e, s) => (Raise e, s)
        end
    end.
Proof.
  rewrite try_block_sent. unfold bind at 1. unfold lift at 1.
  destruct (outcome a) as [rep|e]; [|reflexivity].
  unfold bind at 1.
  destruct (_check_rep (ts a) rep (requested method url ctx st)) as [[x|e] s];
    [|reflexivity].
  pose proof (account_success_result ctx s) as E.
  unfold account_success in E. unfold bind in E |- *.
  destruct (count_success s) as [[y|e1] s1]; [|discriminate].
  destruct (_increment_account_usage (Account.username (Ctx.acc ctx)) s1)
    as [[z|e2] s2]; [|discriminate].
  destruct (_increment_total_count s2) as [[w|e3] s3]; [|discriminate].
  unfold ret in E |- *. injection E as <-. reflexivity.
Qed.

(** An exception other than [HandledError] leaves the [try] block with
    nothing done but the request. *)
Lemma try_block_raise_state (method url : string) (ctx : Ctx.t) (a : attempt)
    (st st2 : State P) (e : exn) :
  try_block method url ctx a st = (Raise e, st2) ->
  e <> HandledError ->
  st2 = requested method url ctx st.
Proof.
  rewrite try_block_cases. destruct (outcome a) as [rep|e0].
  - pose proof (check_rep_classified (ts a) rep (requested method url ctx st)) as C.
    unfold classified in C.
    destruct (_check_rep (ts a) rep (requested method url ctx st)) as [[x|e1] s];
      [discriminate|].
    intros [= -> ->] Hne. simpl in C.
    destruct e; try contradiction; try tauto; congruence.
  - intros [= -> <-] _. reflexivity.
Qed.

(** Selection keeps an open context while no switch is due. *)
Lemma get_ctx_stays (st : State P) (ctx : Ctx.t) :
  stays (self st) = true ->
  QueueClient.ctx (self st) = Some ctx ->
  _get_ctx st = (Ret (Some ctx), st).
Proof.
  unfold stays. intros Hs Ec.
  unfold _get_ctx, _change_acc_usage, _get_total_count, switch_due. unfold_m.
  destruct (QueueClient.redis_conn (self st)) as [r|] eqn:Er.
  - destruct (r !! ACCOUNT_TOTAL_COUNT) as [n|] eqn:En.
    + apply andb_true_iff in Hs as [H0' Hm]. apply negb_true_iff in H0', Hm.
      destruct (QueueClient.ave (self st) && configured (Some r));
        repeat (cbv beta iota; rewrite ?Er, ?En, ?H0', ?Hm, ?Ec); reflexivity.
    + destruct (QueueClient.ave (self st) && configured (Some r));
        repeat (cbv beta iota; rewrite ?Er, ?En, ?Ec); reflexivity.
  - rewrite andb_false_r.
    repeat (cbv beta iota; rewrite ?Er, ?Ec); reflexivity.
Qed.

(** ** Unknown errors *)

(** X7. An unknown error in the [try] block is never raised to the caller:
    it adds one to [unknown_retry], leaves [connection_retry] alone and
    the loop goes round; the client has done nothing but the request,
    until the counter reaches three, when the context is closed with a
    lock of fifteen minutes from the clock reading. *)
Theorem unknown_errors_lock_at_three (method url : string) (a : attempt)
    (name : string) (u c : Z) (st st1 st2 : State P) (ctx : Ctx.t) :
  _get_ctx st = (Ret (Some ctx), st1) ->
  try_block method url ctx a st1 = (Raise (PyError name), st2) ->
  0 <= ts a ->
  let sent := requested method url ctx st1 in
  st2 = sent /\
  if u + 1 >=? 3 then
    req_pass method url a u c st =
      (Continue (u + 1) c, closed sent ctx (ts a + 60 * 15) false None) /\
    log (closed sent ctx (ts a + 60 * 15) false None) =
      (log st1 ++ [Request (Ctx.clt ctx) method url;
                   Aclose (Ctx.clt ctx);
                   LockUntil (Account.username (Ctx.acc ctx)) (QueueClient.queue (self st1))
                     (ts a + 900) (Ctx.req_count ctx)])%list
  else req_pass method url a u c st = (Continue (u + 1) c, sent).
Proof.
  intros Eg Et Hnow. cbv zeta.
  assert (E2 : st2 = requested method url ctx st1)
    by (eapply try_block_raise_state; [eassumption|discriminate]).
  subst st2. split; [reflexivity|].
  rewrite (req_pass_by_try_block _ _ _ u c _ _ _ _ _ Eg Et). simpl handlers.
  destruct (u + 1 >=? 3).
  - assert (Ectx : QueueClient.ctx (self (requested method url ctx st1)) = Some ctx)
      by (simpl; eapply get_ctx_installed; eassumption).
    rewrite (close_ctx_some _ ctx _ _ _ Ectx). split; [reflexivity|].
    simpl. unfold release_report. simpl.
    replace (ts a + 60 * 15 >? 0) with true by (symmetry; apply Z.gtb_lt; lia).
    replace (ts a + 60 * 15) with (ts a + 900) by lia.
    rewrite <- app_assoc. reflexivity.
  - reflexivity.
Qed.

(** ** Transient transport failures *)

Lemma requested_times_succ (n : nat) (method url : string) (ctx : Ctx.t) (st : State P) :
  requested_times n method url ctx (requested method url ctx st) =
    requested_times (S n) method url ctx st.
Proof.
  unfold requested_times, requested. simpl. rewrite <- app_assoc. reflexivity.
Qed.

(** X8. Read timeouts and proxy errors are retried on the same context
    without any cap: while no switch is due, any number of them in a row
    leaves both counters, the context, the pool and the store untouched,
    each costing one more request on the same transport, and the loop
    goes on with what follows. *)
Theorem transient_failures_retry_same_context (method url : string)
    (es : list exn) (now : Z) (rest : list attempt) (u c : Z)
    (st : State P) (ctx : Ctx.t) :
  stays (self st) = true ->
  QueueClient.ctx (self st) = Some ctx ->
  Forall (fun e => is_transient e = true) es ->
  req_loop method url (map (fun e => failing e now) es ++ rest) u c st =
    req_loop method url rest u c (requested_times (List.length es) method url ctx st).
Proof.
  intros Hs Ec Hes. revert st Hs Ec.
  induction Hes as [|e es He Hes IH]; intros st Hs Ec.
  - simpl. unfold requested_times. simpl. rewrite app_nil_r.
    destruct st; reflexivity.
  - simpl. unfold failing at 1.
    rewrite (req_pass_raises _ _ _ _ _ _ _ _ _ (get_ctx_stays st ctx Hs Ec)).
    assert (Eh : handlers e now u c (requested method url ctx st) =
                 (Continue u c, requested method url ctx st))
      by (destruct e; try discriminate; reflexivity).
    rewrite Eh, (IH (requested method url ctx st) Hs Ec).
    rewrite requested_times_succ. reflexivity.
Qed.

(** ** Booking a success *)

(** X9. A pass whose response the classifier accepts returns that response
    with both counters at zero and books exactly one success: one more on
    the count of the context, and, when a store is configured, one more
    on the count of the session and on the global count (1 where there
    was none), no other key being touched; the pool is not called. *)
Theorem success_books_one_of_each (method url : string) (a : attempt)
    (rep : Response) (u c : Z) (st st1 : State P) (ctx : Ctx.t) :
  _get_ctx st = (Ret (Some ctx), st1) ->
  outcome a = Ret rep ->
  fst (_check_rep (ts a) rep (requested method url ctx st1)) = Ret tt ->
  let st2 := snd (req_pass method url a u c st) in
  let user := Account.username (Ctx.acc ctx) in
  fst (req_pass method url a u c st) = Return (Some rep) 0 0 /\
  QueueClient.ctx (self st2) =
    Some (Ctx.mk (Ctx.acc ctx) (Ctx.clt ctx) (Ctx.req_count ctx + 1)) /\
  log st2 = (log st1 ++ [Request (Ctx.clt ctx) method url])%list /\
  QueueClient.pool (self st2) = QueueClient.pool (self st1) /\
  match QueueClient.redis_conn (self st1) with
  | None => QueueClient.redis_conn (self st2) = None
  | Some r =>
      exists r',
        QueueClient.redis_conn (self st2) = Some r' /\
        r' !! ACCOUNT_TOTAL_COUNT =
          Some match r !! ACCOUNT_TOTAL_COUNT with
               | Some k => k + 1
               | None => 1
               end /\
        usage_of r' user =
          Some match usage_of r user with
               | Some k => k + 1
               | None => 1
               end /\
        (forall key, key <> ACCOUNT_TOTAL_COUNT ->
                     key <> ACCOUNT_REQ_COUNT_PREFIX +:+ user ->
                     r' !! key = r !! key)
  end.
Proof.
  intros Eg Eo Ec. cbv zeta.
  assert (Ectx : QueueClient.ctx (self st1) = Some ctx)
    by (eapply get_ctx_installed; eassumption).
  assert (Et : try_block method url ctx a st1 =
               (Ret rep, booked (Account.username (Ctx.acc ctx))
                           (requested method url ctx st1))).
  { rewrite try_block_cases, Eo.
    destruct (_check_rep (ts a) rep (requested method url ctx st1)) as [[x|e] s] eqn:E;
      [|discriminate].
    apply check_rep_returns in E. subst s. reflexivity. }
  rewrite (req_pass_by_try_block _ _ _ u c _ _ _ _ _ Eg Et). simpl.
  rewrite Ectx. split; [reflexivity|]. split; [reflexivity|].
  split; [reflexivity|]. split; [reflexivity|].
  destruct (QueueClient.redis_conn (self st1)) as [r|]; [|reflexivity].
  eexists. split; [reflexivity|]. split; [|split].
  - rewrite bump_lookup, bump_lookup_ne by apply account_key_not_total. reflexivity.
  - unfold usage_of.
    rewrite bump_lookup_ne by (intros E; symmetry in E; revert E; apply account_key_not_total).
    apply bump_lookup.
  - intros key H1 H2. rewrite !bump_lookup_ne by congruence. reflexivity.
Qed.

(** ** A zero threshold *)

(** X10. With a stored global count and [change] set to zero, selection
    divides by zero; the selection stands outside the [try] block, so
    [req] raises [ZeroDivisionError] to its caller on the first pass,
    before any request is sent. *)
Theorem zero_change_raises (method url : string) (a : attempt)
    (script : list attempt) (st : State P) (r : gmap string Z) (n : Z) :
  QueueClient.redis_conn (self st) = Some r ->
  r !! ACCOUNT_TOTAL_COUNT = Some n ->
  QueueClient.change (self st) = 0 ->
  req method url (a :: script) st = (Raised (PyError "ZeroDivisionError") 0 0, st).
Proof.
  intros Er En Ech. unfold req. simpl. unfold req_pass.
  assert (E : _get_ctx st = (Raise (PyError "ZeroDivisionError"), st)).
  { unfold _get_ctx, _change_acc_usage, _get_total_count, switch_due. unfold_m.
    destruct (QueueClient.ave (self st) && configured (QueueClient.redis_conn (self st)));
      repeat (cbv beta iota; rewrite ?Er, ?En, ?Ech);
      replace (0 =? 0) with true by reflexivity; reflexivity. }
  rewrite E. reflexivity.
Qed.

(** ** What selection can do *)

(** [_get_ctx] raises on a zero threshold, or keeps the open context, or
    is one of the two ways of installing a context. *)
Lemma get_ctx_shape (st : State P) :
  _get_ctx st = (Raise (PyError "ZeroDivisionError"), st) \/
  _get_ctx st = _change st \/
  _get_ctx st = _org_change st \/
  (exists c, QueueClient.ctx (self st) = Some c /\ _get_ctx st = (Ret (Some c), st)).
Proof.
  unfold _get_ctx, _change_acc_usage, _get_total_count, switch_due. unfold_m.
  destruct (QueueClient.ave (self st) && configured (QueueClient.redis_conn (self st)));
    destruct (QueueClient.redis_conn (self st)) as [r|] eqn:Er;
    try destruct (r !! ACCOUNT_TOTAL_COUNT) as [n|] eqn:En;
    try destruct (QueueClient.change (self st) =? 0) eqn:E0;
    try destruct (n mod QueueClient.change (self st) =? 0) eqn:Em;
    destruct (QueueClient.ctx (self st)) as [c|] eqn:Ec;
    repeat (cbv beta iota; rewrite ?Er, ?En, ?E0, ?Em, ?Ec);
    first [ left; reflexivity
          | right; left; reflexivity
          | right; right; left; reflexivity
          | right; right; right; exists c; split; reflexivity ].
Qed.

Lemma org_change_kept (st : State P) :
  let st1 := snd (_org_change st) in
  settings (self st1) = settings (self st) /\
  QueueClient.redis_conn (self st1) = QueueClient.redis_conn (self st).
Proof.
  cbv zeta. rewrite org_change_result. cbv zeta.
  destruct (fst (get_for_queue_or_wait _ _)); [rewrite install_result|];
    split; reflexivity.
Qed.

Lemma change_kept (st : State P) :
  let st1 := snd (_change st) in
  settings (self st1) = settings (self st) /\
  QueueClient.redis_conn (self st1) = QueueClient.redis_conn (self st).
Proof.
  cbv zeta. rewrite change_result. cbv zeta.
  destruct (QueueClient.redis_conn (self st)) as [r|] eqn:Er;
    [|simpl; rewrite Er; split; reflexivity].
  destruct (least_used_scan _ _ _ _) as [u|];
    [|simpl; rewrite Er; split; reflexivity].
  destruct (get_account _ _); [rewrite install_result|];
    simpl; rewrite Er; split; reflexivity.
Qed.

(** Selection changes neither the settings nor the store. *)
Lemma get_ctx_kept (st : State P) :
  let st1 := snd (_get_ctx st) in
  settings (self st1) = settings (self st) /\
  QueueClient.redis_conn (self st1) = QueueClient.redis_conn (self st).
Proof.
  cbv zeta. destruct (get_ctx_shape st) as [E|[E|[E|(c & _ & E)]]]; rewrite E.
  - split; reflexivity.
  - apply change_kept.
  - apply org_change_kept.
  - split; reflexivity.
Qed.

Lemma close_ctx_kept (reset_at : Z) (inactive : bool) (msg : option string)
    (st : State P) :
  let st1 := snd (_close_ctx reset_at inactive msg st) in
  settings (self st1) = settings (self st) /\
  QueueClient.redis_conn (self st1) = QueueClient.redis_conn (self st).
Proof.
  cbv zeta. rewrite close_ctx_state.
  destruct (QueueClient.ctx (self st)); split; reflexivity.
Qed.

Lemma check_rep_kept (now : Z) (rep : Response) (st : State P) :
  let st1 := snd (_check_rep now rep st) in
  settings (self st1) = settings (self st) /\
  QueueClient.redis_conn (self st1) = QueueClient.redis_conn (self st).
Proof.
  cbv zeta. pose proof (check_rep_classified now rep st) as C. unfold classified in C.
  destruct (fst (_check_rep now rep st)) as [x|e].
  - rewrite C. split; reflexivity.
  - destruct e; try contradiction; try (rewrite C; split; reflexivity).
    + destruct C as (a & b & c & ->). apply close_ctx_kept.
    + destruct C as [_ ->]. split; reflexivity.
Qed.

Lemma handlers_kept (e : exn) (now u c : Z) (st : State P) :
  let st1 := snd (handlers e now u c st) in
  settings (self st1) = settings (self st) /\
  QueueClient.redis_conn (self st1) = QueueClient.redis_conn (self st).
Proof.
  cbv zeta. destruct e; simpl; try (split; reflexivity).
  - destruct (c + 1 >=? 3); split; reflexivity.
  - destruct (c + 1 >=? 3); split; reflexivity.
  - destruct (u + 1 >=? 3); [|split; reflexivity].
    pose proof (close_ctx_kept (now + 60 * 15) false None st) as K.
    pose proof (close_ctx_returns (now + 60 * 15) false None st) as R.
    destruct (_close_ctx (now + 60 * 15) false None st) as [[x|e'] s]; [|discriminate].
    exact K.
Qed.

(** ** The store over a whole call *)

Lemma handlers_no_response (e : exn) (now u c : Z) (st : State P) :
  pass_response (fst (handlers e now u c st)) = false.
Proof.
  destruct e; simpl; try reflexivity.
  - destruct (c + 1 >=? 3); reflexivity.
  - destruct (c + 1 >=? 3); reflexivity.
  - destruct (u + 1 >=? 3); [|reflexivity].
    destruct (_close_ctx (now + 60 * 15) false None st) as [[x|e'] s]; reflexivity.
Qed.

Lemma req_pass_store (method url : string) (a : attempt) (u c : Z) (st : State P) :
  let r := req_pass method url a u c st in
  settings (self (snd r)) = settings (self st) /\
  if pass_response (fst r)
  then store_booked (QueueClient.redis_conn (self st)) (QueueClient.redis_conn (self (snd r)))
  else QueueClient.redis_conn (self (snd r)) = QueueClient.redis_conn (self st).
Proof.
  cbv zeta. unfold req_pass.
  pose proof (get_ctx_kept st) as [Ks Kr]. cbv zeta in Ks, Kr.
  destruct (_get_ctx st) as [[[ctx|]|e] st1]; cbn [snd fst] in Ks, Kr;
    [|split; assumption|split; assumption].
  rewrite try_block_cases.
  destruct (outcome a) as [rep|e].
  - pose proof (check_rep_kept (ts a) rep (requested method url ctx st1)) as [Cs Cr].
    cbv zeta in Cs, Cr.
    change (self (requested method url ctx st1)) with (self st1) in Cs, Cr.
    destruct (_check_rep (ts a) rep (requested method url ctx st1)) as [[x|e] s];
      cbn [snd fst] in Cs, Cr.
    + cbn [snd fst pass_response]. split.
      * change (settings (self (booked (Account.username (Ctx.acc ctx)) s)))
          with (settings (self s)). congruence.
      * exists (Account.username (Ctx.acc ctx)). rewrite <- Kr, <- Cr. reflexivity.
    + pose proof (handlers_kept e (ts a) u c s) as [Hs Hr]. cbv zeta in Hs, Hr.
      rewrite handlers_no_response. split; congruence.
  - pose proof (handlers_kept e (ts a) u c (requested method url ctx st1)) as [Hs Hr].
    cbv zeta in Hs, Hr.
    change (self (requested method url ctx st1)) with (self st1) in Hs, Hr.
    rewrite handlers_no_response. split; congruence.
Qed.

Lemma req_loop_store (method url : string) (script : list attempt) (u c : Z)
    (st : State P) :
  let r := req_loop method url script u c st in
  settings (self (snd r)) = settings (self st) /\
  if returned_response (fst r)
  then store_booked (QueueClient.redis_conn (self st)) (QueueClient.redis_conn (self (snd r)))
  else QueueClient.redis_conn (self (snd r)) = QueueClient.redis_conn (self st).
Proof.
  cbv zeta. revert u c st. induction script as [|a script IH]; intros u c st.
  - simpl. split; reflexivity.
  - cbn [req_loop].
    pose proof (req_pass_store method url a u c st) as [Ps Pr]. cbv zeta in Ps, Pr.
    destruct (req_pass method url a u c st) as [[u' c'|rep u' c'|e u' c'] st'];
      cbn [snd fst pass_response] in Ps, Pr.
    + destruct (IH u' c' st') as [Is Ir]. rewrite Pr in Ir.
      split; [congruence|exact Ir].
    + cbn [snd fst returned_response]. split; [assumption|].
      destruct rep; assumption.
    + cbn [snd fst returned_response]. split; assumption.
Qed.

(** X11. Over a whole call of [req], whatever the transport and the
    responses do, the counter store is written at most once: when the call
    returns a response, one success has been booked (the global count and
    the count of one session); when it returns nothing, raises, or is
    still looping, the store is as it was.  The queue, the proxy, the
    threshold and the strategy flag never change. *)
Theorem store_changes_only_on_success (method url : string) (script : list attempt)
    (st : State P) :
  let r := req method url script st in
  settings (self (snd r)) = settings (self st) /\
  if returned_response (fst r)
  then store_booked (QueueClient.redis_conn (self st)) (QueueClient.redis_conn (self (snd r)))
  else QueueClient.redis_conn (self (snd r)) = QueueClient.redis_conn (self st).
Proof.
  unfold req. apply req_loop_store.
Qed.

(** ** Bounds on the counters *)

Lemma change_returns (st : State P) : exists o, fst (_change st) = Ret o.
Proof.
  rewrite change_result. cbv zeta.
  destruct (QueueClient.redis_conn (self st)); [|eexists; reflexivity].
  destruct (least_used_scan _ _ _ _); [|eexists; reflexivity].
  destruct (get_account _ _); eexists; reflexivity.
Qed.

Lemma org_change_returns (st : State P) : exists o, fst (_org_change st) = Ret o.
Proof.
  rewrite org_change_result. cbv zeta.
  destruct (fst (get_for_queue_or_wait _ _)); eexists; reflexivity.
Qed.

Lemma get_ctx_raises (st st1 : State P) (e : exn) :
  _get_ctx st = (Raise e, st1) -> e = PyError "ZeroDivisionError" /\ st1 = st.
Proof.
  destruct (get_ctx_shape st) as [E|[E|[E|(c & _ & E)]]]; rewrite E.
  - intros [= <- <-]. split; reflexivity.
  - destruct (change_returns st) as [o Ho]. intros E'. rewrite E' in Ho. discriminate.
  - destruct (org_change_returns st) as [o Ho]. intros E'. rewrite E' in Ho. discriminate.
  - discriminate.
Qed.

Lemma handlers_bounds (e : exn) (now u c : Z) (st : State P) :
  0 <= u -> 0 <= c < 3 ->
  match fst (handlers e now u c st) with
  | Continue u' c' | Return _ u' c' => 0 <= u' /\ 0 <= c' < 3
  | Propagate x u' c' =>
      0 <= u' /\ 0 <= c' <= 3 /\ (c' = 3 <-> is_connect_failure x = true)
  end.
Proof.
  intros Hu Hc. unfold handlers. destruct e; cbv zeta; cbn [fst].
  - lia.
  - lia.
  - lia.
  - lia.
  - destruct (c + 1 >=? 3) eqn:E; cbn [fst is_connect_failure]; rewrite Z.geb_leb in E.
    + apply Z.leb_le in E. split; [lia|]. split; [lia|]. split; [reflexivity|lia].
    + apply Z.leb_gt in E. lia.
  - destruct (c + 1 >=? 3) eqn:E; cbn [fst is_connect_failure]; rewrite Z.geb_leb in E.
    + apply Z.leb_le in E. split; [lia|]. split; [lia|]. split; [reflexivity|lia].
    + apply Z.leb_gt in E. lia.
  - cbn [is_connect_failure]. split; [lia|]. split; [lia|]. split; [lia|discriminate].
  - destruct (u + 1 >=? 3); [|cbn [fst]; lia].
    pose proof (close_ctx_returns (now + 60 * 15) false None st) as R.
    destruct (_close_ctx (now + 60 * 15) false None st) as [[x|e'] s]; [|discriminate].
    cbn [fst]. lia.
Qed.

Lemma req_pass_bounds (method url : string) (a : attempt) (u c : Z) (st : State P) :
  0 <= u -> 0 <= c < 3 ->
  match fst (req_pass method url a u c st) with
  | Continue u' c' | Return _ u' c' => 0 <= u' /\ 0 <= c' < 3
  | Propagate x u' c' =>
      0 <= u' /\ 0 <= c' <= 3 /\ (c' = 3 <-> is_connect_failure x = true)
  end.
Proof.
  intros Hu Hc. unfold req_pass.
  destruct (_get_ctx st) as [[[ctx|]|e] st1] eqn:Eg.
  - destruct (try_block method url ctx a st1) as [[rep|e] st2]; [cbn [fst]; lia|].
    apply handlers_bounds; assumption.
  - cbn [fst]. lia.
  - apply get_ctx_raises in Eg as [-> _]. cbn [fst is_connect_failure].
    split; [lia|]. split; [lia|]. split; [lia|discriminate].
Qed.

Lemma req_loop_bounds (method url : string) (script : list attempt) (u c : Z)
    (st : State P) :
  0 <= u -> 0 <= c < 3 ->
  let e := fst (req_loop method url script u c st) in
  0 <= unknown_retry_of e /\
  0 <= connection_retry_of e <= 3 /\
  (connection_retry_of e = 3 <-> raised_connect_failure e = true).
Proof.
  cbv zeta. revert u c st. induction script as [|a script IH]; intros u c st Hu Hc.
  - cbn [req_loop fst unknown_retry_of connection_retry_of raised_connect_failure].
    split; [lia|]. split; [lia|]. split; [lia|discriminate].
  - cbn [req_loop]. pose proof (req_pass_bounds method url a u c st Hu Hc) as B.
    destruct (req_pass method url a u c st) as [[u' c'|rep u' c'|x u' c'] st'];
      cbn [fst] in B.
    + apply IH; tauto.
    + cbn [fst unknown_retry_of connection_retry_of raised_connect_failure].
      split; [lia|]. split; [lia|]. split; [lia|discriminate].
    + cbn [fst unknown_retry_of connection_retry_of raised_connect_failure]. exact B.
Qed.

(** X12. However a call of [req] ends, [unknown_retry] is not negative and
    [connection_retry] lies between 0 and 3; it is 3 exactly when the call
    has raised a connect failure. *)
Theorem retry_counters_bounded (method url : string) (script : list attempt)
    (st : State P) :
  let e := fst (req method url script st) in
  0 <= unknown_retry_of e /\
  0 <= connection_retry_of e <= 3 /\
  (connection_retry_of e = 3 <-> raised_connect_failure e = true).
Proof.
  unfold req. apply req_loop_bounds; lia.
Qed.

(** ** One transport at a time *)

Lemma open_clients_app (l l' : list event) (acc : list nat) :
  open_clients (l ++ l') acc = open_clients l' (open_clients l acc).
Proof.
  revert acc. induction l as [|e l IH]; intros acc; [reflexivity|].
  destruct e; simpl; apply IH.
Qed.

Lemma sf_requested (method url : string) (ctx : Ctx.t) (st : State P) :
  single_flight st -> single_flight (requested method url ctx st).
Proof.
  unfold single_flight, requested. cbn [log self]. intros E.
  rewrite open_clients_app, E. reflexivity.
Qed.

Lemma sf_closed (st : State P) (ctx : Ctx.t) (reset_at : Z) (inactive : bool)
    (msg : option string) :
  QueueClient.ctx (self st) = Some ctx ->
  single_flight st -> single_flight (closed st ctx reset_at inactive msg).
Proof.
  unfold single_flight, closed. cbn [log self QueueClient.ctx]. intros Ec E.
  rewrite open_clients_app, E, Ec. unfold release_report.
  destruct inactive; [|destruct (reset_at >? 0)];
    simpl; rewrite filter_cons;
    (destruct (decide _) as [D|D]; [|reflexivity]);
    exfalso; rewrite Nat.eqb_refl in D; exact D.
Qed.

Lemma sf_close_ctx (reset_at : Z) (inactive : bool) (msg : option string)
    (st : State P) :
  single_flight st -> single_flight (snd (_close_ctx reset_at inactive msg st)).
Proof.
  intros E. rewrite close_ctx_state.
  destruct (QueueClient.ctx (self st)) as [c|] eqn:Ec; [|exact E].
  apply sf_closed; assumption.
Qed.

Lemma sf_booked (username : string) (st : State P) :
  single_flight st -> single_flight (booked username st).
Proof.
  unfold single_flight, booked. cbn [log self QueueClient.ctx]. intros E.
  rewrite E. destruct (QueueClient.ctx (self st)); reflexivity.
Qed.

Lemma sf_org_change (st : State P) :
  QueueClient.ctx (self st) = None ->
  single_flight st -> single_flight (snd (_org_change st)).
Proof.
  intros Ec E. rewrite org_change_result. cbv zeta. unfold single_flight in *.
  rewrite Ec in E.
  destruct (fst (get_for_queue_or_wait _ _)) as [a|].
  - rewrite install_result. cbn [snd log self QueueClient.with_ctx QueueClient.ctx Ctx.clt].
    rewrite !open_clients_app, E. reflexivity.
  - cbn [snd log self QueueClient.with_pool QueueClient.ctx].
    rewrite open_clients_app, E, Ec. reflexivity.
Qed.

Lemma sf_change (st : State P) :
  QueueClient.ctx (self st) = None ->
  single_flight st -> single_flight (snd (_change st)).
Proof.
  intros Ec E. rewrite change_result. cbv zeta. unfold single_flight in *.
  rewrite Ec in E.
  destruct (QueueClient.redis_conn (self st)) as [r|];
    [|cbn [snd]; rewrite E, Ec; reflexivity].
  destruct (least_used_scan _ _ _ _) as [u|];
    [|cbn [snd log self]; rewrite open_clients_app, E, Ec; reflexivity].
  destruct (get_account _ _) as [a|].
  - rewrite install_result. cbn [snd log self QueueClient.with_ctx QueueClient.ctx Ctx.clt].
    rewrite !open_clients_app, E. reflexivity.
  - cbn [snd log self]. rewrite !open_clients_app, E, Ec. reflexivity.
Qed.

Lemma sf_get_ctx (st : State P) :
  stays (self st) = true ->
  single_flight st -> single_flight (snd (_get_ctx st)).
Proof.
  intros Hs E. destruct (QueueClient.ctx (self st)) as [c|] eqn:Ec.
  - rewrite (get_ctx_stays st c Hs Ec). exact E.
  - destruct (get_ctx_shape st) as [E1|[E1|[E1|(c & Ec' & _)]]]; [rewrite E1..|congruence].
    + exact E.
    + apply sf_change; assumption.
    + apply sf_org_change; assumption.
Qed.

Lemma sf_check_rep (now : Z) (rep : Response) (st : State P) :
  single_flight st -> single_flight (snd (_check_rep now rep st)).
Proof.
  intros E. pose proof (check_rep_classified now rep st) as C. unfold classified in C.
  destruct (fst (_check_rep now rep st)) as [x|e].
  - rewrite C. exact E.
  - destruct e; try contradiction; try (rewrite C; exact E).
    + destruct C as (a & b & c & ->). apply sf_close_ctx. exact E.
    + destruct C as [_ ->]. exact E.
Qed.

Lemma sf_handlers (e : exn) (now u c : Z) (st : State P) :
  single_flight st -> single_flight (snd (handlers e now u c st)).
Proof.
  intros E. unfold handlers. destruct e; cbv zeta; try exact E.
  - destruct (c + 1 >=? 3); exact E.
  - destruct (c + 1 >=? 3); exact E.
  - destruct (u + 1 >=? 3); [|exact E].
    pose proof (sf_close_ctx (now + 60 * 15) false None st E) as S.
    destruct (_close_ctx (now + 60 * 15) false None st) as [[x|e'] s]; exact S.
Qed.

Lemma sf_req_pass (method url : string) (a : attempt) (u c : Z) (st : State P) :
  stays (self st) = true ->
  single_flight st -> single_flight (snd (req_pass method url a u c st)).
Proof.
  intros Hs E. unfold req_pass.
  pose proof (sf_get_ctx st Hs E) as G.
  destruct (_get_ctx st) as [[[ctx|]|e] st1]; cbn [snd] in G; [|exact G|exact G].
  rewrite try_block_cases. destruct (outcome a) as [rep|e].
  - pose proof (sf_check_rep (ts a) rep _ (sf_requested method url ctx st1 G)) as C.
    destruct (_check_rep (ts a) rep (requested method url ctx st1)) as [[x|e] s];
      cbn [snd] in C.
    + cbn [snd]. apply sf_booked. exact C.
    + apply sf_handlers. exact C.
  - apply sf_handlers, sf_requested. exact G.
Qed.

Lemma stays_kept (q q' : QueueClient.t P) :
  settings q' = settings q ->
  QueueClient.redis_conn q' = QueueClient.redis_conn q ->
  stays q' = stays q.
Proof.
  unfold settings, stays. intros [= _ _ Ech _] ->. rewrite Ech. reflexivity.
Qed.

Lemma sf_req_loop (method url : string) (script : list attempt) (u c : Z)
    (st : State P) :
  stays (self st) = true ->
  single_flight st -> single_flight (snd (req_loop method url script u c st)).
Proof.
  revert u c st. induction script as [|a script IH]; intros u c st Hs E; [exact E|].
  cbn [req_loop].
  pose proof (sf_req_pass method url a u c st Hs E) as S.
  pose proof (req_pass_store method url a u c st) as [Ks Kr]. cbv zeta in Ks, Kr.
  destruct (req_pass method url a u c st) as [[u' c'|rep u' c'|e u' c'] st'];
    cbn [snd fst pass_response] in S, Ks, Kr; try exact S.
  apply IH; [|exact S]. rewrite (stays_kept _ _ Ks Kr). exact Hs.
Qed.

(** X13. While no switch is due by the stored count (in particular with no
    counter store), a call of [req] keeps the client single-flight,
    whatever the transport and the responses do: if the transports open
    before the call were exactly that of [self.ctx], so they are after it,
    and at most one transport is open. *)
Theorem single_flight_kept (method url : string) (script : list attempt)
    (st : State P) :
  stays (self st) = true ->
  single_flight st ->
  let st' := snd (req method url script st) in
  single_flight st' /\ (List.length (open_clients (log st') []) <= 1)%nat.
Proof.
  intros Hs E. cbv zeta.
  pose proof (sf_req_loop method url script 0 0 st Hs E) as S.
  split; [exact S|]. unfold req. unfold single_flight in S. rewrite S.
  destruct (QueueClient.ctx _); simpl; lia.
Qed.

(** ** A session of requests under the context manager *)

Lemma stays_no_store (q : QueueClient.t P) :
  QueueClient.redis_conn q = None -> stays q = true.
Proof. unfold stays. intros ->. reflexivity. Qed.

Lemma req_accepted (method url : string) (a : attempt) (st : State P) (ctx : Ctx.t) :
  stays (self st) = true ->
  QueueClient.ctx (self st) = Some ctx ->
  accepted a ->
  snd (req method url [a] st) =
    booked (Account.username (Ctx.acc ctx)) (requested method url ctx st).
Proof.
  intros Hs Ec (rep & Eo & Hok). unfold req. cbn [req_loop]. unfold req_pass.
  rewrite (get_ctx_stays st ctx Hs Ec), try_block_cases, Eo.
  specialize (Hok (requested method url ctx st)).
  destruct (_check_rep (ts a) rep (requested method url ctx st)) as [[x|e] s] eqn:E;
    [|discriminate].
  apply check_rep_returns in E. subst s. reflexivity.
Qed.

Lemma serve_cons (method url : string) (a : attempt) (attempts : list attempt)
    (st : State P) :
  serve method url (a :: attempts) st =
    serve method url attempts (snd (req method url [a] st)).
Proof. reflexivity. Qed.

Lemma serve_accepted (method url : string) (attempts : list attempt) (st : State P)
    (ctx : Ctx.t) :
  QueueClient.redis_conn (self st) = None ->
  QueueClient.ctx (self st) = Some ctx ->
  Forall accepted attempts ->
  let st' := serve method url attempts st in
  QueueClient.ctx (self st') =
    Some (Ctx.mk (Ctx.acc ctx) (Ctx.clt ctx)
            (Ctx.req_count ctx + Z.of_nat (List.length attempts))) /\
  log st' =
    (log st ++ repeat (Request (Ctx.clt ctx) method url) (List.length attempts))%list /\
  QueueClient.queue (self st') = QueueClient.queue (self st) /\
  QueueClient.pool (self st') = QueueClient.pool (self st).
Proof.
  intros Er Ec Hall. cbv zeta. revert st ctx Er Ec.
  induction Hall as [|a attempts Ha Hall IH]; intros st ctx Er Ec.
  - cbn [serve fold_left List.length repeat]. rewrite Ec, app_nil_r, Z.add_0_r.
    destruct ctx; repeat split.
  - rewrite serve_cons.
    rewrite (req_accepted method url a st ctx (stays_no_store _ Er) Ec Ha).
    set (st1 := booked (Account.username (Ctx.acc ctx)) (requested method url ctx st)).
    assert (Er1 : QueueClient.redis_conn (self st1) = None)
      by (unfold st1, booked; cbn [self requested QueueClient.redis_conn];
          rewrite Er; reflexivity).
    assert (Ec1 : QueueClient.ctx (self st1) =
                  Some (Ctx.mk (Ctx.acc ctx) (Ctx.clt ctx) (Ctx.req_count ctx + 1)))
      by (unfold st1, booked; cbn [self requested QueueClient.ctx];
          rewrite Ec; reflexivity).
    destruct (IH st1 _ Er1 Ec1) as (I1 & I2 & I3 & I4).
    cbn [Ctx.acc Ctx.clt Ctx.req_count] in I1, I2.
    split; [|split; [|split]].
    + rewrite I1. f_equal. f_equal. cbn [List.length]. lia.
    + rewrite I2. unfold st1, booked. cbn [log requested List.length repeat].
      rewrite <- app_assoc. reflexivity.
    + rewrite I3. reflexivity.
    + rewrite I4. reflexivity.
Qed.

(** X14. With no counter store, a run of requests that all succeed on an
    open context is served on that one context, and leaving the context
    manager afterwards closes its transport and reports a plain unlock
    whose count is the count the context had plus the number of requests
    served; nothing else is reported to the pool. *)
Theorem unlock_reports_successes (method url : string) (attempts : list attempt)
    (st : State P) (ctx : Ctx.t) :
  QueueClient.redis_conn (self st) = None ->
  QueueClient.ctx (self st) = Some ctx ->
  Forall accepted attempts ->
  let n := List.length attempts in
  let st' := snd (__aexit__ (serve method url attempts st)) in
  log st' =
    (log st ++ repeat (Request (Ctx.clt ctx) method url) n ++
     [Aclose (Ctx.clt ctx);
      Unlock (Account.username (Ctx.acc ctx)) (QueueClient.queue (self st))
        (Ctx.req_count ctx + Z.of_nat n)])%list /\
  QueueClient.ctx (self st') = None /\
  QueueClient.pool (self st') =
    unlock (QueueClient.pool (self st)) (Account.username (Ctx.acc ctx))
      (QueueClient.queue (self st)) (Ctx.req_count ctx + Z.of_nat n).
Proof.
  intros Er Ec Hall. cbv zeta.
  destruct (serve_accepted method url attempts st ctx Er Ec Hall) as (S1 & S2 & S3 & S4).
  unfold __aexit__. rewrite (close_ctx_some _ _ _ _ _ S1). cbn [snd].
  unfold closed, release_report, released_pool.
  cbn [log self QueueClient.ctx QueueClient.pool Ctx.acc Ctx.clt Ctx.req_count].
  replace (-1 >? 0) with false by reflexivity. cbv iota.
  rewrite S2, S3, S4, <- app_assoc. repeat split.
Qed.

(** ** Usage-balanced rotation *)

Lemma change_installs (st st1 : State P) (c : Ctx.t) :
  _change st = (Ret (Some c), st1) ->
  exists (r : gmap string Z) (u : string),
    QueueClient.redis_conn (self st) = Some r /\
    least_used_scan r (active_usernames (accounts_info (QueueClient.pool (self st))))
      None None = Some u /\
    get_account (QueueClient.pool (self st)) u = Some (Ctx.acc c).
Proof.
  rewrite change_result. cbv zeta.
  destruct (QueueClient.redis_conn (self st)) as [r|]; [|discriminate].
  destruct (least_used_scan _ _ _ _) as [u|] eqn:Eu; [|discriminate].
  destruct (get_account _ _) as [a|] eqn:Ea; [|discriminate].
  rewrite install_result. intros [= <- _]. exists r, u. repeat split; assumption.
Qed.

Lemma change_none (st st1 : State P) :
  _change st = (Ret None, st1) ->
  QueueClient.ctx (self st1) = QueueClient.ctx (self st) /\
  QueueClient.pool (self st1) = QueueClient.pool (self st) /\
  next_clt st1 = next_clt st /\
  exists evs, log st1 = (log st ++ evs)%list /\ forallb is_query evs = true.
Proof.
  rewrite change_result. cbv zeta.
  destruct (QueueClient.redis_conn (self st)) as [r|].
  - destruct (least_used_scan _ _ _ _) as [u|].
    + destruct (get_account _ _) as [a|]; [rewrite install_result; discriminate|].
      intros [= <-]. repeat split. exists [AccountsInfo; GetAccount u].
      cbn [log]. rewrite <- app_assoc. split; reflexivity.
    + intros [= <-]. repeat split. exists [AccountsInfo]. split; reflexivity.
  - intros [= <-]. repeat split. exists []. rewrite app_nil_r. split; reflexivity.
Qed.

Lemma org_change_none (st st1 : State P) :
  _org_change st = (Ret None, st1) ->
  QueueClient.ctx (self st1) = QueueClient.ctx (self st) /\
  next_clt st1 = next_clt st /\
  exists evs, log st1 = (log st ++ evs)%list /\ forallb is_query evs = true.
Proof.
  rewrite org_change_result. cbv zeta.
  destruct (fst (get_for_queue_or_wait _ _)) as [a|]; [rewrite install_result; discriminate|].
  intros [= <-]. repeat split. exists [GetForQueueOrWait (QueueClient.queue (self st))].
  split; reflexivity.
Qed.

(** X15. Under usage-balanced rotation (the flag set and a store
    configured, with a non-zero threshold) a selection goes through
    [_change] when the stored global count is a multiple of the threshold,
    and otherwise keeps the open context, going through [_change] only
    when none is open.  What [_change] installs is the account that the
    pool returns for the least-used active session, on a new transport
    with a zero count; when it answers nothing it has left [self.ctx] and
    the pool as they were. *)
Theorem usage_balanced_by_stored_count (st : State P) (r : gmap string Z) :
  QueueClient.ave (self st) = true ->
  QueueClient.redis_conn (self st) = Some r ->
  QueueClient.change (self st) <> 0 ->
  _get_ctx st =
    match r !! ACCOUNT_TOTAL_COUNT with
    | Some n =>
        if n mod QueueClient.change (self st) =? 0 then _change st
        else keep_or_change st
    | None => keep_or_change st
    end /\
  (forall c st1,
      _change st = (Ret (Some c), st1) ->
      (exists u,
         least_used_scan r (active_usernames (accounts_info (QueueClient.pool (self st))))
           None None = Some u /\
         get_account (QueueClient.pool (self st)) u = Some (Ctx.acc c)) /\
      freshly_installed st c st1) /\
  (forall st1,
      _change st = (Ret None, st1) ->
      QueueClient.ctx (self st1) = QueueClient.ctx (self st) /\
      QueueClient.pool (self st1) = QueueClient.pool (self st)).
Proof.
  intros Ea Er Hch.
  assert (E0 : (QueueClient.change (self st) =? 0) = false) by (apply Z.eqb_neq; assumption).
  split; [|split].
  - unfold _get_ctx, _change_acc_usage, _get_total_count, switch_due, keep_or_change.
    unfold_m.
    destruct (r !! ACCOUNT_TOTAL_COUNT) as [n|] eqn:En;
      try destruct (n mod QueueClient.change (self st) =? 0) eqn:Em;
      destruct (QueueClient.ctx (self st)) as [c|] eqn:Ec;
      repeat (cbv beta iota; cbn [andb configured];
              rewrite ?Ea, ?Er, ?En, ?E0, ?Em, ?Ec);
      reflexivity.
  - intros c st1 E. split.
    + destruct (change_installs st st1 c E) as (r' & u & Er' & Eu & Eg).
      assert (r' = r) by congruence. subst r'. exists u. split; assumption.
    + apply change_fresh. exact E.
  - intros st1 E. apply change_none in E. tauto.
Qed.

(** ** No session to select *)

(** X16. When selection answers nothing, [req] returns nothing on that
    pass, with both counters as they stood: no request is sent, no
    transport is made or closed, nothing is reported to the pool, and an
    open context, if there is one, stays open and is not released. *)
Theorem no_session_returns_none (method url : string) (a : attempt)
    (script : list attempt) (u c : Z) (st st1 : State P) :
  _get_ctx st = (Ret None, st1) ->
  req_loop method url (a :: script) u c st = (Returned None u c, st1) /\
  QueueClient.ctx (self st1) = QueueClient.ctx (self st) /\
  next_clt st1 = next_clt st /\
  exists evs, log st1 = (log st ++ evs)%list /\ forallb is_query evs = true.
Proof.
  intros E. split.
  - cbn [req_loop]. unfold req_pass. rewrite E. reflexivity.
  - destruct (get_ctx_shape st) as [E1|[E1|[E1|(c0 & _ & E1)]]];
      rewrite E1 in E; try discriminate.
    + apply change_none in E. tauto.
    + apply org_change_none in E. exact E.
Qed.

(** ** Entering and leaving *)

(** X17. Entering the context manager on a single-flight client with no
    store and no context, when the pool hands out a session, and leaving
    it at once, acquires once, makes one transport, closes it and unlocks
    the session with a count of zero; no transport is left open. *)
Theorem enter_then_exit_releases (st : State P) (a : Account.t) :
  QueueClient.redis_conn (self st) = None ->
  QueueClient.ctx (self st) = None ->
  single_flight st ->
  fst (get_for_queue_or_wait (QueueClient.pool (self st)) (QueueClient.queue (self st)))
    = Some a ->
  let st' := snd (__aexit__ (snd (__aenter__ st))) in
  log st' =
    (log st ++ [GetForQueueOrWait (QueueClient.queue (self st));
                MakeClient (Account.username a) (QueueClient.proxy (self st)) (next_clt st);
                Aclose (next_clt st);
                Unlock (Account.username a) (QueueClient.queue (self st)) 0])%list /\
  QueueClient.ctx (self st') = None /\
  QueueClient.pool (self st') =
    unlock (snd (get_for_queue_or_wait (QueueClient.pool (self st))
                   (QueueClient.queue (self st))))
      (Account.username a) (QueueClient.queue (self st)) 0 /\
  open_clients (log st') [] = [].
Proof.
  intros Er Ec Hsf Ea. cbv zeta.
  assert (Eg : _get_ctx st = _org_change st).
  { unfold _get_ctx, _get_total_count, switch_due. unfold_m.
    repeat (cbv beta iota; cbn [andb configured]; rewrite ?Er, ?Ec, ?andb_false_r).
    reflexivity. }
  assert (Ee : snd (__aenter__ st) = snd (_org_change st)).
  { unfold __aenter__, bind. rewrite Eg.
    destruct (_org_change st) as [[o|e] s]; reflexivity. }
  rewrite Ee, org_change_result. cbv zeta. rewrite Ea, install_result. cbn [snd].
  unfold __aexit__.
  erewrite close_ctx_some by reflexivity. cbn [snd].
  unfold closed, release_report, released_pool.
  cbn [log self next_clt QueueClient.ctx QueueClient.with_ctx QueueClient.with_pool
       QueueClient.queue QueueClient.proxy QueueClient.pool
       Ctx.acc Ctx.clt Ctx.req_count].
  replace (-1 >? 0) with false by reflexivity. cbv iota.
  assert (Elog : ((((log st ++ [GetForQueueOrWait (QueueClient.queue (self st))]) ++
                    [MakeClient (Account.username a) (QueueClient.proxy (self st))
                       (next_clt st)]) ++
                   [Aclose (next_clt st);
                    Unlock (Account.username a) (QueueClient.queue (self st)) 0])%list =
                 (log st ++ [GetForQueueOrWait (QueueClient.queue (self st));
                             MakeClient (Account.username a) (QueueClient.proxy (self st))
                               (next_clt st);
                             Aclose (next_clt st);
                             Unlock (Account.username a) (QueueClient.queue (self st)) 0])%list))
    by (rewrite <- !app_assoc; reflexivity).
  rewrite Elog. split; [reflexivity|]. split; [reflexivity|]. split; [reflexivity|].
  unfold single_flight in Hsf. rewrite Ec in Hsf.
  rewrite open_clients_app, Hsf. cbn [open_clients app].
  rewrite filter_cons. destruct (decide _) as [D|D]; [|reflexivity].
  exfalso. rewrite Nat.eqb_refl in D. exact D.
Qed.

(** ** Malformed error entries *)

Lemma dict_lookup_in (fields : list (string * jvalue)) (k : string) (v : jvalue) :
  dict_lookup fields k = Some v -> existsb (String.eqb k) (map fst fields) = true.
Proof.
  induction fields as [|[k' v'] fields IH]; simpl; [discriminate|].
  destruct (String.eqb k k'); [reflexivity|]. exact IH.
Qed.

Lemma map_format_error_stops (good rest : list jvalue) (x : jvalue)
    (msgs : list string) (e : exn) :
  res_map_list format_error good = Ret msgs ->
  format_error x = Raise e ->
  res_map_list format_error (good ++ x :: rest) = Raise e.
Proof.
  revert msgs. induction good as [|g good IH]; simpl; intros msgs Eg Ex.
  - rewrite Ex. reflexivity.
  - destruct (format_error g) as [y|]; [|discriminate]. simpl in *.
    destruct (res_map_list format_error good) as [ys|]; [|discriminate].
    rewrite (IH ys eq_refl Ex). reflexivity.
Qed.

(** X18. An entry of [errors] that is an object without a [message], the
    entries before it being well formed, makes the classifier raise
    [KeyError] while it builds the message: no rule is applied, not even
    the rate-limit rule, and the client is left as it was. *)
Theorem error_entry_without_message_raises (now : Z) (rep : Response)
    (fields entry : list (string * jvalue)) (good rest : list jvalue)
    (msgs : list string) (r t : Z) (st : State P) :
  json rep = Some (JDict fields) ->
  dict_lookup fields "errors" = Some (JList (good ++ JDict entry :: rest)) ->
  res_map_list format_error good = Ret msgs ->
  dict_lookup entry "message" = None ->
  int_header (x_rate_limit_remaining rep) = Ret r ->
  int_header (x_rate_limit_reset rep) = Ret t ->
  _check_rep now rep st = (Raise (PyError "KeyError"), st).
Proof.
  intros Ej Ef Eg Em Er Et.
  assert (Ex : format_error (JDict entry) = Raise (PyError "KeyError")).
  { unfold format_error, py_get, py_getitem. rewrite Em.
    destruct (dict_lookup entry "code"); reflexivity. }
  assert (E : err_msg_of (decoded rep) = Raise (PyError "KeyError")).
  { unfold decoded. rewrite Ej. unfold err_msg_of, py_in.
    rewrite (dict_lookup_in _ _ _ Ef). cbn [res_bind].
    unfold py_getitem. rewrite Ef. cbn [res_bind py_iter].
    rewrite (map_format_error_stops good rest _ msgs _ Eg Ex). reflexivity. }
  unfold _check_rep, bind, lift. rewrite Er, Et, E. reflexivity.
Qed.

(** ** Selection after a lock *)

(** [_change] asks the listing and the counts, not the locks: when the
    report of a lock leaves the listing and the lookup of the pool as
    they were, the selection that follows a rate limit hands out the
    session that has just been locked, if that session was the one the
    scan owed before. *)
Lemma change_after_lock (st : State P) (r : gmap string Z) (ctx : Ctx.t) (reset : Z) :
  QueueClient.redis_conn (self st) = Some r ->
  QueueClient.ctx (self st) = Some ctx ->
  reset > 0 ->
  let user := Account.username (Ctx.acc ctx) in
  let locked := lock_until (QueueClient.pool (self st)) user
                  (QueueClient.queue (self st)) reset (Ctx.req_count ctx) in
  accounts_info locked = accounts_info (QueueClient.pool (self st)) ->
  get_account locked user = Some (Ctx.acc ctx) ->
  least_used_scan r (active_usernames (accounts_info (QueueClient.pool (self st))))
    None None = Some user ->
  fst (_change (snd (_close_ctx reset false None st))) =
    Ret (Some (Ctx.mk (Ctx.acc ctx) (next_clt st) 0)).
Proof.
  intros Er Ec Hpos. cbv zeta. intros Ei Eg Es.
  assert (Egt : (reset >? 0) = true) by (apply Z.gtb_lt; lia).
  rewrite (close_ctx_some st ctx _ _ _ Ec). cbn [snd].
  rewrite change_result. cbv zeta.
  unfold closed, released_pool.
  cbn [self log next_clt QueueClient.redis_conn QueueClient.pool].
  rewrite Egt, Er. cbv beta iota. rewrite Ei, Es, Eg. reflexivity.
Qed.

(** ** The retry counters over a call *)

(** The classifier decides on the response alone: the state only tells
    what [_close_ctx] finds to close. *)
Lemma last_checks_verdict (now : Z) (rep : Response) (m : string) (s s' : State P) :
  fst (last_checks now rep m s) = fst (last_checks now rep m s').
Proof.
  unfold last_checks.
  destruct (negb (String.eqb m "OK")); [reflexivity|].
  destruct (raise_for_status rep); [|reflexivity].
  rewrite !close_then_raise. reflexivity.
Qed.

Lemma checks_verdict (now : Z) (rep : Response) (body : jvalue) (r t : Z)
    (m : string) (s s' : State P) :
  fst (checks now rep body r t m s) = fst (checks now rep body r t m s').
Proof.
  unfold checks.
  repeat match goal with
         | |- context [if ?b then _ else _] =>
             lazymatch b with
             | startswith m "(131) Dependency: Internal error" => fail
             | _ => destruct b;
                    [first [ reflexivity | rewrite !close_then_raise; reflexivity ]|]
             end
         end.
  unfold bind, lift, ret, raise.
  destruct (startswith m "(131) Dependency: Internal error").
  - destruct (partial_result rep body) as [[|]|e]; try reflexivity.
    repeat match goal with
           | |- context [if ?b then _ else _] => destruct b; [reflexivity|]
           end.
    apply last_checks_verdict.
  - repeat match goal with
           | |- context [if ?b then _ else _] => destruct b; [reflexivity|]
           end.
    apply last_checks_verdict.
Qed.

Lemma check_rep_verdict (now : Z) (rep : Response) (s s' : State P) :
  fst (_check_rep now rep s) = fst (_check_rep now rep s').
Proof.
  unfold _check_rep, bind, lift.
  destruct (int_header (x_rate_limit_remaining rep)); [|reflexivity].
  destruct (int_header (x_rate_limit_reset rep)); [|reflexivity].
  destruct (err_msg_of (decoded rep)); [|reflexivity].
  apply checks_verdict.
Qed.

Lemma raised_in_try_any (a : attempt) (s s' : State P) :
  raised_in_try a s = raised_in_try a s'.
Proof.
  unfold raised_in_try. destruct (outcome a) as [rep|e]; [|reflexivity].
  rewrite (check_rep_verdict (ts a) rep s s'). reflexivity.
Qed.

(** The [except] clauses, as far as the two counters go. *)
Lemma handlers_counters (e : exn) (now u c : Z) (st : State P) :
  fst (handlers e now u c st) =
    match e with
    | AbortReqError => Return None u c
    | HandledError | ReadTimeout | ProxyError => Continue u c
    | ConnectError | ConnectTimeout =>
        if c + 1 >=? 3 then Propagate e u (c + 1) else Continue u (c + 1)
    | SystemExit _ => Propagate e u c
    | PyError _ => Continue (u + 1) c
    end.
Proof.
  destruct e; simpl; try reflexivity.
  - destruct (c + 1 >=? 3); reflexivity.
  - destruct (c + 1 >=? 3); reflexivity.
  - destruct (u + 1 >=? 3); [|reflexivity].
    pose proof (close_ctx_returns (now + 60 * 15) false None st) as R.
    destruct (_close_ctx (now + 60 * 15) false None st) as [[x|e'] s]; [|discriminate].
    reflexivity.
Qed.

(** A pass that goes round the loop has added one to [unknown_retry] for
    an unknown error, one to [connection_retry] for a connect failure, and
    nothing else. *)
Lemma handlers_continue (e : exn) (now u c u1 c1 : Z) (st : State P) :
  fst (handlers e now u c st) = Continue u1 c1 ->
  u1 = u + (if is_unknown e then 1 else 0) /\
  c1 = c + (if is_connect_failure e then 1 else 0).
Proof.
  rewrite handlers_counters.
  destruct e; cbn [is_unknown is_connect_failure];
    try destruct (c + 1 >=? 3); try discriminate; intros [= <- <-]; lia.
Qed.

Lemma req_pass_continue (method url : string) (a : attempt) (u c u1 c1 : Z)
    (st st1 s : State P) :
  req_pass method url a u c st = (Continue u1 c1, st1) ->
  u1 = u + tally is_unknown [a] s /\ c1 = c + tally is_connect_failure [a] s.
Proof.
  cbn [tally]. rewrite !Z.add_0_r.
  unfold req_pass. destruct (_get_ctx st) as [[[ctx|]|e] s1]; try discriminate.
  rewrite try_block_cases. unfold raised_in_try.
  destruct (outcome a) as [rep|e].
  - rewrite (check_rep_verdict (ts a) rep s (requested method url ctx s1)).
    destruct (_check_rep (ts a) rep (requested method url ctx s1)) as [[x|e] s2];
      cbn [fst]; [discriminate|].
    intros E. apply (handlers_continue e (ts a) u c u1 c1 s2). rewrite E. reflexivity.
  - intros E.
    apply (handlers_continue e (ts a) u c u1 c1 (requested method url ctx s1)).
    rewrite E. reflexivity.
Qed.

(** While the loop is running, each counter is what it was at the start
    plus the number of attempts that ended in its kind of exception. *)
Lemma req_loop_tally (method url : string) (script : list attempt) (u c u' c' : Z)
    (st st' s : State P) :
  req_loop method url script u c st = (Looping u' c', st') ->
  u' = u + tally is_unknown script s /\ c' = c + tally is_connect_failure script s.
Proof.
  revert u c st. induction script as [|a script IH]; intros u c st.
  - cbn [req_loop tally]. intros [= <- <- _]. lia.
  - cbn [req_loop].
    destruct (req_pass method url a u c st) as [[u1 c1|rep u1 c1|x u1 c1] st1] eqn:E;
      try discriminate.
    intros L. apply IH in L as [-> ->].
    apply (req_pass_continue _ _ _ _ _ _ _ _ _ s) in E as [-> ->].
    cbn [tally]. lia.
Qed.

(** A call returns a response only from the success path, which has just
    set both counters to zero. *)
Lemma req_loop_returned (method url : string) (script : list attempt) (u c u' c' : Z)
    (st st' : State P) (rep : Response) :
  req_loop method url script u c st = (Returned (Some rep) u' c', st') ->
  u' = 0 /\ c' = 0.
Proof.
  revert u c st. induction script as [|a script IH]; intros u c st.
  - discriminate.
  - cbn [req_loop].
    destruct (req_pass method url a u c st) as [[u1 c1|rep1 u1 c1|x u1 c1] st1] eqn:E;
      try discriminate.
    + apply IH.
    + intros [= -> -> -> _]. revert E. unfold req_pass.
      destruct (_get_ctx st) as [[[ctx|]|e] s1]; try discriminate.
      destruct (try_block method url ctx a s1) as [[rep2|e] s2].
      * intros [= _ <- <- _]. split; reflexivity.
      * intros E. pose proof (handlers_no_response e (ts a) u c s2) as N.
        rewrite E in N. discriminate.
Qed.

(** C4 (amended). Within one call of [req] the two counters are set to
    zero on the success path only, as the response is returned.  A pass
    that ends in [HandledError] (rate limited, banned, unhandled status)
    goes round the loop with both counters unchanged, and so does a
    transient transport failure; an abort and the exit leave the call
    with both unchanged; a connect failure adds one to
    [connection_retry] and an unknown error one to [unknown_retry]: no
    exception sets a counter back.  Each call of [req] counts from zero,
    whatever state earlier calls have left: while its loop is running,
    [unknown_retry] is the number of its attempts that ended in an
    unknown error and [connection_retry] the number of those that ended
    in a connect failure; and when it returns a response both are zero. *)
Theorem counters_reset_on_success_only (method url : string) (a : attempt)
    (u c : Z) (st st1 st2 : State P) (ctx : Ctx.t) (r : res Response) :
  _get_ctx st = (Ret (Some ctx), st1) ->
  try_block method url ctx a st1 = (r, st2) ->
  match r with
  | Ret rep => req_pass method url a u c st = (Return (Some rep) 0 0, st2)
  | Raise HandledError => req_pass method url a u c st = (Continue u c, st2)
  | Raise e =>
      fst (req_pass method url a u c st) =
        match e with
        | AbortReqError => Return None u c
        | HandledError | ReadTimeout | ProxyError => Continue u c
        | ConnectError | ConnectTimeout =>
            if c + 1 >=? 3 then Propagate e u (c + 1) else Continue u (c + 1)
        | SystemExit _ => Propagate e u c
        | PyError _ => Continue (u + 1) c
        end
  end /\
  (forall (script : list attempt) (s0 s : State P) (u' c' : Z),
      fst (req method url script s0) = Looping u' c' ->
      u' = tally is_unknown script s /\ c' = tally is_connect_failure script s) /\
  (forall (script : list attempt) (s0 : State P) (rep : Response) (u' c' : Z),
      fst (req method url script s0) = Returned (Some rep) u' c' ->
      u' = 0 /\ c' = 0).
Proof.
  intros Eg Et. split; [|split].
  - rewrite (req_pass_by_try_block _ _ _ _ _ _ _ _ _ _ Eg Et).
    destruct r as [rep|e]; [reflexivity|].
    destruct e; first [reflexivity | exact (handlers_counters _ (ts a) u c st2)].
  - intros script s0 s u' c'. unfold req.
    destruct (req_loop method url script 0 0 s0) as [x s1] eqn:E. cbn [fst].
    intros ->. apply (req_loop_tally _ _ _ _ _ _ _ _ _ s) in E. lia.
  - intros script s0 rep u' c'. unfold req.
    destruct (req_loop method url script 0 0 s0) as [x s1] eqn:E. cbn [fst].
    intros ->. eapply req_loop_returned. exact E.
Qed.

End Further.

(** ** Further runs *)

(** A rate-limited response met with the counters at 1 and 2 leaves them
    at 1 and 2; two connect failures around it have been counted when the
    loop is still running. *)
Lemma counters_reset_on_success_only_witness :
  fst (@req_pass _ list_pool insertion_runtime "GET" "/search"
         (mkAttempt (Ret rate_limited) 50) 1 2 (holding_A None 15 true))
    = Continue 1 2 /\
  fst (@req _ list_pool insertion_runtime "GET" "/search"
         [failing ConnectError 50; mkAttempt (Ret rate_limited) 50;
          failing ConnectError 50] (holding_A None 15 true))
    = Looping 0 2.
Proof.
  pose proof (@counters_reset_on_success_only (list Session) list_pool insertion_runtime
                "GET" "/search" (mkAttempt (Ret rate_limited) 50) 1 2
                (holding_A None 15 true) (holding_A None 15 true) _ ctx_A
                (Raise HandledError) eq_refl eq_refl) as (W & T & _).
  split; [cbv beta iota in W; rewrite W; reflexivity|].
  destruct (fst (@req _ list_pool insertion_runtime "GET" "/search"
                   [failing ConnectError 50; mkAttempt (Ret rate_limited) 50;
                    failing ConnectError 50] (holding_A None 15 true))) eqn:E;
    try (vm_compute in E; discriminate).
  destruct (T _ _ (holding_A None 15 true) _ _ E) as [-> ->]. reflexivity.
Defined.

Lemma increment_total_then_get_witness :
  fst (_increment_total_count (holding_A (Some (total_count 4)) 15 false)) = Ret (Some 5).
Proof.
  pose proof (increment_total_then_get (holding_A (Some (total_count 4)) 15 false)
                (total_count 4) eq_refl) as (W & _).
  exact W.
Defined.

Lemma increment_account_usage_separate_witness :
  exists r',
    QueueClient.redis_conn
      (self (snd (_increment_account_usage "A" (holding_A (Some usage_A5_B2) 15 false))))
      = Some r' /\
    usage_of r' "A" = Some 6 /\ usage_of r' "B" = Some 2.
Proof.
  destruct (increment_account_usage_separate (holding_A (Some usage_A5_B2) 15 false)
              usage_A5_B2 "A" eq_refl) as (r' & E1 & E2 & _ & _ & E5).
  exists r'. split; [exact E1|]. split; [exact E2|].
  rewrite (E5 "B") by discriminate. reflexivity.
Defined.

Lemma ban_signatures_mark_inactive_witness :
  log (snd (@_check_rep _ list_pool insertion_runtime 50 quota_ban (holding_A None 15 true)))
    = [GetForQueueOrWait "search"; MakeClient "A" None 7;
       Aclose 7; MarkInactive "A" (Some "(88) Rate limit exceeded")].
Proof.
  pose proof (@ban_signatures_mark_inactive _ list_pool insertion_runtime 50 quota_ban
                5 100 "(88) Rate limit exceeded" (holding_A None 15 true) ctx_A
                eq_refl eq_refl eq_refl eq_refl eq_refl eq_refl) as (_ & W & _).
  exact W.
Defined.

Lemma no_errors_classified_by_status_witness :
  @_check_rep _ list_pool insertion_runtime 50 undecodable (holding_A None 15 true)
    = (Ret tt, holding_A None 15 true).
Proof.
  pose proof (@no_errors_classified_by_status _ list_pool insertion_runtime 50 undecodable
                (-1) (-1) (holding_A None 15 true) ctx_A
                eq_refl eq_refl (or_introl eq_refl) eq_refl) as (_ & W).
  exact W.
Defined.

Lemma unparseable_header_raises_witness :
  @_check_rep _ list_pool insertion_runtime 50 bad_header (holding_A None 15 true)
    = (Raise (PyError "ValueError"), holding_A None 15 true).
Proof.
  exact (@unparseable_header_raises _ list_pool insertion_runtime 50 bad_header "soon"
           (holding_A None 15 true) (or_introl eq_refl)).
Defined.

Lemma unknown_errors_lock_at_three_witness :
  let r := @req_pass _ list_pool insertion_runtime "GET" "/search"
             (failing (PyError "RuntimeError") 50) 2 0 (holding_A None 15 true) in
  fst r = Continue 3 0 /\
  log (snd r) = [GetForQueueOrWait "search"; MakeClient "A" None 7;
                 Request 7 "GET" "/search"; Aclose 7; LockUntil "A" "search" 950 0].
Proof.
  pose proof (@unknown_errors_lock_at_three _ list_pool insertion_runtime "GET" "/search"
                (failing (PyError "RuntimeError") 50) "RuntimeError" 2 0
                (holding_A None 15 true) (holding_A None 15 true) _ ctx_A
                eq_refl eq_refl ltac:(simpl; lia)) as (_ & W).
  cbv zeta in W. destruct W as [W1 W2]. cbv zeta. rewrite W1. split; [reflexivity|exact W2].
Defined.

Lemma transient_failures_retry_same_context_witness :
  @req_loop _ list_pool insertion_runtime "GET" "/search"
    [failing ReadTimeout 50; failing ProxyError 50; failing ReadTimeout 50] 1 2
    (holding_A None 15 true)
  = (Looping 1 2, requested_times 3 "GET" "/search" ctx_A (holding_A None 15 true)).
Proof.
  exact (@transient_failures_retry_same_context _ list_pool insertion_runtime
           "GET" "/search" [ReadTimeout; ProxyError; ReadTimeout] 50 [] 1 2
           (holding_A None 15 true) ctx_A eq_refl eq_refl
           ltac:(repeat constructor)).
Defined.

Lemma success_books_one_of_each_witness :
  let r := @req_pass _ list_pool insertion_runtime "GET" "/search"
             (mkAttempt (Ret ok_response) 50) 1 2
             (holding_A (Some (total_count 4)) 15 false) in
  fst r = Return (Some ok_response) 0 0 /\
  QueueClient.ctx (self (snd r)) = Some (Ctx.mk (Account.mk "A") 7 1).
Proof.
  pose proof (@success_books_one_of_each _ list_pool insertion_runtime "GET" "/search"
                (mkAttempt (Ret ok_response) 50) ok_response 1 2
                (holding_A (Some (total_count 4)) 15 false)
                (holding_A (Some (total_count 4)) 15 false) ctx_A
                eq_refl eq_refl eq_refl) as (W1 & W2 & _).
  split; [exact W1|exact W2].
Defined.

Lemma zero_change_raises_witness :
  @req _ list_pool insertion_runtime "GET" "/search" [mkAttempt (Ret ok_response) 50]
    (holding_A (Some (total_count 4)) 0 true)
  = (Raised (PyError "ZeroDivisionError") 0 0, holding_A (Some (total_count 4)) 0 true).
Proof.
  exact (@zero_change_raises _ list_pool insertion_runtime "GET" "/search"
           (mkAttempt (Ret ok_response) 50) [] (holding_A (Some (total_count 4)) 0 true)
           (total_count 4) 4 eq_refl eq_refl eq_refl).
Defined.

Lemma single_flight_kept_witness :
  single_flight
    (snd (@req _ list_pool insertion_runtime "GET" "/search"
            [mkAttempt (Ret rate_limited) 50; failing ConnectError 50;
             mkAttempt (Ret ok_response) 50]
            (holding_A None 15 true))).
Proof.
  exact (proj1 (@single_flight_kept _ list_pool insertion_runtime "GET" "/search"
                  [mkAttempt (Ret rate_limited) 50; failing ConnectError 50;
                   mkAttempt (Ret ok_response) 50]
                  (holding_A None 15 true) eq_refl eq_refl)).
Defined.

Lemma unlock_reports_successes_witness :
  log (snd (__aexit__
              (@serve _ list_pool insertion_runtime "GET" "/search"
                 [mkAttempt (Ret ok_response) 50; mkAttempt (Ret ok_response) 51]
                 (holding_A None 15 true))))
  = [GetForQueueOrWait "search"; MakeClient "A" None 7;
     Request 7 "GET" "/search"; Request 7 "GET" "/search";
     Aclose 7; Unlock "A" "search" 2].
Proof.
  assert (Hok : forall now, @accepted _ list_pool insertion_runtime
                              (mkAttempt (Ret ok_response) now))
    by (intros now; exists ok_response; split; [reflexivity|intros s; reflexivity]).
  pose proof (@unlock_reports_successes _ list_pool insertion_runtime "GET" "/search"
                [mkAttempt (Ret ok_response) 50; mkAttempt (Ret ok_response) 51]
                (holding_A None 15 true) ctx_A eq_refl eq_refl
                ltac:(repeat (constructor; [apply Hok|]); constructor))
    as (W & _).
  exact W.
Defined.

Lemma usage_balanced_by_stored_count_witness :
  fst (_get_ctx (holding_A (Some (<[ACCOUNT_REQ_COUNT_PREFIX +:+ "A" := 15]>
                                    (total_count 30))) 15 true))
    = Ret (Some (Ctx.mk (Account.mk "B") 8 0)).
Proof.
  pose proof (usage_balanced_by_stored_count
                (holding_A (Some (<[ACCOUNT_REQ_COUNT_PREFIX +:+ "A" := 15]>
                                    (total_count 30))) 15 true)
                (<[ACCOUNT_REQ_COUNT_PREFIX +:+ "A" := 15]> (total_count 30))
                eq_refl eq_refl ltac:(discriminate)) as (W & _).
  rewrite W. vm_compute. reflexivity.
Defined.

Lemma no_session_returns_none_witness :
  @req_loop _ list_pool insertion_runtime "GET" "/search"
    [mkAttempt (Ret ok_response) 50] 1 2 (client0 [] None None 15 false)
  = (Returned None 1 2,
     mkState (QueueClient.mk [] "search" false None None None 15 false None)
       [GetForQueueOrWait "search"] 7).
Proof.
  exact (proj1 (@no_session_returns_none _ list_pool insertion_runtime "GET" "/search"
                  (mkAttempt (Ret ok_response) 50) [] 1 2
                  (client0 [] None None 15 false) _ eq_refl)).
Defined.

Lemma enter_then_exit_releases_witness :
  log (snd (__aexit__ (snd (__aenter__ (client0 two_sessions None None 15 false)))))
  = [GetForQueueOrWait "search"; MakeClient "A" None 7; Aclose 7; Unlock "A" "search" 0].
Proof.
  exact (proj1 (enter_then_exit_releases (client0 two_sessions None None 15 false)
                  (Account.mk "A") eq_refl eq_refl eq_refl eq_refl)).
Defined.

Lemma error_entry_without_message_raises_witness :
  @_check_rep _ list_pool insertion_runtime 50 entry_without_message
    (holding_A None 15 true)
  = (Raise (PyError "KeyError"), holding_A None 15 true).
Proof.
  exact (@error_entry_without_message_raises _ list_pool insertion_runtime 50
           entry_without_message
           [("errors", JList [api_error 1 "a"; JDict [("code", JInt 2)]])]
           [("code", JInt 2)] [api_error 1 "a"] [] ["(1) a"] 0 100
           (holding_A None 15 true) eq_refl eq_refl eq_refl eq_refl eq_refl eq_refl).
Defined.
